(** * Expense analytics and budget enforcement: a shallow embedding

    The development follows the Python sources of the business-logic layer:
    [services/expense_service.py], [validators/expense_validator.py],
    [core/business_logic.py] and [processors/expense_processor.py].

    Conventions of the embedding.
    - The library is the one of CPython 3.11 on Linux.
    - Python's [decimal.Decimal] is a coefficient and an exponent; the
      arithmetic is the one of the default context (28 significant digits,
      ROUND_HALF_EVEN): sums, products, quotients and [round] (quantize) are
      rounded as Python rounds them.  The sign of a zero, the payload of a
      NaN and the exponent limits of the context (beyond 10^18) are not
      tracked.
    - A string is a sequence of code points below 256 (Latin-1), on which
      [strip], [lower] and [len] are those of Python.
    - An int is one that [str] prints: of at most 4300 digits, the limit of
      the interpreter.
    - A Python [dict] is an insertion-ordered association list with unique
      keys.
    - A raised exception is a value of [PyExc]; a call returns a [Result]. *)

From Stdlib Require Import ZArith QArith Qpower List String Ascii Bool Lia
  Permutation.
Import ListNotations.
Open Scope string_scope.
Open Scope list_scope.
Open Scope Z_scope.

(** ** Exceptions and results *)

(** The raise sites of [InvalidExpenseError] in the validator, one
    constructor per message. *)
Inductive InvalidReason : Type :=
| MissingField (field : string)  (* "Missing required field: {field}" *)
| AmountNotPositive              (* "Amount must be greater than 0" *)
| InvalidAmountFormat            (* "Invalid amount format" *)
| InvalidDateFormat              (* "Invalid date format" *)
| DescriptionTooLong             (* "Description exceeds maximum length ..." *)
| TagsNotList                    (* "Tags must be a list" *)
| TooManyTags                    (* "Maximum number of tags (10) exceeded" *)
| TagNotString                   (* "Tags must be strings" *)
| EmptyTag.                      (* "Empty tags are not allowed" *)

Inductive PyExc : Type :=
| InvalidExpenseError (why : InvalidReason)
| CategoryNotFoundError
| BudgetLimitExceededError
| InvalidOperation               (* decimal.InvalidOperation, an ArithmeticError *)
| DivisionByZero                 (* decimal.DivisionByZero *)
| KeyError (key : string)
| TypeError
| ValueError
| OverflowError                  (* an ArithmeticError, not a ValueError *)
| AttributeError
| RepositoryError (msg : string).

Inductive Result (A : Type) : Type :=
| Ok (a : A)
| Raise (e : PyExc).
Arguments Ok {A} a.
Arguments Raise {A} e.

Definition bind {A B : Type} (r : Result A) (k : A -> Result B) : Result B :=
  match r with
  | Ok a => k a
  | Raise e => Raise e
  end.

Declare Scope result_scope.
Delimit Scope result_scope with result.
Notation "x <- c ;; k" := (bind c (fun x => k))
  (at level 61, c at next level, right associativity) : result_scope.
Notation "c ;;; k" := (bind c (fun _ => k))
  (at level 61, right associativity) : result_scope.
Open Scope result_scope.

(** ** Decimal numbers *)

Module Dec.

(** A finite [Decimal]: the number [coeff * 10 ^ expo]. *)
Record Decimal : Type := mkDec { coeff : Z; expo : Z }.

(** What [Decimal(...)] can build: a finite number, an infinity or a NaN
    (quiet or signalling). *)
Inductive Number : Type :=
| Finite (d : Decimal)
| Infinity (negative : bool)
| NaN (signalling : bool).

(** The context precision, [getcontext().prec]. *)
Definition prec : Z := 28.

Definition of_int (z : Z) : Decimal := mkDec z 0.

(** [Decimal('0.00')] *)
Definition zero_00 : Decimal := mkDec 0 (-2).

(** [bool(d)]: a Decimal is falsy exactly when it is zero. *)
Definition truthy (d : Decimal) : bool := negb (coeff d =? 0).

(** The two coefficients brought to the smaller exponent. *)
Definition align (x y : Decimal) : Z * Z * Z :=
  let m := Z.min (expo x) (expo y) in
  (coeff x * 10 ^ (expo x - m), coeff y * 10 ^ (expo y - m), m).

(** The exact sum, at the smaller exponent. *)
Definition add_exact (x y : Decimal) : Decimal :=
  let '(a, b, m) := align x y in mkDec (a + b) m.

Definition compare (x y : Decimal) : comparison :=
  let '(a, b, _) := align x y in Z.compare a b.

Definition gtb (x y : Decimal) : bool :=
  match compare x y with Gt => true | _ => false end.

Definition leb (x y : Decimal) : bool := negb (gtb x y).

Definition eqb (x y : Decimal) : bool :=
  match compare x y with Eq => true | _ => false end.

(** The rational number a Decimal stands for. *)
Definition value (d : Decimal) : Q := inject_Z (coeff d) * (10 # 1) ^ (expo d).

(** [len(self._int)]: the number of decimal digits of the coefficient. *)
Fixpoint ndigits_aux (fuel : nat) (n : Z) : Z :=
  match fuel with
  | O => 1
  | S f => if n <? 10 then 1 else 1 + ndigits_aux f (n / 10)
  end.

Definition ndigits (n : Z) : Z :=
  ndigits_aux (S (Z.to_nat (Z.log2 (Z.abs n)))) (Z.abs n).

(** [n / 10^k] for [n >= 0], rounded to nearest, ties to the even quotient
    (ROUND_HALF_EVEN); [k <= 0] pads instead. *)
Definition div_pow10_half_even (n k : Z) : Z :=
  if k <=? 0 then n * 10 ^ (- k)
  else
    let p := 10 ^ k in
    let q := n / p in
    let r := n mod p in
    if (p <? 2 * r) || ((p =? 2 * r) && Z.odd q) then q + 1 else q.

(** The same with ROUND_HALF_UP, for comparison with the documented rule. *)
Definition div_pow10_half_up (n k : Z) : Z :=
  if k <=? 0 then n * 10 ^ (- k)
  else
    let p := 10 ^ k in
    let q := n / p in
    let r := n mod p in
    if p <=? 2 * r then q + 1 else q.

(** [Decimal._rescale(exp, ROUND_HALF_EVEN)], on sign and magnitude. *)
Definition rescale (d : Decimal) (e : Z) : Decimal :=
  mkDec (Z.sgn (coeff d) * div_pow10_half_even (Z.abs (coeff d)) (e - expo d)) e.

Definition rescale_half_up (d : Decimal) (e : Z) : Decimal :=
  mkDec (Z.sgn (coeff d) * div_pow10_half_up (Z.abs (coeff d)) (e - expo d)) e.

(** [Decimal.quantize(Decimal('1E-n'))] in the default context, which is what
    [round(d, n)] calls: InvalidOperation when the result would need more
    than [prec] digits. *)
Definition quantize (d : Decimal) (e : Z) : Result Decimal :=
  if coeff d =? 0 then Ok (mkDec 0 e)
  else if prec <? expo d + ndigits (coeff d) - 1 - e + 1 then Raise InvalidOperation
  else
    let ans := rescale d e in
    if prec <? ndigits (coeff ans) then Raise InvalidOperation else Ok ans.

(** [round(d, n)] for a Decimal [d]. *)
Definition round (d : Decimal) (n : Z) : Result Decimal := quantize d (- n).

(** [round] on whatever [Decimal(...)] built: an infinity cannot be
    quantized, a quiet NaN is returned as it is, a signalling one raises. *)
Definition round_number (x : Number) (n : Z) : Result Number :=
  match x with
  | Finite d => d' <- round d n ;; Ok (Finite d')
  | Infinity _ => Raise InvalidOperation
  | NaN false => Ok (NaN false)
  | NaN true => Raise InvalidOperation
  end.

(** [Decimal._fix]: round a result to the context precision. *)
Definition fix_prec (d : Decimal) : Decimal :=
  let n := ndigits (coeff d) in
  if n <=? prec then d
  else
    let k := n - prec in
    let q := div_pow10_half_even (Z.abs (coeff d)) k in
    if q =? 10 ^ prec
    then mkDec (Z.sgn (coeff d) * (q / 10)) (expo d + k + 1)
    else mkDec (Z.sgn (coeff d) * q) (expo d + k).

(** [x + y] and [x += y], [Decimal.__add__]: the exact sum, rounded to the
    context precision when it has more than [prec] digits. *)
Definition add (x y : Decimal) : Decimal := fix_prec (add_exact x y).

(** [x * y], rounded to the context precision. *)
Definition mul (x y : Decimal) : Decimal :=
  fix_prec (mkDec (coeff x * coeff y) (expo x + expo y)).

(** The loop of [__truediv__] that strips the zeros of an exact quotient. *)
Fixpoint strip_zeros (fuel : nat) (c e ideal : Z) : Z * Z :=
  match fuel with
  | O => (c, e)
  | S f =>
      if (e <? ideal) && (c mod 10 =? 0)
      then strip_zeros f (c / 10) (e + 1) ideal
      else (c, e)
  end.

(** [Decimal.__truediv__]. *)
Definition div (x y : Decimal) : Result Decimal :=
  if coeff y =? 0 then
    if coeff x =? 0 then Raise InvalidOperation else Raise DivisionByZero
  else if coeff x =? 0 then Ok (fix_prec (mkDec 0 (expo x - expo y)))
  else
    let sign := Z.sgn (coeff x) * Z.sgn (coeff y) in
    let a := Z.abs (coeff x) in
    let b := Z.abs (coeff y) in
    let shift := ndigits b - ndigits a + prec + 1 in
    let e := expo x - expo y - shift in
    let '(q, r) :=
      if 0 <=? shift then (a * 10 ^ shift / b, (a * 10 ^ shift) mod b)
      else (a / (b * 10 ^ (- shift)), a mod (b * 10 ^ (- shift))) in
    let '(c, e') :=
      if r =? 0 then strip_zeros (Z.to_nat shift) q e (expo x - expo y)
      else ((if q mod 5 =? 0 then q + 1 else q), e) in
    Ok (fix_prec (mkDec (sign * c) e')).

End Dec.

(** ** Strings *)

(** [str.isspace] on one character: the ASCII white space, the next-line
    control U+0085 and the no-break space U+00A0. *)
Definition is_space (c : ascii) : bool :=
  let n := Z.of_nat (nat_of_ascii c) in
  ((9 <=? n) && (n <=? 13)) || ((28 <=? n) && (n <=? 32))
  || (n =? 133) || (n =? 160).

Definition is_digit (c : ascii) : bool :=
  let n := Z.of_nat (nat_of_ascii c) in (48 <=? n) && (n <=? 57).

Definition digit_value (c : ascii) : Z := Z.of_nat (nat_of_ascii c) - 48.

(** [str.lower] on one character: the capital letters are A to Z and, in
    the upper half of Latin-1, U+00C0 to U+00DE without the sign U+00D7. *)
Definition lower_char (c : ascii) : ascii :=
  let n := nat_of_ascii c in
  if (((65 <=? n) && (n <=? 90))
      || ((192 <=? n) && (n <=? 222) && negb (n =? 215)))%nat
  then ascii_of_nat (n + 32) else c.

Fixpoint lstrip (s : list ascii) : list ascii :=
  match s with
  | c :: s' => if is_space c then lstrip s' else s
  | [] => []
  end.

Definition chars (s : string) : list ascii := list_ascii_of_string s.

(** [s.strip()] *)
Definition strip (s : string) : string :=
  string_of_list_ascii (rev (lstrip (rev (lstrip (chars s))))).

(** [s.lower()] *)
Definition lower (s : string) : string :=
  string_of_list_ascii (map lower_char (chars s)).

(** ** [Decimal(s)] for a string [s] *)

(** The longest prefix of digits, and the rest. *)
Fixpoint span_digits (s : list ascii) : list ascii * list ascii :=
  match s with
  | c :: s' =>
      if is_digit c then let '(ds, r) := span_digits s' in (c :: ds, r)
      else ([], s)
  | [] => ([], [])
  end.

Definition digits_value (ds : list ascii) : Z :=
  fold_left (fun acc c => 10 * acc + digit_value c) ds 0.

Definition read_sign (s : list ascii) : bool * list ascii :=
  match s with
  | "-"%char :: r => (true, r)
  | "+"%char :: r => (false, r)
  | _ => (false, s)
  end.

(** The exponent part: nothing, or [E], an optional sign and at least one
    digit, up to the end of the string. *)
Definition read_exponent (s : list ascii) : option Z :=
  match s with
  | [] => Some 0
  | c :: r =>
      if Ascii.eqb (lower_char c) "e" then
        let '(neg, r1) := read_sign r in
        match span_digits r1 with
        | ((_ :: _) as ds, []) =>
            Some (if neg then - digits_value ds else digits_value ds)
        | _ => None
        end
      else None
  end.

(** The finite numerals: digits with an optional point, at least one digit
    in all, and an optional exponent. *)
Definition read_finite (s : list ascii) : option Dec.Decimal :=
  let '(ip, r) := span_digits s in
  let '(fp, r1) :=
    match r with
    | "."%char :: r' => span_digits r'
    | _ => ([], r)
    end in
  match ip ++ fp with
  | [] => None
  | ds =>
      match read_exponent r1 with
      | Some e => Some (Dec.mkDec (digits_value ds) (e - Z.of_nat (List.length fp)))
      | None => None
      end
  end.

(** [NaN] or [sNaN] followed by diagnostic digits. *)
Definition read_nan (s : list ascii) : option bool :=
  let body (r : list ascii) :=
    match r with
    | "n"%char :: "a"%char :: "n"%char :: ds =>
        match span_digits ds with (_, []) => true | _ => false end
    | _ => false
    end in
  match s with
  | "s"%char :: r => if body r then Some true else None
  | _ => if body s then Some false else None
  end.

(** [Decimal(s)]: the numeric-string syntax of the decimal module, once the
    whitespace around [s] is stripped and its underscores are removed;
    anything else raises InvalidOperation (the ConversionSyntax signal). *)
Definition Decimal_of_string (s : string) : Result Dec.Number :=
  let body := filter (fun c => negb (Ascii.eqb c "_")) (chars (strip s)) in
  let '(neg, r) := read_sign body in
  let low := string_of_list_ascii (map lower_char r) in
  if String.eqb low "inf" || String.eqb low "infinity" then Ok (Dec.Infinity neg)
  else
    match read_nan (map lower_char r) with
    | Some sig => Ok (Dec.NaN sig)
    | None =>
        match read_finite r with
        | Some d =>
            Ok (Dec.Finite (Dec.mkDec (if neg then - Dec.coeff d else Dec.coeff d)
                                      (Dec.expo d)))
        | None => Raise InvalidOperation
        end
    end.


(** ** Python values *)

(** [datetime.datetime], naive. *)
Record datetime : Type := mkDatetime {
  year : Z; month : Z; day : Z;
  hour : Z; minute : Z; second : Z; microsecond : Z
}.

(** [t.replace(day=d)] *)
Definition replace_day (t : datetime) (d : Z) : datetime :=
  mkDatetime (year t) (month t) d (hour t) (minute t) (second t) (microsecond t).

Definition datetime_fields (t : datetime) : list Z :=
  [year t; month t; day t; hour t; minute t; second t; microsecond t].

Fixpoint lex_compare (a b : list Z) : comparison :=
  match a, b with
  | x :: a', y :: b' =>
      match Z.compare x y with Eq => lex_compare a' b' | c => c end
  | [], [] => Eq
  | [], _ :: _ => Lt
  | _ :: _, [] => Gt
  end.

(** [a <= b] and [a < b] on datetimes. *)
Definition datetime_leb (a b : datetime) : bool :=
  match lex_compare (datetime_fields a) (datetime_fields b) with
  | Gt => false
  | _ => true
  end.

Definition datetime_ltb (a b : datetime) : bool :=
  match lex_compare (datetime_fields a) (datetime_fields b) with
  | Lt => true
  | _ => false
  end.

(** The values an untyped expense record holds.  Floats are left out. *)
#[warnings="-register-all"]
Inductive PyVal : Type :=
| PyNone
| PyInt (z : Z)
| PyStr (s : string)
| PyDec (d : Dec.Number)
| PyDatetime (t : datetime)
| PyList (l : list PyVal).

(** ** Dictionaries *)

Definition dict (V : Type) : Type := list (string * V).

Fixpoint dict_get {V : Type} (d : dict V) (k : string) : option V :=
  match d with
  | [] => None
  | (k', v) :: r => if String.eqb k' k then Some v else dict_get r k
  end.

(** [k in d] *)
Definition contains {V : Type} (d : dict V) (k : string) : bool :=
  match dict_get d k with Some _ => true | None => false end.

(** [d[k]] *)
Definition getitem {V : Type} (d : dict V) (k : string) : Result V :=
  match dict_get d k with
  | Some v => Ok v
  | None => Raise (KeyError k)
  end.

(** [d[k] = v]: an existing key keeps its place, a new one goes last. *)
Fixpoint dict_set {V : Type} (d : dict V) (k : string) (v : V) : dict V :=
  match d with
  | [] => [(k, v)]
  | (k', v') :: r =>
      if String.eqb k' k then (k, v) :: r else (k', v') :: dict_set r k v
  end.

(** [d.values()] *)
Definition values {V : Type} (d : dict V) : list V := map snd d.

Definition keys {V : Type} (d : dict V) : list string := map fst d.

(** The raw expense record, [expense_data]. *)
Definition RawDict : Type := dict PyVal.

(** ** Building Decimals from values *)

(** [Decimal(str(v))].  [str] of an int is its numeral (of at most 4300
    digits, see the conventions) and [str] of a Decimal reads back as the
    same Decimal; [str] of [None], of a datetime or of a list is no
    numeral. *)
Definition Decimal_of_str (v : PyVal) : Result Dec.Number :=
  match v with
  | PyStr s => Decimal_of_string s
  | PyInt z => Ok (Dec.Finite (Dec.of_int z))
  | PyDec d => Ok d
  | PyNone | PyDatetime _ | PyList _ => Raise InvalidOperation
  end.

(** The range of a C [long] and of a [ssize_t], to which the list form of
    [Decimal] converts the ints it is given. *)
Definition c_long (z : Z) : bool := (- 2 ^ 63 <=? z) && (z <? 2 ^ 63).

(** The digits of the list form [Decimal([sign, digits, exponent])], each
    of them an int from 0 to 9. *)
Fixpoint tuple_digits (ds : list PyVal) (acc : Z) : Result Z :=
  match ds with
  | [] => Ok acc
  | PyInt z :: r =>
      if negb (c_long z) then Raise OverflowError
      else if (0 <=? z) && (z <=? 9) then tuple_digits r (10 * acc + z)
      else Raise ValueError
  | _ :: _ => Raise ValueError
  end.

(** [Decimal(v)], without [str].  The list form is looked at in the order
    sign, exponent, digits; the digits are looked at for an infinity and a
    NaN too. *)
Definition Decimal_of (v : PyVal) : Result Dec.Number :=
  match v with
  | PyStr s => Decimal_of_string s
  | PyInt z => Ok (Dec.Finite (Dec.of_int z))
  | PyDec d => Ok d
  | PyList [sign; digits; e] =>
      neg <- match sign with
             | PyInt z =>
                 if negb (c_long z) then Raise OverflowError
                 else if z =? 0 then Ok false
                 else if z =? 1 then Ok true
                 else Raise ValueError
             | _ => Raise ValueError
             end ;;
      number <- match e with
                | PyStr "F" => Ok (fun _ : Z => Dec.Infinity neg)
                | PyStr "n" => Ok (fun _ : Z => Dec.NaN false)
                | PyStr "N" => Ok (fun _ : Z => Dec.NaN true)
                | PyInt x =>
                    if negb (c_long x) then Raise OverflowError
                    else Ok (fun c : Z =>
                               Dec.Finite (Dec.mkDec (if neg then - c else c) x))
                | _ => Raise ValueError
                end ;;
      c <- match digits with
           | PyList ds => tuple_digits ds 0
           | _ => Raise ValueError
           end ;;
      Ok (number c)
  | PyList _ => Raise ValueError
  | PyNone | PyDatetime _ => Raise TypeError
  end.

(** [n <= 0] for what [Decimal(...)] built: comparing a NaN raises. *)
Definition number_le_zero (n : Dec.Number) : Result bool :=
  match n with
  | Dec.Finite d => Ok (Dec.leb d (Dec.of_int 0))
  | Dec.Infinity neg => Ok neg
  | Dec.NaN _ => Raise InvalidOperation
  end.

(** [len(v)] *)
Definition py_len (v : PyVal) : Result Z :=
  match v with
  | PyStr s => Ok (Z.of_nat (String.length s))
  | PyList l => Ok (Z.of_nat (List.length l))
  | _ => Raise TypeError
  end.

(** [try: body except (classes): handler] *)
Definition try_except {A : Type} (body : Result A) (catches : PyExc -> bool)
    (handler : Result A) : Result A :=
  match body with
  | Ok a => Ok a
  | Raise e => if catches e then handler else Raise e
  end.

Definition ValueError_or_TypeError (e : PyExc) : bool :=
  match e with
  | ValueError | TypeError => true
  | _ => false
  end.

Definition only_ValueError (e : PyExc) : bool :=
  match e with
  | ValueError => true
  | _ => false
  end.

(** ** validators/expense_validator.py and the normalisation of the service *)

Section Validation.

(** [datetime.fromisoformat], of the Python library: [None] stands for its
    ValueError. *)
Variable fromisoformat : string -> option datetime.

Definition REQUIRED_FIELDS : list string :=
  ["amount"; "category"; "date"; "description"].
Definition MAX_DESCRIPTION_LENGTH : Z := 500.
Definition MAX_TAGS : Z := 10.

Fixpoint check_required (fields : list string) (expense_data : RawDict)
    : Result unit :=
  match fields with
  | [] => Ok tt
  | field :: rest =>
      if contains expense_data field then check_required rest expense_data
      else Raise (InvalidExpenseError (MissingField field))
  end.

(** The [try] around the amount.  [InvalidExpenseError] comes from
    [exceptions/business_exceptions.py], which is not in the sources; it is
    taken to derive from [Exception] directly, so that the handler of
    ValueError and TypeError lets it through. *)
Definition validate_amount (expense_data : RawDict) : Result unit :=
  try_except
    (v <- getitem expense_data "amount" ;;
     amount <- Decimal_of_str v ;;
     nonpos <- number_le_zero amount ;;
     if nonpos : bool then Raise (InvalidExpenseError AmountNotPositive)
     else Ok tt)
    ValueError_or_TypeError
    (Raise (InvalidExpenseError InvalidAmountFormat)).

Definition validate_date (expense_data : RawDict) : Result unit :=
  try_except
    (v <- getitem expense_data "date" ;;
     match v with
     | PyStr s =>
         match fromisoformat s with
         | Some _ => Ok tt
         | None => Raise ValueError
         end
     | _ => Ok tt
     end)
    only_ValueError
    (Raise (InvalidExpenseError InvalidDateFormat)).

Fixpoint validate_each_tag (tags : list PyVal) : Result unit :=
  match tags with
  | [] => Ok tt
  | PyStr tag :: rest =>
      if String.eqb (strip tag) EmptyString then Raise (InvalidExpenseError EmptyTag)
      else validate_each_tag rest
  | _ :: _ => Raise (InvalidExpenseError TagNotString)
  end.

Definition validate_tags (expense_data : RawDict) : Result unit :=
  match dict_get expense_data "tags" with
  | None => Ok tt
  | Some (PyList tags) =>
      if MAX_TAGS <? Z.of_nat (List.length tags)
      then Raise (InvalidExpenseError TooManyTags)
      else validate_each_tag tags
  | Some _ => Raise (InvalidExpenseError TagsNotList)
  end.

(** [ExpenseValidator.validate_expense_data] *)
Definition validate_expense_data (expense_data : RawDict) : Result unit :=
  check_required REQUIRED_FIELDS expense_data ;;;
  validate_amount expense_data ;;;
  validate_date expense_data ;;;
  (description <- getitem expense_data "description" ;;
   n <- py_len description ;;
   if MAX_DESCRIPTION_LENGTH <? n
   then Raise (InvalidExpenseError DescriptionTooLong)
   else Ok tt) ;;;
  validate_tags expense_data.

(** The error kinds of the specification are the messages of
    [InvalidExpenseError]. *)
Definition is_InvalidAmount (e : PyExc) : bool :=
  match e with
  | InvalidExpenseError AmountNotPositive
  | InvalidExpenseError InvalidAmountFormat => true
  | _ => false
  end.

(** Iterating over [processed['tags']]: a list gives its elements, a string
    its characters, anything else is not iterable. *)
Definition iterate (v : PyVal) : Result (list PyVal) :=
  match v with
  | PyList l => Ok l
  | PyStr s => Ok (map (fun c => PyStr (String c EmptyString)) (chars s))
  | _ => Raise TypeError
  end.

(** [[tag.strip().lower() for tag in tags]] *)
Fixpoint normalize_tags (tags : list PyVal) : Result (list PyVal) :=
  match tags with
  | [] => Ok []
  | PyStr tag :: rest =>
      rest' <- normalize_tags rest ;;
      Ok (PyStr (lower (strip tag)) :: rest')
  | _ :: _ => Raise AttributeError
  end.

(** [ExpenseService._process_expense_data], on the contents of the record. *)
Definition _process_expense_data (expense_data : RawDict) : Result RawDict :=
  let processed := expense_data in
  v <- getitem processed "amount" ;;
  amount <- Decimal_of_str v ;;
  rounded <- Dec.round_number amount 2 ;;
  let processed := dict_set processed "amount" (PyDec rounded) in
  date <- getitem processed "date" ;;
  processed <-
    match date with
    | PyStr s =>
        match fromisoformat s with
        | Some t => Ok (dict_set processed "date" (PyDatetime t))
        | None => Raise ValueError
        end
    | _ => Ok processed
    end ;;
  match dict_get processed "tags" with
  | Some tags =>
      l <- iterate tags ;;
      l' <- normalize_tags l ;;
      Ok (dict_set processed "tags" (PyList l'))
  | None => Ok processed
  end.

End Validation.

(** ** models and the persistence collaborator *)

Module Category.
Record t : Type := mk {
  name : string;
  budget_limit : option Dec.Decimal   (* [None] is Python's [None] *)
}.
End Category.

Module Expense.
Record t : Type := mk {
  id : Z;
  user_id : string;
  amount : Dec.Decimal;
  category : string;
  date : datetime;
  description : string;
  tags : list string
}.
End Expense.

(** The interface the service uses of [repositories.expense_repository];
    [R] is the state of the store.  The lookups only read. *)
Class ExpenseRepository (R : Type) : Type := {
  get_category : R -> string -> PyVal -> Result (option Category.t);
  get_category_total : R -> string -> PyVal -> datetime -> Result Dec.Decimal;
  create : R -> string -> RawDict -> Result Expense.t * R;
  get_by_user : R -> string -> option datetime -> option datetime ->
                option string -> Result (list Expense.t)
}.

(** A call made on the repository, with its arguments. *)
Inductive Call : Type :=
| CallGetCategory (user_id : string) (key : PyVal)
| CallGetCategoryTotal (user_id : string) (key : PyVal) (start : datetime)
| CallCreate (user_id : string) (data : RawDict)
| CallGetByUser (user_id : string) (start_date end_date : option datetime)
                (category : option string).

Definition is_write (c : Call) : bool :=
  match c with
  | CallCreate _ _ => true
  | _ => false
  end.

(** What the logger was given. *)
Inductive LogRecord : Type :=
| InfoCreated (user_id : string) (expense_id : Z)
| ErrorCreating (e : PyExc)
| ErrorFetching (e : PyExc)
| ErrorCalculating (e : PyExc).

(** What a call of the service can see and change: the clock read by
    [datetime.now()], the store, the calls made on it so far (latest
    first) and the log. *)
Record World (R : Type) : Type := mkWorld {
  now : datetime;
  repository : R;
  calls : list Call;
  logged : list LogRecord
}.
Arguments mkWorld {R}.
Arguments now {R}.
Arguments repository {R}.
Arguments calls {R}.
Arguments logged {R}.

(** ** services/expense_service.py *)

Section Service.

Context {R : Type} {repo : ExpenseRepository R}.
Variable fromisoformat : string -> option datetime.

(** Computations of the service: state passing with exceptions. *)
Definition M (A : Type) : Type := World R -> Result A * World R.

Definition ret {A : Type} (a : A) : M A := fun w => (Ok a, w).
Definition raise {A : Type} (e : PyExc) : M A := fun w => (Raise e, w).
Definition lift {A : Type} (r : Result A) : M A := fun w => (r, w).

Definition mbind {A B : Type} (m : M A) (k : A -> M B) : M B :=
  fun w =>
    match m w with
    | (Ok a, w') => k a w'
    | (Raise e, w') => (Raise e, w')
    end.

(** [try: body except Exception as e: handler(e)] *)
Definition try_catch {A : Type} (body : M A) (handler : PyExc -> M A) : M A :=
  fun w =>
    match body w with
    | (Ok a, w') => (Ok a, w')
    | (Raise e, w') => handler e w'
    end.

Definition record_call (c : Call) : M unit :=
  fun w => (Ok tt, mkWorld (now w) (repository w) (c :: calls w) (logged w)).

Definition log (l : LogRecord) : M unit :=
  fun w => (Ok tt, mkWorld (now w) (repository w) (calls w) (l :: logged w)).

Definition datetime_now : M datetime := fun w => (Ok (now w), w).

Definition repository_get_category (user_id : string) (key : PyVal)
    : M (option Category.t) :=
  mbind (record_call (CallGetCategory user_id key)) (fun _ =>
  fun w => (get_category (repository w) user_id key, w)).

Definition repository_get_category_total (user_id : string) (key : PyVal)
    (start : datetime) : M Dec.Decimal :=
  mbind (record_call (CallGetCategoryTotal user_id key start)) (fun _ =>
  fun w => (get_category_total (repository w) user_id key start, w)).

Definition repository_create (user_id : string) (data : RawDict)
    : M Expense.t :=
  mbind (record_call (CallCreate user_id data)) (fun _ =>
  fun w =>
    let '(r, s) := create (repository w) user_id data in
    (r, mkWorld (now w) s (calls w) (logged w))).

Definition repository_get_by_user (user_id : string)
    (start_date end_date : option datetime) (category : option string)
    : M (list Expense.t) :=
  mbind (record_call (CallGetByUser user_id start_date end_date category))
    (fun _ => fun w =>
       (get_by_user (repository w) user_id start_date end_date category, w)).

(** [current_total + amount > limit], for what [Decimal(...)] built: a
    NaN raises at the comparison (a signalling one at the sum). *)
Definition total_exceeds (current_total : Dec.Decimal) (amount : Dec.Number)
    (limit : Dec.Decimal) : Result bool :=
  match amount with
  | Dec.Finite a => Ok (Dec.gtb (Dec.add current_total a) limit)
  | Dec.Infinity negative => Ok (negb negative)
  | Dec.NaN _ => Raise InvalidOperation
  end.

(** [if category.budget_limit:] *)
Definition has_budget_limit (category : Category.t) : option Dec.Decimal :=
  match Category.budget_limit category with
  | Some limit => if Dec.truthy limit then Some limit else None
  | None => None
  end.

(** [ExpenseService._check_budget_limits] *)
Definition _check_budget_limits (user_id : string) (expense_data : RawDict)
    : M unit :=
  mbind (lift (getitem expense_data "category")) (fun key =>
  mbind (repository_get_category user_id key) (fun category =>
  match category with
  | None => raise CategoryNotFoundError
  | Some category =>
      match has_budget_limit category with
      | Some limit =>
          mbind datetime_now (fun t =>
          mbind (repository_get_category_total user_id key (replace_day t 1))
            (fun current_total =>
          mbind (lift (v <- getitem expense_data "amount" ;;
                       amount <- Decimal_of v ;;
                       total_exceeds current_total amount limit))
            (fun exceeds =>
          if exceeds : bool then raise BudgetLimitExceededError else ret tt)))
      | None => ret tt
      end
  end)).

(** [ExpenseService.create_expense] *)
Definition create_expense (user_id : string) (expense_data : RawDict)
    : M Expense.t :=
  try_catch
    (mbind (lift (validate_expense_data fromisoformat expense_data)) (fun _ =>
     mbind (_check_budget_limits user_id expense_data) (fun _ =>
     mbind (lift (_process_expense_data fromisoformat expense_data))
       (fun processed_expense =>
     mbind (repository_create user_id processed_expense) (fun expense =>
     mbind (log (InfoCreated user_id (Expense.id expense))) (fun _ =>
     ret expense))))))
    (fun e => mbind (log (ErrorCreating e)) (fun _ => raise e)).

(** [ExpenseService.get_user_expenses] *)
Definition get_user_expenses (user_id : string)
    (start_date end_date : option datetime) (category : option string)
    : M (list Expense.t) :=
  try_catch
    (repository_get_by_user user_id start_date end_date category)
    (fun e => mbind (log (ErrorFetching e)) (fun _ => raise e)).

End Service.

(** ** An in-memory repository *)

Module MemRepo.

(** Modelled from the spec: the ExpenseRepository and CategoryRepository
    collaborators ([repositories/expense_repository.py] is not part of the
    sources).  The store keeps each user's categories and the persisted
    expenses; [get_category_total] is called by the service with a period
    start only, and sums the persisted amounts of the user and category
    dated at or after it. *)
Record t : Type := mk {
  categories : list (string * Category.t);   (* owner, category *)
  expenses : list Expense.t;
  next_id : Z
}.

Definition lookup_category (s : t) (user_id : string) (key : PyVal)
    : option Category.t :=
  match key with
  | PyStr k =>
      match find (fun uc => String.eqb (fst uc) user_id
                            && String.eqb (Category.name (snd uc)) k)
                 (categories s) with
      | Some uc => Some (snd uc)
      | None => None
      end
  | _ => None
  end.

Definition sum_amounts (l : list Expense.t) : Dec.Decimal :=
  fold_left (fun acc e => Dec.add acc (Expense.amount e)) l Dec.zero_00.

Definition owned (user_id category : string) (e : Expense.t) : bool :=
  String.eqb (Expense.user_id e) user_id
  && String.eqb (Expense.category e) category.

Definition total_since (s : t) (user_id : string) (key : PyVal)
    (start : datetime) : Dec.Decimal :=
  match key with
  | PyStr k =>
      sum_amounts
        (filter (fun e => owned user_id k e
                          && datetime_leb start (Expense.date e))
                (expenses s))
  | _ => Dec.zero_00
  end.

Fixpoint tag_strings (l : list PyVal) : option (list string) :=
  match l with
  | [] => Some []
  | PyStr s :: r =>
      match tag_strings r with
      | Some r' => Some (s :: r')
      | None => None
      end
  | _ :: _ => None
  end.

Definition insert (s : t) (user_id : string) (data : RawDict)
    : Result Expense.t * t :=
  match dict_get data "amount", dict_get data "category",
        dict_get data "date", dict_get data "description" with
  | Some (PyDec (Dec.Finite a)), Some (PyStr c),
    Some (PyDatetime d), Some (PyStr text) =>
      let tags :=
        match dict_get data "tags" with
        | Some (PyList l) => tag_strings l
        | Some _ => None
        | None => Some []
        end in
      match tags with
      | Some tg =>
          let e := Expense.mk (next_id s) user_id a c d text tg in
          (Ok e, mk (categories s) (expenses s ++ [e]) (next_id s + 1))
      | None => (Raise (RepositoryError "tags"), s)
      end
  | _, _, _, _ => (Raise (RepositoryError "record"), s)
  end.

Definition in_range (start_date end_date : option datetime) (d : datetime)
    : bool :=
  match start_date with Some a => datetime_leb a d | None => true end
  && match end_date with Some b => datetime_ltb d b | None => true end.

Definition select (s : t) (user_id : string)
    (start_date end_date : option datetime) (category : option string)
    : list Expense.t :=
  filter (fun e =>
            String.eqb (Expense.user_id e) user_id
            && in_range start_date end_date (Expense.date e)
            && match category with
               | Some c => String.eqb (Expense.category e) c
               | None => true
               end)
         (expenses s).

#[global] Instance repository : ExpenseRepository t := {|
  get_category s u k := Ok (lookup_category s u k);
  get_category_total s u k start := Ok (total_since s u k start);
  create := insert;
  get_by_user s u a b c := Ok (select s u a b c)
|}.




End MemRepo.

(** ** core/business_logic.py *)

(** The summary dictionary of [_generate_summary]. *)
Record Summary : Type := mkSummary {
  total : Dec.Decimal;
  categories : dict Dec.Decimal;
  tags : dict Dec.Decimal;
  daily_totals : dict Dec.Decimal;
  count : Z
}.

(** [if k not in d: d[k] = Decimal('0.00')] and then [d[k] += amount] *)
Definition accumulate (d : dict Dec.Decimal) (k : string)
    (amount : Dec.Decimal) : dict Dec.Decimal :=
  let d := if contains d k then d else dict_set d k Dec.zero_00 in
  match dict_get d k with
  | Some v => dict_set d k (Dec.add v amount)
  | None => d
  end.

(** The low [width] decimal digits of [n]. *)
Fixpoint zero_padded (width : nat) (n : Z) : list ascii :=
  match width with
  | O => []
  | S w => zero_padded w (n / 10) ++ [ascii_of_nat (48 + Z.to_nat (n mod 10))]
  end.

(** [t.strftime('%Y-%m-%d')]: the month and the day in two digits, the
    year in the digits it has, which is how the C library of Linux prints
    [%Y] (a year below 1000 is not padded). *)
Definition strftime_Ymd (t : datetime) : string :=
  string_of_list_ascii
    (zero_padded (Z.to_nat (Dec.ndigits (year t))) (year t)
     ++ "-"%char :: zero_padded 2 (month t)
     ++ "-"%char :: zero_padded 2 (day t)).

(** One turn of the loop of [_generate_summary]. *)
Definition summary_step (summary : Summary) (expense : Expense.t) : Summary :=
  let amount := Expense.amount expense in
  mkSummary
    (Dec.add (total summary) amount)
    (accumulate (categories summary) (Expense.category expense) amount)
    (fold_left (fun tags tag => accumulate tags tag amount)
               (Expense.tags expense) (tags summary))
    (accumulate (daily_totals summary)
                (strftime_Ymd (Expense.date expense)) amount)
    (count summary).

(** [ExpenseBusinessLogic._generate_summary] *)
Definition _generate_summary (expenses : list Expense.t) : Summary :=
  fold_left summary_step expenses
    (mkSummary Dec.zero_00 [] [] [] (Z.of_nat (List.length expenses))).

(** The range of a C [int], to which the constructor of [datetime]
    converts its arguments before it looks at them. *)
Definition c_int (z : Z) : bool := (- 2 ^ 31 <=? z) && (z <? 2 ^ 31).

(** [datetime(year, month, 1)]: OverflowError when an argument is not a C
    [int], ValueError when it is one but outside the calendar. *)
Definition first_of_month (y m : Z) : Result datetime :=
  if negb (c_int y && c_int m) then Raise OverflowError
  else if (1 <=? y) && (y <=? 9999) && (1 <=? m) && (m <=? 12)
  then Ok (mkDatetime y m 1 0 0 0 0)
  else Raise ValueError.

Section BusinessLogic.

Context {R : Type} {repo : ExpenseRepository R}.

(** [ExpenseBusinessLogic.calculate_monthly_summary] *)
Definition calculate_monthly_summary (user_id : string) (m y : Z)
    : M (R := R) Summary :=
  try_catch
    (mbind (lift (first_of_month y m)) (fun start_date =>
     mbind (lift (if m =? 12 then first_of_month (y + 1) 1
                  else first_of_month y (m + 1))) (fun end_date =>
     mbind (get_user_expenses user_id (Some start_date) (Some end_date) None)
       (fun expenses =>
     ret (_generate_summary expenses)))))
    (fun e => mbind (log (ErrorCalculating e)) (fun _ => raise e)).

End BusinessLogic.

(** ** processors/expense_processor.py *)

(** An expense dictionary given to the processor.  Its amount is a Decimal,
    on which [Decimal(str(amount))] gives the amount back; the date is only
    copied. *)
Record Item : Type := mkItem {
  amount : Dec.Decimal;
  category : string;
  date : PyVal;
  description : string
}.

(** The dictionary kept in [analysis['highest_expense']]. *)
Record Highest : Type := mkHighest {
  highest_amount : Dec.Decimal;
  highest_category : string;
  highest_date : PyVal
}.

Record Analysis : Type := mkAnalysis {
  total_spent : Dec.Decimal;
  average_daily : Dec.Decimal;
  highest_expense : option Highest;
  most_frequent_category : option string;
  category_distribution : dict Dec.Decimal;
  unusual_expenses : list Item
}.

(** The analysis returned for no expenses. *)
Definition empty_analysis : Analysis :=
  mkAnalysis Dec.zero_00 Dec.zero_00 None None [] [].

(** What the first loop of [analyze_spending_pattern] updates. *)
Record Totals : Type := mkTotals {
  spent : Dec.Decimal;
  distribution : dict Dec.Decimal;
  category_counts : dict Z;
  highest : option Highest
}.

(** One turn of the first loop. *)
Definition totals_step (st : Totals) (expense : Item) : Result Totals :=
  let amount := amount expense in
  let spent := Dec.add (spent st) amount in
  let category := category expense in
  let '(dist, counts) :=
    if contains (distribution st) category
    then (distribution st, category_counts st)
    else (dict_set (distribution st) category Dec.zero_00,
          dict_set (category_counts st) category 0) in
  d <- getitem dist category ;;
  let dist := dict_set dist category (Dec.add d amount) in
  n <- getitem counts category ;;
  let counts := dict_set counts category (n + 1) in
  let highest :=
    match highest st with
    | None => Some (mkHighest amount category (date expense))
    | Some h =>
        if Dec.gtb amount (highest_amount h)
        then Some (mkHighest amount category (date expense))
        else Some h
    end in
  Ok (mkTotals spent dist counts highest).

Fixpoint totals_loop (expenses : list Item) (st : Totals) : Result Totals :=
  match expenses with
  | [] => Ok st
  | expense :: rest => st' <- totals_step st expense ;; totals_loop rest st'
  end.

(** [max(items, key=lambda x: x[1])]: the first item with the largest
    count; ValueError on no item. *)
Fixpoint max_from (best : string * Z) (items : list (string * Z))
    : string * Z :=
  match items with
  | [] => best
  | x :: rest => max_from (if snd best <? snd x then x else best) rest
  end.

Definition max_by_count (items : list (string * Z)) : Result (string * Z) :=
  match items with
  | [] => Raise ValueError
  | x :: rest => Ok (max_from x rest)
  end.

(** [{cat: total / category_counts[cat] for cat, total in ...items()}] *)
Fixpoint averages (dist : dict Dec.Decimal) (counts : dict Z)
    : Result (dict Dec.Decimal) :=
  match dist with
  | [] => Ok []
  | (cat, sum) :: rest =>
      n <- getitem counts cat ;;
      avg <- Dec.div sum (Dec.of_int n) ;;
      rest' <- averages rest counts ;;
      Ok ((cat, avg) :: rest')
  end.

(** The second loop: the expenses above twice the average of their
    category, in the order of the input. *)
Fixpoint unusual_loop (expenses : list Item) (category_averages : dict Dec.Decimal)
    : Result (list Item) :=
  match expenses with
  | [] => Ok []
  | expense :: rest =>
      category_avg <- getitem category_averages (category expense) ;;
      rest' <- unusual_loop rest category_averages ;;
      if Dec.gtb (amount expense) (Dec.mul category_avg (Dec.of_int 2))
      then Ok (expense :: rest')
      else Ok rest'
  end.

(** [needle in haystack], on strings. *)
Fixpoint is_prefix (p s : list ascii) : bool :=
  match p, s with
  | [], _ => true
  | _ :: _, [] => false
  | a :: p', b :: s' => Ascii.eqb a b && is_prefix p' s'
  end.

Fixpoint occurs_in (needle haystack : list ascii) : bool :=
  is_prefix needle haystack
  || match haystack with
     | [] => false
     | _ :: rest => occurs_in needle rest
     end.

Definition substring (needle haystack : string) : bool :=
  occurs_in (chars needle) (chars haystack).

(** The rules of [categorize_expense], in the order of the dictionary. *)
Definition categories_keywords : dict (list string) :=
  [("food", ["restaurant"; "grocery"; "food"; "meal"]);
   ("transport", ["gas"; "fuel"; "taxi"; "uber"; "train"]);
   ("utilities", ["electricity"; "water"; "internet"; "phone"]);
   ("entertainment", ["movie"; "game"; "concert"; "show"])].

(** [amount > 1000] for what [Decimal(...)] built. *)
Definition number_gt_1000 (n : Dec.Number) : Result bool :=
  match n with
  | Dec.Finite d => Ok (Dec.gtb d (Dec.of_int 1000))
  | Dec.Infinity negative => Ok (negb negative)
  | Dec.NaN _ => Raise InvalidOperation
  end.

(** [ExpenseProcessor.categorize_expense] *)
Definition categorize_expense (expense_data : RawDict) : Result string :=
  d <- getitem expense_data "description" ;;
  description <- match d with
                 | PyStr s => Ok (lower s)
                 | _ => Raise AttributeError
                 end ;;
  v <- getitem expense_data "amount" ;;
  amount <- Decimal_of_str v ;;
  match find (fun rule => existsb (fun keyword => substring keyword description)
                                  (snd rule))
             categories_keywords with
  | Some rule => Ok (fst rule)
  | None =>
      high <- number_gt_1000 amount ;;
      Ok (if high : bool then "major_expense" else "other")
  end.

(** [ExpenseProcessor.analyze_spending_pattern] *)
Definition analyze_spending_pattern (expenses : list Item) (period_days : Z)
    : Result Analysis :=
  match expenses with
  | [] => Ok empty_analysis
  | _ :: _ =>
      st <- totals_loop expenses (mkTotals Dec.zero_00 [] [] None) ;;
      average <- Dec.div (spent st) (Dec.of_int period_days) ;;
      most <- max_by_count (category_counts st) ;;
      category_averages <- averages (distribution st) (category_counts st) ;;
      unusual <- unusual_loop expenses category_averages ;;
      Ok (mkAnalysis (spent st) average (highest st) (Some (fst most))
                     (distribution st) unusual)
  end.

(** ** The record as an object: [_process_expense_data] on a store

    A dictionary and a list are objects in a store, reached by reference,
    so that a change made through one reference is seen through every
    other one.  This is the same function as [_process_expense_data] above,
    statement by statement, with the record given by its address. *)

Module Store.

Definition loc : Type := nat.

(** What a dictionary entry or a list element holds: an immutable value,
    or the address of a list or dictionary. *)
Inductive value : Type :=
| Imm (v : PyVal)
| Ref (l : loc).

Inductive object : Type :=
| Dict (d : dict value)
| List (l : list value).

(** The store: the object at address [l] is the [l]-th one. *)
Definition heap : Type := list object.

Definition load (h : heap) (l : loc) : option object := nth_error h l.

Fixpoint update (h : heap) (l : loc) (o : object) : heap :=
  match h, l with
  | [], _ => []
  | _ :: r, O => o :: r
  | x :: r, S l' => x :: update r l' o
  end.

(** Computations on the store. *)
Definition H (A : Type) : Type := heap -> Result A * heap.

Definition hret {A : Type} (a : A) : H A := fun h => (Ok a, h).
Definition hraise {A : Type} (e : PyExc) : H A := fun h => (Raise e, h).
Definition hlift {A : Type} (r : Result A) : H A := fun h => (r, h).

Definition hbind {A B : Type} (m : H A) (k : A -> H B) : H B :=
  fun h =>
    match m h with
    | (Ok a, h') => k a h'
    | (Raise e, h') => (Raise e, h')
    end.

Notation "x <~ c ;; k" := (hbind c (fun x => k))
  (at level 61, c at next level, right associativity).

(** A new object, at the first free address. *)
Definition alloc (o : object) : H loc :=
  fun h => (Ok (List.length h), h ++ [o]).

Definition load_dict (l : loc) : H (dict value) :=
  fun h =>
    match load h l with
    | Some (Dict d) => (Ok d, h)
    | _ => (Raise TypeError, h)
    end.

(** [d.copy()]: a new dictionary with the same entries. *)
Definition dict_copy (l : loc) : H loc :=
  d <~ load_dict l ;; alloc (Dict d).

(** [d[k]] *)
Definition dict_getitem (l : loc) (k : string) : H value :=
  d <~ load_dict l ;; hlift (getitem d k).

(** [k in d] *)
Definition dict_contains (l : loc) (k : string) : H bool :=
  d <~ load_dict l ;; hret (contains d k).

(** [d[k] = v], in place. *)
Definition dict_setitem (l : loc) (k : string) (v : value) : H unit :=
  d <~ load_dict l ;;
  fun h => (Ok tt, update h l (Dict (dict_set d k v))).

(** The elements an iteration goes through. *)
Definition elements (v : value) : H (list value) :=
  match v with
  | Imm (PyStr s) =>
      hret (map (fun c => Imm (PyStr (String c EmptyString))) (chars s))
  | Imm (PyList l) => hret (map Imm l)
  | Imm _ => hraise TypeError
  | Ref l =>
      fun h =>
        match load h l with
        | Some (List vs) => (Ok vs, h)
        | Some (Dict d) => (Ok (map (fun k => Imm (PyStr k)) (keys d)), h)
        | None => (Raise TypeError, h)
        end
  end.

(** [Decimal(str(v))]: the text of a list or dictionary is no numeral. *)
Definition Decimal_of_str (v : value) : Result Dec.Number :=
  match v with
  | Imm x => Decimal_of_str x
  | Ref _ => Raise InvalidOperation
  end.

(** [tag.strip().lower()] for each tag *)
Fixpoint normalize_tags (tags : list value) : Result (list value) :=
  match tags with
  | [] => Ok []
  | Imm (PyStr tag) :: rest =>
      rest' <- normalize_tags rest ;;
      Ok (Imm (PyStr (lower (strip tag))) :: rest')
  | _ :: _ => Raise AttributeError
  end.

Section Process.

Variable fromisoformat : string -> option datetime.

(** [ExpenseService._process_expense_data]; [expense_data] is the address
    of the caller's record, the result the address of the processed one. *)
Definition _process_expense_data (expense_data : loc) : H loc :=
  processed <~ dict_copy expense_data ;;
  v <~ dict_getitem processed "amount" ;;
  amount <~ hlift (Decimal_of_str v) ;;
  rounded <~ hlift (Dec.round_number amount 2) ;;
  _ <~ dict_setitem processed "amount" (Imm (PyDec rounded)) ;;
  date <~ dict_getitem processed "date" ;;
  _ <~ match date with
       | Imm (PyStr s) =>
           match fromisoformat s with
           | Some t => dict_setitem processed "date" (Imm (PyDatetime t))
           | None => hraise ValueError
           end
       | _ => hret tt
       end ;;
  has_tags <~ dict_contains processed "tags" ;;
  _ <~ (if has_tags : bool then
          tags <~ dict_getitem processed "tags" ;;
          vs <~ elements tags ;;
          vs' <~ hlift (normalize_tags vs) ;;
          fresh <~ alloc (List vs') ;;
          dict_setitem processed "tags" (Ref fresh)
        else hret tt) ;;
  hret processed.

End Process.

End Store.

(** ** Reference definitions for the statements *)

(** The sum of a list of rationals. *)
Definition Qsum (l : list Q) : Q := fold_right Qplus 0%Q l.

(** The expenses of one category, in the order of the input. *)
Definition of_category (c : string) (expenses : list Item) : list Item :=
  filter (fun e => String.eqb (category e) c) expenses.

Definition sum_from (start : Dec.Decimal) (l : list Dec.Decimal) : Dec.Decimal :=
  fold_left Dec.add l start.

(** The total, the number and the average of the expenses of a category
    within the analysed set. *)
Definition category_total (expenses : list Item) (c : string) : Dec.Decimal :=
  sum_from Dec.zero_00 (map amount (of_category c expenses)).

Definition category_count (expenses : list Item) (c : string) : Z :=
  Z.of_nat (List.length (of_category c expenses)).

Definition category_average (expenses : list Item) (c : string)
    : Result Dec.Decimal :=
  Dec.div (category_total expenses c) (Dec.of_int (category_count expenses c)).

(** An expense above twice the average of its category. *)
Definition above_twice_average (expenses : list Item) (e : Item) : bool :=
  match category_average expenses (category e) with
  | Ok avg => Dec.gtb (amount e) (Dec.mul avg (Dec.of_int 2))
  | Raise _ => false
  end.

Definition has_category (c : string) (seen : list Item) : bool :=
  existsb (fun e => String.eqb (category e) c) seen.

(** What the first loop of the analysis has accumulated once it went
    through [seen]. *)
Record totals_inv (seen : list Item) (st : Totals) : Prop := {
  inv_spent : spent st = sum_from Dec.zero_00 (map amount seen);
  inv_dist : forall c,
    dict_get (distribution st) c
    = if has_category c seen then Some (category_total seen c) else None;
  inv_counts : forall c,
    dict_get (category_counts st) c
    = if has_category c seen then Some (category_count seen c) else None;
  inv_highest : highest st = None <-> seen = []
}.

(** The scenario of the three Food expenses, the last one of [cents]
    hundredths. *)
Definition food (cents : Z) : Item :=
  mkItem (Dec.mkDec cents (-2)) "Food" (PyStr "2024-01-15") "lunch".

Definition three_foods (cents : Z) : list Item :=
  [food 1000; food 1000; food cents].

Definition Qvalues (d : dict Dec.Decimal) : list Q := map Dec.value (values d).

(** The sum of the amounts of a list of expenses. *)
Definition amounts_sum (expenses : list Expense.t) : Q :=
  Qsum (map (fun e => Dec.value (Expense.amount e)) expenses).

(** The world after one more call on the repository. *)
Definition with_call {R : Type} (c : Call) (w : World R) : World R :=
  mkWorld (now w) (repository w) (c :: calls w) (logged w).

Definition with_log {R : Type} (l : LogRecord) (w : World R) : World R :=
  mkWorld (now w) (repository w) (calls w) (l :: logged w).

(** ** Inputs of the examples *)

Definition leap_year (y : Z) : bool :=
  ((y mod 4 =? 0) && negb (y mod 100 =? 0)) || (y mod 400 =? 0).

Definition days_in_month (y m : Z) : Z :=
  if m =? 2 then (if leap_year y then 29 else 28)
  else if (m =? 4) || (m =? 6) || (m =? 9) || (m =? 11) then 30
  else 31.

(** An instance of [fromisoformat] for the examples.  It reads the
    date-only form [YYYY-MM-DD] as the library does; the other forms that
    the library reads are left out, and the examples use none of them. *)
Definition fromisoformat_date (s : string) : option datetime :=
  match chars s with
  | [y1; y2; y3; y4; "-"%char; m1; m2; "-"%char; d1; d2] =>
      if forallb is_digit [y1; y2; y3; y4; m1; m2; d1; d2] then
        let y := digits_value [y1; y2; y3; y4] in
        let m := digits_value [m1; m2] in
        let d := digits_value [d1; d2] in
        if (1 <=? y) && (1 <=? m) && (m <=? 12) && (1 <=? d)
           && (d <=? days_in_month y m)
        then Some (mkDatetime y m d 0 0 0 0)
        else None
      else None
  | _ => None
  end.

(** A raw record of user [alice]. *)
Definition record (amount : PyVal) (category : string) (date : PyVal)
    : RawDict :=
  [("amount", amount); ("category", PyStr category); ("date", date);
   ("description", PyStr "lunch")].

Definition at_noon (y m d : Z) : datetime := mkDatetime y m d 12 0 0 0.

(** [Decimal] of an amount of money given in hundredths. *)
Definition cents (c : Z) : Dec.Decimal := Dec.mkDec c (-2).

(** A store where [alice] has the category Food, with the given limit, and
    the given persisted expenses. *)
Definition food_store (limit : option Dec.Decimal) (persisted : list Expense.t)
    : MemRepo.t :=
  MemRepo.mk [("alice", Category.mk "Food" limit)] persisted
             (1 + Z.of_nat (List.length persisted)).

Definition food_expense (id : Z) (amount : Dec.Decimal) (date : datetime)
    : Expense.t :=
  Expense.mk id "alice" amount "Food" date "groceries" [].

Definition world_at (clock : datetime) (store : MemRepo.t) : World MemRepo.t :=
  mkWorld clock store [] [].

(** [|d| < 10^n] *)
Definition magnitude_below (d : Dec.Decimal) (n : Z) : Prop :=
  Z.abs (Dec.coeff d) * 10 ^ Z.max 0 (Dec.expo d)
  < 10 ^ n * 10 ^ Z.max 0 (- Dec.expo d).

(** [r] is [d] rounded to [places] fractional digits, to the nearest and on
    a tie to the even last digit: [r] has the exponent [- places]; when [d]
    has no more fractional digits than that, [r] is [d] padded with zeros;
    otherwise, with [p] the weight of the last digit kept in units of the
    last digit of [d], [r] is at most half of [p] away from [d], and even
    when it is exactly half away. *)
Definition rounded_half_even (d r : Dec.Decimal) (places : Z) : Prop :=
  Dec.expo r = - places /\
  (- places <= Dec.expo d ->
   Dec.coeff r = Dec.coeff d * 10 ^ (Dec.expo d + places)) /\
  (Dec.expo d < - places ->
   let p := 10 ^ (- places - Dec.expo d) in
   2 * Z.abs (Dec.coeff r * p - Dec.coeff d) <= p /\
   (2 * Z.abs (Dec.coeff r * p - Dec.coeff d) = p ->
    Z.even (Dec.coeff r) = true)).

Module StoreLogic.
Import Store.

(** A computation on the store that, started with at least [n] objects and
    with [pre], leaves the first [n] objects as they are and returns with
    [post]. *)
Definition triple {A : Type} (n : nat) (pre : heap -> Prop) (m : H A)
    (post : A -> heap -> Prop) : Prop :=
  forall h, (n <= List.length h)%nat -> pre h ->
    (n <= List.length (snd (m h)))%nat /\
    (forall l, (l < n)%nat -> load (snd (m h)) l = load h l) /\
    (forall a, fst (m h) = Ok a -> post a (snd (m h))).

Definition is_dict (p : loc) (h : heap) : Prop :=
  exists d, load h p = Some (Dict d).

(** The record of the example: a dictionary at address 1 whose tags are
    the list at address 0. *)
Definition example_heap : heap :=
  [List [Imm (PyStr " Lunch "); Imm (PyStr "WORK")];
   Dict [("amount", Imm (PyStr "12.345")); ("category", Imm (PyStr "Food"));
         ("date", Imm (PyStr "2024-01-20")); ("description", Imm (PyStr "lunch"));
         ("tags", Ref 0%nat)]].

End StoreLogic.

(** ** Reference definitions for the summary *)

(** Going through (key, amount) pairs with [accumulate]. *)
Definition accumulate_all (pairs : list (string * Dec.Decimal))
    (d : dict Dec.Decimal) : dict Dec.Decimal :=
  fold_left (fun d p => accumulate d (fst p) (snd p)) pairs d.

Definition with_key (k : string) (pairs : list (string * Dec.Decimal))
    : list (string * Dec.Decimal) :=
  filter (fun p => String.eqb (fst p) k) pairs.

(** The total under a key: nothing when no pair has the key, otherwise the
    amounts of the pairs with the key added, in their order, to
    [Decimal('0.00')]. *)
Definition keyed_total (pairs : list (string * Dec.Decimal)) (k : string)
    : option Dec.Decimal :=
  match with_key k pairs with
  | [] => None
  | l => Some (sum_from Dec.zero_00 (map snd l))
  end.

(** The pairs that the loop of the summary accumulates by category, by tag
    (one pair for each occurrence of a tag in the list of an expense) and
    by day. *)
Definition category_pairs (expenses : list Expense.t)
    : list (string * Dec.Decimal) :=
  map (fun e => (Expense.category e, Expense.amount e)) expenses.

Definition tag_pairs (expenses : list Expense.t)
    : list (string * Dec.Decimal) :=
  flat_map (fun e => map (fun tag => (tag, Expense.amount e)) (Expense.tags e))
           expenses.

Definition day_pairs (expenses : list Expense.t)
    : list (string * Dec.Decimal) :=
  map (fun e => (strftime_Ymd (Expense.date e), Expense.amount e)) expenses.

(** The distinct keys of a list, in the order of their first appearance. *)
Definition distinct (l : list string) : list string :=
  fold_left (fun acc k => if existsb (String.eqb k) acc then acc else acc ++ [k])
            l [].

(** The (category, amount) pairs of the expenses given to the analysis. *)
Definition item_pairs (expenses : list Item) : list (string * Dec.Decimal) :=
  map (fun e => (category e, amount e)) expenses.

(** The state of the analysis before its first loop. *)
Definition no_totals : Totals := mkTotals Dec.zero_00 [] [] None.

(** What [analysis['highest_expense']] keeps of an expense. *)
Definition highest_of (e : Item) : Highest :=
  mkHighest (amount e) (category e) (date e).

(** [h] is the expense of [seen] with the largest amount, the first one of
    them when several have it. *)
Definition first_maximum (seen : list Item) (h : option Highest) : Prop :=
  match h with
  | None => seen = []
  | Some h =>
      exists before e after,
        seen = before ++ e :: after /\
        h = highest_of e /\
        (forall x, In x before -> Dec.gtb (amount e) (amount x) = true) /\
        (forall x, In x after -> Dec.gtb (amount x) (amount e) = false)
  end.

(** [c] has the largest number of expenses among the categories [cats],
    and is the first of [cats] to have it. *)
Definition first_most_frequent (count_of : string -> Z) (cats : list string)
    (c : string) : Prop :=
  exists before after,
    cats = before ++ c :: after /\
    (forall c', In c' before -> count_of c' < count_of c) /\
    (forall c', In c' after -> count_of c' <= count_of c).

(** [needle] is a part of [haystack]. *)
Definition part_of (needle haystack : string) : Prop :=
  exists before after,
    chars haystack = before ++ chars needle ++ after.

(** ** Reference definitions for the validator *)

(** An amount that the validator lets through: [Decimal(str(v))] is a
    finite number above zero, or the positive infinity. *)
Definition acceptable_amount (v : PyVal) : Prop :=
  (exists d, Decimal_of_str v = Ok (Dec.Finite d) /\ 0 < Dec.coeff d) \/
  Decimal_of_str v = Ok (Dec.Infinity false).

Definition acceptable_date (fromisoformat : string -> option datetime)
    (v : PyVal) : Prop :=
  forall s, v = PyStr s -> exists t, fromisoformat s = Some t.

Definition acceptable_description (v : PyVal) : Prop :=
  exists n, py_len v = Ok n /\ n <= MAX_DESCRIPTION_LENGTH.

Definition acceptable_tag (v : PyVal) : Prop :=
  exists s, v = PyStr s /\ strip s <> EmptyString.

Definition acceptable_tags (tags : option PyVal) : Prop :=
  match tags with
  | None => True
  | Some (PyList l) =>
      Z.of_nat (List.length l) <= MAX_TAGS /\ Forall acceptable_tag l
  | Some _ => False
  end.

(** The world after the repository moved to the state [s]. *)
Definition with_repository {R : Type} (s : R) (w : World R) : World R :=
  mkWorld (now w) s (calls w) (logged w).

(** What the logger is given for the outcome of [create_expense]. *)
Definition creation_record (user_id : string) (r : Result Expense.t)
    : LogRecord :=
  match r with
  | Ok expense => InfoCreated user_id (Expense.id expense)
  | Raise e => ErrorCreating e
  end.

(** ** Sums that the context does not round *)

(** An amount in hundredths, for an amount of at most two fractional
    digits. *)
Definition hundredths (d : Dec.Decimal) : Z :=
  Dec.coeff d * 10 ^ (Dec.expo d + 2).

(** The magnitudes of the amounts, added, in hundredths. *)
Definition magnitudes (l : list Dec.Decimal) : Z :=
  fold_right (fun d s => Z.abs (hundredths d) + s) 0 l.

(** Amounts that the context adds without rounding, in whatever order and
    grouping: none has more than two fractional digits, and their
    magnitudes add up to less than 10^26, so that no sum of some of them
    has more than 28 digits. *)
Definition adds_exactly (l : list Dec.Decimal) : Prop :=
  Forall (fun d => -2 <= Dec.expo d) l /\ magnitudes l < 10 ^ 28.

(** The amounts added, in hundredths. *)
Definition hundredths_sum (l : list Dec.Decimal) : Z :=
  fold_right (fun d s => hundredths d + s) 0 l.

(** A dictionary of totals kept in hundredths. *)
Definition in_hundredths (d : dict Dec.Decimal) : Prop :=
  Forall (fun v => Dec.expo v = -2) (values d).

(** * Properties *)

(** ** Dictionaries *)

Lemma dict_get_set {V : Type} (d : dict V) (k k' : string) (v : V) :
  dict_get (dict_set d k v) k' = if String.eqb k k' then Some v else dict_get d k'.
Proof.
  induction d as [|[k0 v0] d IH]; simpl.
  - reflexivity.
  - destruct (String.eqb k0 k) eqn:E0; simpl.
    + apply String.eqb_eq in E0; subst k0.
      destruct (String.eqb k k'); reflexivity.
    + destruct (String.eqb k0 k') eqn:E1.
      * apply String.eqb_eq in E1; subst k0.
        rewrite String.eqb_sym, E0. reflexivity.
      * exact IH.
Qed.

Lemma dict_get_set_same {V : Type} (d : dict V) (k : string) (v : V) :
  dict_get (dict_set d k v) k = Some v.
Proof. rewrite dict_get_set, String.eqb_refl. reflexivity. Qed.

Lemma dict_get_set_other {V : Type} (d : dict V) (k k' : string) (v : V) :
  k <> k' -> dict_get (dict_set d k v) k' = dict_get d k'.
Proof.
  intros N. rewrite dict_get_set.
  destruct (String.eqb k k') eqn:E; [apply String.eqb_eq in E; contradiction | reflexivity].
Qed.

Lemma dict_get_in_keys {V : Type} (d : dict V) (k : string) :
  In k (keys d) -> exists v, dict_get d k = Some v.
Proof.
  induction d as [|[k0 v0] d IH]; simpl; [contradiction|].
  intros [E | I].
  - subst k0. rewrite String.eqb_refl. eauto.
  - destruct (String.eqb k0 k); eauto.
Qed.

Lemma dict_get_keys {V : Type} (d : dict V) (k : string) (v : V) :
  dict_get d k = Some v -> In k (keys d).
Proof.
  induction d as [|[k0 v0] d IH]; simpl; [discriminate|].
  destruct (String.eqb k0 k) eqn:E.
  - apply String.eqb_eq in E. auto.
  - auto.
Qed.

(** ** Division *)

Lemma div_nonzero (x y : Dec.Decimal) :
  Dec.coeff y <> 0 -> exists q, Dec.div x y = Ok q.
Proof.
  intros N. unfold Dec.div.
  destruct (Dec.coeff y =? 0) eqn:E; [apply Z.eqb_eq in E; contradiction|].
  destruct (Dec.coeff x =? 0); [eauto|].
  destruct (0 <=? _); cbv zeta;
    repeat match goal with
           | |- context [let '(_, _) := ?p in _] => destruct p
           end; eauto.
Qed.

Lemma div_by_zero (x : Dec.Decimal) :
  Dec.div x (Dec.of_int 0)
  = Raise (if Dec.coeff x =? 0 then InvalidOperation else DivisionByZero).
Proof. unfold Dec.div. simpl. destruct (Dec.coeff x =? 0); reflexivity. Qed.

(** ** The analysis of spending patterns *)

Lemma has_category_snoc c seen e :
  has_category c (seen ++ [e])
  = has_category c seen || String.eqb (category e) c.
Proof. unfold has_category. rewrite existsb_app. simpl. rewrite orb_false_r. reflexivity. Qed.

Lemma of_category_snoc c seen e :
  of_category c (seen ++ [e])
  = of_category c seen ++ (if String.eqb (category e) c then [e] else []).
Proof. unfold of_category. rewrite filter_app. reflexivity. Qed.

Lemma of_category_none c seen :
  has_category c seen = false -> of_category c seen = [].
Proof.
  unfold has_category, of_category. induction seen as [|x seen IH]; simpl; [reflexivity|].
  intros H. apply orb_false_iff in H as [H1 H2]. rewrite H1. auto.
Qed.

Lemma category_total_snoc c seen e :
  category_total (seen ++ [e]) c
  = if String.eqb (category e) c
    then Dec.add (category_total seen c) (amount e)
    else category_total seen c.
Proof.
  unfold category_total, sum_from. rewrite of_category_snoc.
  destruct (String.eqb (category e) c).
  - rewrite map_app, fold_left_app. reflexivity.
  - rewrite app_nil_r. reflexivity.
Qed.

Lemma category_count_snoc c seen e :
  category_count (seen ++ [e]) c
  = if String.eqb (category e) c
    then category_count seen c + 1
    else category_count seen c.
Proof.
  unfold category_count. rewrite of_category_snoc.
  destruct (String.eqb (category e) c).
  - rewrite length_app. simpl. lia.
  - rewrite app_nil_r. reflexivity.
Qed.

Lemma totals_inv_init : totals_inv [] (mkTotals Dec.zero_00 [] [] None).
Proof. split; simpl; try reflexivity. tauto. Qed.

Lemma totals_step_inv seen st e :
  totals_inv seen st ->
  exists st', totals_step st e = Ok st' /\ totals_inv (seen ++ [e]) st'.
Proof.
  intros [Hs Hd Hc Hh]. unfold totals_step.
  assert (Hcon : contains (distribution st) (category e) = has_category (category e) seen).
  { unfold contains. rewrite Hd. destruct (has_category _ _); reflexivity. }
  rewrite Hcon.
  destruct (has_category (category e) seen) eqn:Hhas.
  - unfold getitem. rewrite Hd, Hc, Hhas. simpl.
    eexists. split; [reflexivity|].
    split; simpl.
    + rewrite Hs. unfold sum_from. rewrite map_app, fold_left_app. reflexivity.
    + intros c. rewrite dict_get_set, has_category_snoc, category_total_snoc, Hd.
      destruct (String.eqb (category e) c) eqn:E.
      * apply String.eqb_eq in E. subst c. rewrite Hhas. reflexivity.
      * rewrite orb_false_r. reflexivity.
    + intros c. rewrite dict_get_set, has_category_snoc, category_count_snoc, Hc.
      destruct (String.eqb (category e) c) eqn:E.
      * apply String.eqb_eq in E. subst c. rewrite Hhas. reflexivity.
      * rewrite orb_false_r. reflexivity.
    + split.
      * destruct (highest st) as [h|]; [destruct (Dec.gtb _ _)|]; discriminate.
      * intros H. destruct seen; discriminate.
  - unfold getitem. rewrite !dict_get_set_same. simpl.
    eexists. split; [reflexivity|].
    split; simpl.
    + rewrite Hs. unfold sum_from. rewrite map_app, fold_left_app. reflexivity.
    + intros c. rewrite !dict_get_set, has_category_snoc, category_total_snoc, Hd.
      destruct (String.eqb (category e) c) eqn:E.
      * apply String.eqb_eq in E. subst c. rewrite Hhas. simpl.
        unfold category_total. rewrite (of_category_none _ _ Hhas). reflexivity.
      * rewrite orb_false_r. reflexivity.
    + intros c. rewrite !dict_get_set, has_category_snoc, category_count_snoc, Hc.
      destruct (String.eqb (category e) c) eqn:E.
      * apply String.eqb_eq in E. subst c. rewrite Hhas. simpl.
        unfold category_count. rewrite (of_category_none _ _ Hhas). reflexivity.
      * rewrite orb_false_r. reflexivity.
    + split.
      * destruct (highest st) as [h|]; [destruct (Dec.gtb _ _)|]; discriminate.
      * intros H. destruct seen; discriminate.
Qed.

Lemma totals_loop_inv expenses : forall seen st,
  totals_inv seen st ->
  exists st', totals_loop expenses st = Ok st' /\ totals_inv (seen ++ expenses) st'.
Proof.
  induction expenses as [|e rest IH]; intros seen st I; simpl.
  - rewrite app_nil_r. eauto.
  - destruct (totals_step_inv seen st e I) as (st1 & E1 & I1).
    rewrite E1. simpl.
    destruct (IH _ _ I1) as (st' & E & I').
    rewrite <- app_assoc in I'. eauto.
Qed.

Lemma has_category_in c e expenses :
  In e expenses -> category e = c -> has_category c expenses = true.
Proof.
  intros I E. unfold has_category. apply existsb_exists.
  exists e. split; [assumption|]. rewrite E. apply String.eqb_refl.
Qed.

Lemma category_count_positive c expenses :
  has_category c expenses = true -> 0 < category_count expenses c.
Proof.
  unfold has_category, category_count, of_category.
  induction expenses as [|x l IH]; simpl; [discriminate|].
  destruct (String.eqb (category x) c); simpl; intros H; [lia | auto].
Qed.

(** The averages hold, for each category of the distribution, the quotient
    of its total by its count. *)
Lemma averages_lookup (counts : dict Z) : forall dist,
  (forall c, In c (keys dist) -> exists n, dict_get counts c = Some n /\ n <> 0) ->
  exists avgs,
    averages dist counts = Ok avgs /\
    forall c t, dict_get dist c = Some t ->
      exists n q, dict_get counts c = Some n /\
                  Dec.div t (Dec.of_int n) = Ok q /\
                  dict_get avgs c = Some q.
Proof.
  induction dist as [|[c0 t0] dist IH]; intros Hk; simpl.
  - eexists. split; [reflexivity|]. intros c t H. discriminate.
  - destruct (Hk c0 (or_introl eq_refl)) as (n0 & Hn0 & Nz).
    unfold getitem. rewrite Hn0. simpl.
    destruct (div_nonzero t0 (Dec.of_int n0) Nz) as (q0 & Hq0).
    rewrite Hq0. simpl.
    destruct IH as (avgs & Ha & Hl).
    { intros c I. apply Hk. right. exact I. }
    rewrite Ha. simpl. eexists. split; [reflexivity|].
    intros c t. simpl. destruct (String.eqb c0 c) eqn:E.
    + apply String.eqb_eq in E. subst c0.
      intros [= <-]. eauto.
    + apply Hl.
Qed.

Lemma unusual_loop_filter (all : list Item) (avgs : dict Dec.Decimal) :
  forall l,
  (forall e, In e l ->
     exists q, dict_get avgs (category e) = Some q /\
               category_average all (category e) = Ok q) ->
  unusual_loop l avgs = Ok (filter (above_twice_average all) l).
Proof.
  induction l as [|e l IH]; intros H; simpl; [reflexivity|].
  destruct (H e (or_introl eq_refl)) as (q & Hq & Ha).
  unfold getitem. rewrite Hq. simpl.
  rewrite IH by (intros x I; apply H; right; exact I). simpl.
  unfold above_twice_average. rewrite Ha.
  destruct (Dec.gtb _ _); reflexivity.
Qed.

(** The analysis of a non-empty list: it fails only at the division by
    the period, and is otherwise built from the totals of the categories. *)
Lemma analyze_nonempty (expenses : list Item) (period_days : Z) :
  expenses <> [] ->
  exists st most,
    totals_inv expenses st /\
    max_by_count (category_counts st) = Ok most /\
    analyze_spending_pattern expenses period_days
    = (average <- Dec.div (spent st) (Dec.of_int period_days) ;;
       Ok (mkAnalysis (spent st) average (highest st) (Some (fst most))
                      (distribution st)
                      (filter (above_twice_average expenses) expenses))).
Proof.
  intros NE.
  destruct (totals_loop_inv expenses [] _ totals_inv_init) as (st & Hl & I).
  simpl in I.
  assert (Hbody : analyze_spending_pattern expenses period_days
                  = (st <- totals_loop expenses (mkTotals Dec.zero_00 [] [] None) ;;
                     average <- Dec.div (spent st) (Dec.of_int period_days) ;;
                     most <- max_by_count (category_counts st) ;;
                     category_averages <- averages (distribution st) (category_counts st) ;;
                     unusual <- unusual_loop expenses category_averages ;;
                     Ok (mkAnalysis (spent st) average (highest st) (Some (fst most))
                                    (distribution st) unusual)))
    by (destruct expenses; [contradiction | reflexivity]).
  assert (Hin : exists e0, In e0 expenses)
    by (destruct expenses as [|e0 ?]; [contradiction | exists e0; left; reflexivity]).
  destruct Hin as (e0 & In0).
  assert (Hcounts : forall c, In c (keys (distribution st)) ->
            exists n, dict_get (category_counts st) c = Some n /\ n <> 0).
  { intros c Hc. apply dict_get_in_keys in Hc as (t & Ht).
    rewrite (inv_dist _ _ I) in Ht. rewrite (inv_counts _ _ I).
    destruct (has_category c expenses) eqn:Hh; [|discriminate].
    eexists. split; [reflexivity|].
    pose proof (category_count_positive _ _ Hh). lia. }
  destruct (averages_lookup _ _ Hcounts) as (avgs & Havg & Hlook).
  assert (Hmost : exists most, max_by_count (category_counts st) = Ok most).
  { pose proof (inv_counts _ _ I (category e0)) as Hc.
    rewrite (has_category_in _ e0 expenses In0 eq_refl) in Hc.
    destruct (category_counts st); [discriminate|]. simpl. eauto. }
  destruct Hmost as (most & Hmost).
  exists st, most. split; [exact I|]. split; [exact Hmost|].
  rewrite Hbody, Hl. simpl.
  destruct (Dec.div (spent st) (Dec.of_int period_days)) as [average|err]; simpl;
    [|reflexivity].
  rewrite Hmost, Havg. simpl.
  rewrite (unusual_loop_filter expenses avgs expenses); [reflexivity|].
  intros e Ie.
  pose proof (has_category_in _ e expenses Ie eq_refl) as Hh.
  pose proof (inv_dist _ _ I (category e)) as Hd. rewrite Hh in Hd.
  destruct (Hlook _ _ Hd) as (n & q & Hn & Hq & Hg).
  rewrite (inv_counts _ _ I), Hh in Hn. injection Hn as <-.
  exists q. split; [exact Hg|]. exact Hq.
Qed.









(** With a period of zero the division of the total of a non-empty list
    raises: DivisionByZero, or InvalidOperation when the total is zero. *)
Lemma analyze_zero_period (expenses : list Item) :
  expenses <> [] ->
  exists e, analyze_spending_pattern expenses 0 = Raise e /\
            (e = DivisionByZero \/ e = InvalidOperation).
Proof.
  intros NE.
  destruct (analyze_nonempty expenses 0 NE) as (st & most & I & Hm & Ha).
  rewrite div_by_zero in Ha. simpl in Ha.
  eexists. split; [exact Ha|].
  destruct (Dec.coeff (spent st) =? 0); auto.
Qed.



(** ** The monthly summary *)

Lemma ten_nonzero : ~ (10 # 1 == 0)%Q.
Proof. intros H. discriminate H. Qed.

Lemma pow10_split (e m : Z) :
  m <= e -> (inject_Z (10 ^ (e - m)) * (10 # 1) ^ m == (10 # 1) ^ e)%Q.
Proof.
  intros H. rewrite Zpower_Qpower by lia.
  change (inject_Z 10) with (10 # 1)%Q.
  rewrite <- Qpower_plus by exact ten_nonzero.
  replace (e - m + m) with e by lia. reflexivity.
Qed.

Lemma value_add_exact (x y : Dec.Decimal) :
  (Dec.value (Dec.add_exact x y) == Dec.value x + Dec.value y)%Q.
Proof.
  unfold Dec.add_exact, Dec.align, Dec.value. simpl.
  rewrite inject_Z_plus, !inject_Z_mult.
  set (m := Z.min (Dec.expo x) (Dec.expo y)).
  rewrite <- (pow10_split (Dec.expo x) m) by (subst m; lia).
  rewrite <- (pow10_split (Dec.expo y) m) by (subst m; lia).
  ring.
Qed.

Lemma value_zero_00 : (Dec.value Dec.zero_00 == 0)%Q.
Proof. reflexivity. Qed.

Lemma accumulate_cons (k0 k : string) (v0 a : Dec.Decimal) (d : dict Dec.Decimal) :
  String.eqb k0 k = false ->
  accumulate ((k0, v0) :: d) k a = (k0, v0) :: accumulate d k a.
Proof.
  intros E. unfold accumulate, contains. cbn [dict_get]. rewrite E.
  destruct (dict_get d k) as [v|] eqn:G.
  - cbn [dict_get]. rewrite E, G. cbn [dict_set]. rewrite E. reflexivity.
  - cbn [dict_set]. rewrite E. cbn [dict_get]. rewrite E.
    rewrite !dict_get_set_same. cbn [dict_set]. rewrite E. reflexivity.
Qed.

Lemma accumulate_head (k : string) (v0 a : Dec.Decimal) (d : dict Dec.Decimal) :
  accumulate ((k, v0) :: d) k a = (k, Dec.add v0 a) :: d.
Proof.
  unfold accumulate, contains. cbn [dict_get dict_set].
  repeat (rewrite String.eqb_refl; cbn [dict_get dict_set]). reflexivity.
Qed.

Lemma summary_count (expenses : list Expense.t) : forall s,
  count (fold_left summary_step expenses s) = count s.
Proof.
  induction expenses as [|e rest IH]; intros s; simpl; [reflexivity|].
  rewrite IH. reflexivity.
Qed.

(** ** The budget check and the creation of an expense *)

Section ServiceProperties.

Context {R : Type} {repo : ExpenseRepository R}.
Variable fromisoformat : string -> option datetime.

(** The budget check, step by step. *)
Lemma check_budget_limits_steps (user_id : string) (expense_data : RawDict)
    (w : World R) (key : PyVal) :
  getitem expense_data "category" = Ok key ->
  _check_budget_limits user_id expense_data w =
    let w1 := with_call (CallGetCategory user_id key) w in
    match get_category (repository w) user_id key with
    | Raise e => (Raise e, w1)
    | Ok None => (Raise CategoryNotFoundError, w1)
    | Ok (Some c) =>
        match has_budget_limit c with
        | None => (Ok tt, w1)
        | Some limit =>
            let start := replace_day (now w) 1 in
            let w2 := with_call (CallGetCategoryTotal user_id key start) w1 in
            match get_category_total (repository w) user_id key start with
            | Raise e => (Raise e, w2)
            | Ok current_total =>
                match (v <- getitem expense_data "amount" ;;
                       amount <- Decimal_of v ;;
                       total_exceeds current_total amount limit) with
                | Raise e => (Raise e, w2)
                | Ok true => (Raise BudgetLimitExceededError, w2)
                | Ok false => (Ok tt, w2)
                end
            end
        end
    end.
Proof.
  intros Hk.
  unfold _check_budget_limits, mbind, lift, repository_get_category,
    repository_get_category_total, record_call, datetime_now, mbind, raise, ret.
  rewrite Hk. cbn [with_call repository now calls logged].
  destruct (get_category (repository w) user_id key) as [[c|]|e]; try reflexivity.
  destruct (has_budget_limit c) as [limit|]; try reflexivity.
  cbn [repository now calls logged].
  destruct (get_category_total (repository w) user_id key (replace_day (now w) 1))
    as [current_total|e]; try reflexivity.
  destruct (v <- getitem expense_data "amount" ;;
            amount <- Decimal_of v ;;
            total_exceeds current_total amount limit) as [[|]|e]; reflexivity.
Qed.

(** A limit of zero is not a limit for [if category.budget_limit:]. *)
Lemma zero_limit_never_exceeded (user_id : string) (expense_data : RawDict)
    (w : World R) (key : PyVal) (c : Category.t) (limit : Dec.Decimal) :
  getitem expense_data "category" = Ok key ->
  get_category (repository w) user_id key = Ok (Some c) ->
  Category.budget_limit c = Some limit ->
  Dec.coeff limit = 0 ->
  fst (_check_budget_limits user_id expense_data w) = Ok tt.
Proof.
  intros Hk Hc Hl Hz.
  rewrite (check_budget_limits_steps _ _ _ _ Hk). cbv zeta. rewrite Hc.
  unfold has_budget_limit, Dec.truthy. rewrite Hl, Hz. reflexivity.
Qed.

(** With a limit other than zero the check passes exactly when the total
    of the month so far plus the amount is at most the limit. *)
Lemma nonzero_limit_enforced (user_id : string) (expense_data : RawDict)
    (w : World R) (key v : PyVal) (c : Category.t)
    (limit current_total a : Dec.Decimal) :
  getitem expense_data "category" = Ok key ->
  get_category (repository w) user_id key = Ok (Some c) ->
  Category.budget_limit c = Some limit ->
  Dec.coeff limit <> 0 ->
  get_category_total (repository w) user_id key (replace_day (now w) 1)
  = Ok current_total ->
  getitem expense_data "amount" = Ok v ->
  Decimal_of v = Ok (Dec.Finite a) ->
  fst (_check_budget_limits user_id expense_data w)
  = if Dec.leb (Dec.add current_total a) limit then Ok tt
    else Raise BudgetLimitExceededError.
Proof.
  intros Hk Hc Hl Hz Ht Hv Ha.
  rewrite (check_budget_limits_steps _ _ _ _ Hk). cbv zeta. rewrite Hc.
  unfold has_budget_limit, Dec.truthy. rewrite Hl.
  destruct (Dec.coeff limit =? 0) eqn:E; [apply Z.eqb_eq in E; contradiction|].
  cbn [negb]. rewrite Ht, Hv. cbn [bind]. rewrite Ha. cbn [bind total_exceeds].
  unfold Dec.leb. destruct (Dec.gtb _ _); reflexivity.
Qed.

Lemma check_required_contains (fields : list string) (expense_data : RawDict) :
  check_required fields expense_data = Ok tt ->
  forall f, In f fields -> contains expense_data f = true.
Proof.
  induction fields as [|f0 rest IH]; simpl; intros H f I; [contradiction|].
  destruct (contains expense_data f0) eqn:E; [|discriminate].
  destruct I as [<- | I]; auto.
Qed.

Lemma validated_has_field (expense_data : RawDict) (f : string) :
  validate_expense_data fromisoformat expense_data = Ok tt ->
  In f REQUIRED_FIELDS ->
  exists v, getitem expense_data f = Ok v.
Proof.
  unfold validate_expense_data. intros H I.
  destruct (check_required REQUIRED_FIELDS expense_data) as [[]|e] eqn:E;
    [|discriminate].
  pose proof (check_required_contains _ _ E f I) as C.
  unfold contains in C. unfold getitem.
  destruct (dict_get expense_data f); [eauto | discriminate].
Qed.

(** C8, as the code has it.  When the category of the record does not exist
    for the user, [create_expense] fails and writes nothing: the store is
    unchanged and [create] is not called.  When the record passes the
    validation, the failure is CategoryNotFoundError; when it does not, the
    failure is the one of the validation, which runs first, and the
    category is not even looked up. *)
Theorem create_expense_without_category (user_id : string)
    (expense_data : RawDict) (w : World R) :
  (forall key, getitem expense_data "category" = Ok key ->
               get_category (repository w) user_id key = Ok None) ->
  let out := create_expense fromisoformat user_id expense_data w in
  (exists e, fst out = Raise e) /\
  repository (snd out) = repository w /\
  filter is_write (calls (snd out)) = filter is_write (calls w) /\
  (validate_expense_data fromisoformat expense_data = Ok tt ->
   fst out = Raise CategoryNotFoundError) /\
  (forall e, validate_expense_data fromisoformat expense_data = Raise e ->
             fst out = Raise e /\ calls (snd out) = calls w).
Proof.
  intros Hnone out.
  destruct (validate_expense_data fromisoformat expense_data) as [[]|e] eqn:V.
  - destruct (validated_has_field expense_data "category" V) as (key & Hk).
    { simpl. auto. }
    assert (E : out = (Raise CategoryNotFoundError,
                       with_log (ErrorCreating CategoryNotFoundError)
                                (with_call (CallGetCategory user_id key) w))).
    { subst out. unfold create_expense, try_catch.
      unfold mbind at 1. unfold lift at 1. rewrite V.
      unfold mbind at 1.
      rewrite (check_budget_limits_steps _ _ _ _ Hk). cbv zeta.
      rewrite (Hnone key Hk). reflexivity. }
    rewrite E. simpl.
    split; [eauto|]. split; [reflexivity|]. split; [reflexivity|].
    split; [reflexivity | discriminate].
  - assert (E : out = (Raise e, with_log (ErrorCreating e) w)).
    { subst out. unfold create_expense, try_catch.
      unfold mbind at 1. unfold lift at 1. rewrite V. reflexivity. }
    rewrite E. simpl.
    split; [eauto|]. split; [reflexivity|]. split; [reflexivity|].
    split; [discriminate|].
    intros e' [= <-]. split; reflexivity.
Qed.


End ServiceProperties.



(** C3 at a limit of zero.  The category Food has a budget limit of 0.00
    and nothing was spent; an expense of 5.00 passes the check, although
    0.00 + 5.00 <= 0.00 is false, and is created. *)
Theorem zero_budget_limit_not_enforced :
  let w := world_at (at_noon 2024 1 25) (food_store (Some (cents 0)) []) in
  let raw := record (PyStr "5.00") "Food" (PyDatetime (at_noon 2024 1 20)) in
  Dec.leb (Dec.add (cents 0) (cents 500)) (cents 0) = false /\
  fst (_check_budget_limits "alice" raw w) = Ok tt /\
  exists e, fst (create_expense fromisoformat_date "alice" raw w) = Ok e /\
            Expense.amount e = cents 500.
Proof.
  repeat split; try (vm_compute; reflexivity).
  eexists. split; vm_compute; reflexivity.
Qed.

(** The budget scenario of the specification: a limit of 200.00 and 150.00
    spent this month; 60.00 more is refused, 40.00 more is accepted. *)
Example budget_scenario :
  let w := world_at (at_noon 2024 1 25)
             (food_store (Some (cents 20000))
                [food_expense 1 (cents 15000) (at_noon 2024 1 10)]) in
  fst (_check_budget_limits "alice"
         (record (PyStr "60.00") "Food" (PyDatetime (at_noon 2024 1 20))) w)
  = Raise BudgetLimitExceededError /\
  fst (_check_budget_limits "alice"
         (record (PyStr "40.00") "Food" (PyDatetime (at_noon 2024 1 20))) w)
  = Ok tt.
Proof. split; vm_compute; reflexivity. Qed.

Lemma create_expense_without_category_witness :
  let w := world_at (at_noon 2024 1 25) (food_store None []) in
  let raw := record (PyStr "12.50") "Travel" (PyStr "2024-01-20") in
  let bad := record (PyInt 0) "Travel" (PyStr "2024-01-20") in
  (forall key, getitem raw "category" = Ok key ->
               get_category (repository w) "alice" key = Ok None) /\
  fst (create_expense fromisoformat_date "alice" raw w)
  = Raise CategoryNotFoundError /\
  repository (snd (create_expense fromisoformat_date "alice" raw w))
  = repository w /\
  fst (create_expense fromisoformat_date "alice" bad w)
  = Raise (InvalidExpenseError AmountNotPositive) /\
  calls (snd (create_expense fromisoformat_date "alice" bad w)) = [].
Proof.
  intros w raw bad.
  assert (H : forall key, getitem raw "category" = Ok key ->
                          get_category (repository w) "alice" key = Ok None).
  { intros key Hk. injection Hk as <-. reflexivity. }
  assert (H' : forall key, getitem bad "category" = Ok key ->
                           get_category (repository w) "alice" key = Ok None).
  { intros key Hk. injection Hk as <-. reflexivity. }
  split; [exact H|].
  destruct (create_expense_without_category fromisoformat_date "alice" raw w H)
    as (_ & Hr & _ & Hv & _).
  split; [apply Hv; reflexivity|]. split; [exact Hr|].
  destruct (create_expense_without_category fromisoformat_date "alice" bad w H')
    as (_ & _ & _ & _ & Hb).
  exact (Hb (InvalidExpenseError AmountNotPositive) eq_refl).
Defined.

(** C8, as stated, fails on a record that is not valid: with an amount of
    zero and a category that does not exist, the failure is the one of the
    validation, which runs first. *)
Lemma create_expense_invalid_record_without_category :
  let w := world_at (at_noon 2024 1 25) (food_store None []) in
  let raw := record (PyInt 0) "Travel" (PyStr "2024-01-20") in
  get_category (repository w) "alice" (PyStr "Travel") = Ok None /\
  fst (create_expense fromisoformat_date "alice" raw w)
  = Raise (InvalidExpenseError AmountNotPositive).
Proof. split; vm_compute; reflexivity. Qed.

(** ** Rounding *)

Lemma ndigits_aux_bounds (fuel : nat) : forall n,
  0 <= n -> n < 2 ^ Z.of_nat fuel ->
  (forall k, 1 <= k -> n < 10 ^ k -> Dec.ndigits_aux fuel n <= k) /\
  1 <= Dec.ndigits_aux fuel n.
Proof.
  induction fuel as [|f IH]; intros n Hn Hf.
  - simpl. split; intros; lia.
  - cbn [Dec.ndigits_aux]. destruct (n <? 10) eqn:E.
    + split; intros; lia.
    + apply Z.ltb_ge in E.
      assert (Hq : 0 <= n / 10) by (apply Z.div_pos; lia).
      assert (Hqf : n / 10 < 2 ^ Z.of_nat f).
      { apply Z.div_lt_upper_bound; [lia|].
        rewrite Nat2Z.inj_succ, Z.pow_succ_r in Hf by lia. lia. }
      destruct (IH (n / 10) Hq Hqf) as (Hu & Hl).
      split; [|lia].
      intros k Hk Hlt.
      assert (2 <= k).
      { destruct (Z.eq_dec k 1) as [->|]; [simpl in Hlt; lia | lia]. }
      assert (n / 10 < 10 ^ (k - 1)).
      { apply Z.div_lt_upper_bound; [lia|].
        rewrite <- Z.pow_succ_r by lia. replace (Z.succ (k - 1)) with k by lia.
        exact Hlt. }
      specialize (Hu (k - 1) ltac:(lia) H0). lia.
Qed.

(** A number below [10^k] has at most [k] digits. *)
Lemma ndigits_le (n k : Z) :
  1 <= k -> Z.abs n < 10 ^ k -> Dec.ndigits n <= k.
Proof.
  intros Hk Hn. unfold Dec.ndigits.
  apply ndigits_aux_bounds; try lia.
  destruct (Z.eq_dec (Z.abs n) 0) as [->|Nz].
  - simpl. lia.
  - rewrite Nat2Z.inj_succ, Z2Nat.id by apply Z.log2_nonneg.
    apply Z.log2_spec. lia.
Qed.

(** The context leaves a result of at most 28 digits as it is. *)
Lemma fix_prec_fits (d : Dec.Decimal) :
  Z.abs (Dec.coeff d) < 10 ^ 28 -> Dec.fix_prec d = d.
Proof.
  intros H. unfold Dec.fix_prec.
  pose proof (ndigits_le (Dec.coeff d) 28 ltac:(lia) H) as L.
  destruct (Dec.ndigits (Dec.coeff d) <=? Dec.prec) eqn:E.
  - reflexivity.
  - apply Z.leb_gt in E. unfold Dec.prec in E. lia.
Qed.

(** A sum of at most 28 digits is exact. *)
Lemma add_fits (x y : Dec.Decimal) :
  Z.abs (Dec.coeff (Dec.add_exact x y)) < 10 ^ 28 ->
  Dec.add x y = Dec.add_exact x y.
Proof. intros H. apply fix_prec_fits, H. Qed.

(** Rounding half-even gives a nearest multiple, the even one on a tie. *)
Lemma div_pow10_half_even_nearest (n k : Z) :
  0 <= n -> 0 < k ->
  let q := Dec.div_pow10_half_even n k in
  0 <= q /\
  2 * Z.abs (q * 10 ^ k - n) <= 10 ^ k /\
  (2 * Z.abs (q * 10 ^ k - n) = 10 ^ k -> Z.even q = true).
Proof.
  intros Hn Hk. unfold Dec.div_pow10_half_even.
  destruct (k <=? 0) eqn:E; [apply Z.leb_le in E; lia|].
  assert (Hp : 0 < 10 ^ k) by (apply Z.pow_pos_nonneg; lia).
  pose proof (Z.div_mod n (10 ^ k) ltac:(lia)) as Hdm.
  pose proof (Z.mod_pos_bound n (10 ^ k) Hp) as Hr.
  assert (Hq : 0 <= n / 10 ^ k) by (apply Z.div_pos; lia).
  set (p := 10 ^ k) in *. set (q := n / p) in *. set (r := n mod p) in *.
  cbv zeta.
  destruct (p <? 2 * r) eqn:E1; cbn [orb].
  - apply Z.ltb_lt in E1. split; [lia|]. split.
    + replace ((q + 1) * p - n) with (p - r) by nia. lia.
    + replace ((q + 1) * p - n) with (p - r) by nia. lia.
  - apply Z.ltb_ge in E1.
    destruct (p =? 2 * r) eqn:E2; cbn [andb].
    + apply Z.eqb_eq in E2. destruct (Z.odd q) eqn:O.
      * split; [lia|]. split.
        -- replace ((q + 1) * p - n) with (p - r) by nia. lia.
        -- intros _. rewrite Z.even_add, <- Z.negb_odd, O. reflexivity.
      * split; [lia|]. split.
        -- replace (q * p - n) with (- r) by nia. lia.
        -- intros _. rewrite <- Z.negb_odd, O. reflexivity.
    + apply Z.eqb_neq in E2. split; [lia|]. split.
      * replace (q * p - n) with (- r) by nia. lia.
      * replace (q * p - n) with (- r) by nia. lia.
Qed.

Lemma div_pow10_half_even_bound (n k b : Z) :
  0 <= n -> 0 < k -> n < b * 10 ^ k ->
  Dec.div_pow10_half_even n k <= b.
Proof.
  intros Hn Hk Hb. unfold Dec.div_pow10_half_even.
  destruct (k <=? 0) eqn:E; [apply Z.leb_le in E; lia|].
  assert (Hp : 0 < 10 ^ k) by (apply Z.pow_pos_nonneg; lia).
  assert (n / 10 ^ k < b) by (apply Z.div_lt_upper_bound; lia).
  cbv zeta. destruct (_ || _); lia.
Qed.

Lemma magnitude_below_coeff (d : Dec.Decimal) (n : Z) :
  Dec.coeff d <> 0 -> magnitude_below d n ->
  Dec.expo d < n /\ Z.abs (Dec.coeff d) < 10 ^ (n - Dec.expo d).
Proof.
  unfold magnitude_below. intros Nz H.
  set (c := Z.abs (Dec.coeff d)) in *. set (e := Dec.expo d) in *.
  assert (Hc : 1 <= c) by (subst c; lia).
  destruct (Z_le_gt_dec 0 e) as [He | He].
  - rewrite Z.max_r in H by lia.
    replace (Z.max 0 (- e)) with 0 in H by lia.
    rewrite Z.pow_0_r, Z.mul_1_r in H.
    assert (Hpe : 0 < 10 ^ e) by (apply Z.pow_pos_nonneg; lia).
    destruct (Z_lt_ge_dec e n) as [Hen | Hen].
    + split; [exact Hen|].
      replace n with ((n - e) + e) in H by lia.
      rewrite Z.pow_add_r in H by lia. nia.
    + exfalso.
      assert (10 ^ n <= 10 ^ e).
      { destruct (Z_lt_ge_dec n 0) as [Hn | Hn].
        - rewrite Z.pow_neg_r by lia. lia.
        - apply Z.pow_le_mono_r; lia. }
      nia.
  - replace (Z.max 0 e) with 0 in H by lia.
    rewrite Z.max_r in H by lia.
    rewrite Z.pow_0_r, Z.mul_1_r in H.
    destruct (Z_lt_ge_dec n 0) as [Hn | Hn].
    + rewrite (Z.pow_neg_r 10 n) in H by lia. lia.
    + split; [lia|].
      replace (n - e) with (n + - e) by lia.
      rewrite Z.pow_add_r by lia. exact H.
Qed.

Lemma sgn_mul_abs (c q : Z) : c <> 0 -> 0 <= q -> Z.abs (Z.sgn c * q) = q.
Proof.
  intros Hc Hq. rewrite Z.abs_mul.
  destruct c; try contradiction; cbn [Z.sgn Z.abs]; lia.
Qed.

(** [round(d, 2)] returns for an amount below [10^25], and rounds it
    half-even. *)
Lemma round_2_half_even (d : Dec.Decimal) :
  magnitude_below d 25 ->
  exists r, Dec.round d 2 = Ok r /\ rounded_half_even d r 2.
Proof.
  intros Hm. unfold Dec.round, Dec.quantize.
  destruct (Dec.coeff d =? 0) eqn:Ez.
  - apply Z.eqb_eq in Ez. eexists. split; [reflexivity|].
    unfold rounded_half_even. cbn [Dec.expo Dec.coeff]. rewrite Ez.
    split; [reflexivity|]. split; [intros; lia|].
    intros He. cbv zeta.
    assert (0 < 10 ^ (-2 - Dec.expo d)) by (apply Z.pow_pos_nonneg; lia).
    simpl. lia.
  - apply Z.eqb_neq in Ez.
    destruct (magnitude_below_coeff d 25 Ez Hm) as (He & Hc).
    assert (Hnd : Dec.ndigits (Dec.coeff d) <= 25 - Dec.expo d)
      by (apply ndigits_le; lia).
    destruct (Dec.prec <? _) eqn:E1.
    { apply Z.ltb_lt in E1. unfold Dec.prec in E1. lia. }
    clear E1. cbv zeta.
    set (c := Dec.coeff d) in *. set (e := Dec.expo d) in *.
    set (q := Dec.div_pow10_half_even (Z.abs c) (-2 - e)).
    assert (Hq : 0 <= q /\ q <= 10 ^ 27).
    { subst q. destruct (Z_le_gt_dec (-2 - e) 0) as [Hk | Hk].
      - unfold Dec.div_pow10_half_even.
        destruct (-2 - e <=? 0) eqn:E; [|apply Z.leb_gt in E; lia].
        replace (- (-2 - e)) with (e + 2) by lia.
        assert (0 < 10 ^ (e + 2)) by (apply Z.pow_pos_nonneg; lia).
        split; [apply Z.mul_nonneg_nonneg; [apply Z.abs_nonneg | exact (Z.lt_le_incl _ _ H)]|].
        replace 27 with ((25 - e) + (e + 2)) by lia.
        rewrite (Z.pow_add_r 10 (25 - e) (e + 2)) by lia.
        apply Z.mul_le_mono_nonneg_r; lia.
      - split.
        + apply (div_pow10_half_even_nearest (Z.abs c) (-2 - e)); lia.
        + apply div_pow10_half_even_bound; try lia.
          rewrite <- Z.pow_add_r by lia.
          replace (27 + (-2 - e)) with (25 - e) by lia. exact Hc. }
    unfold Dec.rescale. cbn [Dec.coeff Dec.expo]. fold c e q.
    replace (- (2) - e) with (-2 - e) by lia. fold q.
    destruct (Dec.prec <? Dec.ndigits (Z.sgn c * q)) eqn:E2.
    { apply Z.ltb_lt in E2. unfold Dec.prec in E2.
      assert (Dec.ndigits (Z.sgn c * q) <= 28).
      { apply ndigits_le; [lia|]. rewrite sgn_mul_abs by lia.
        assert (10 ^ 27 < 10 ^ 28) by (apply Z.pow_lt_mono_r; lia). lia. }
      lia. }
    eexists. split; [reflexivity|].
    unfold rounded_half_even. cbn [Dec.coeff Dec.expo]. fold c e.
    split; [reflexivity|]. split.
    + intros Hge. subst q. unfold Dec.div_pow10_half_even.
      destruct (-2 - e <=? 0) eqn:E; [|apply Z.leb_gt in E; lia].
      replace (- (-2 - e)) with (e + 2) by lia.
      rewrite Z.mul_assoc, (Z.mul_comm (Z.sgn c)), Z.abs_sgn. reflexivity.
    + intros Hlt. cbv zeta. replace (- (2) - e) with (-2 - e) by lia.
      destruct (div_pow10_half_even_nearest (Z.abs c) (-2 - e)) as (_ & Hn & Hev);
        try lia.
      cbv zeta in Hn, Hev. fold q in Hn, Hev.
      assert (Habs : Z.abs (Z.sgn c * q * 10 ^ (-2 - e) - c)
                     = Z.abs (q * 10 ^ (-2 - e) - Z.abs c)).
      { destruct (Z.lt_trichotomy c 0) as [N | [Z0 | P]]; [|contradiction|].
        - rewrite (Z.sgn_neg c N). lia.
        - rewrite (Z.sgn_pos c P). lia. }
      rewrite Habs. split; [exact Hn|].
      intros Heq. specialize (Hev Heq).
      rewrite Z.even_mul, Hev. apply orb_true_r.
Qed.

(** ** The validator and the normalisation *)

Section ValidationProperties.

Variable fromisoformat : string -> option datetime.

Lemma bind_ok {A B : Type} (r : Result A) (k : A -> Result B) (b : B) :
  bind r k = Ok b -> exists a, r = Ok a /\ k a = Ok b.
Proof. destruct r as [a|e]; simpl; [eauto | discriminate]. Qed.

Lemma validate_parts (expense_data : RawDict) :
  validate_expense_data fromisoformat expense_data = Ok tt ->
  check_required REQUIRED_FIELDS expense_data = Ok tt /\
  validate_amount expense_data = Ok tt /\
  validate_date fromisoformat expense_data = Ok tt /\
  validate_tags expense_data = Ok tt.
Proof.
  unfold validate_expense_data. intros H.
  apply bind_ok in H as ([] & H1 & H).
  apply bind_ok in H as ([] & H2 & H).
  apply bind_ok in H as ([] & H3 & H).
  apply bind_ok in H as ([] & H4 & H).
  auto.
Qed.

Lemma validated_tags_normalize (tags : list PyVal) :
  validate_each_tag tags = Ok tt -> exists l, normalize_tags tags = Ok l.
Proof.
  induction tags as [|t rest IH]; simpl; [eauto|].
  destruct t; try discriminate.
  destruct (String.eqb (strip s) EmptyString); [discriminate|].
  intros H. destruct (IH H) as (l & ->). simpl. eauto.
Qed.

(** C2, as the code has it.  For a record that passes the validation and
    whose amount is a finite decimal below [10^25], the normalisation
    returns a record whose amount has exactly two fractional digits and is
    the input amount rounded to two places, to the nearest and on a tie to
    the even digit (ROUND_HALF_EVEN, the rounding of [round]). *)
Theorem normalized_amount_half_even (expense_data : RawDict) (v : PyVal)
    (d : Dec.Decimal) :
  validate_expense_data fromisoformat expense_data = Ok tt ->
  getitem expense_data "amount" = Ok v ->
  Decimal_of_str v = Ok (Dec.Finite d) ->
  magnitude_below d 25 ->
  exists processed r,
    _process_expense_data fromisoformat expense_data = Ok processed /\
    getitem processed "amount" = Ok (PyDec (Dec.Finite r)) /\
    rounded_half_even d r 2.
Proof.
  intros V Hv Hd Hm.
  destruct (validate_parts _ V) as (Hreq & _ & Hdate & Htags).
  destruct (round_2_half_even d Hm) as (r & Hr & Hrd).
  assert (Hdv : exists dv, getitem expense_data "date" = Ok dv).
  { apply (validated_has_field fromisoformat _ _ V). simpl. auto. }
  destruct Hdv as (dv & Hdv).
  unfold _process_expense_data.
  rewrite Hv. cbn [bind]. rewrite Hd. cbn [bind Dec.round_number].
  rewrite Hr. cbn [bind].
  set (p1 := dict_set expense_data "amount" (PyDec (Dec.Finite r))).
  assert (G1 : dict_get p1 "amount" = Some (PyDec (Dec.Finite r)))
    by apply dict_get_set_same.
  assert (Hdv1 : getitem p1 "date" = Ok dv).
  { unfold getitem, p1 in *. rewrite dict_get_set_other by discriminate. exact Hdv. }
  rewrite Hdv1. cbn [bind].
  assert (Hp2 : exists p2,
            match dv with
            | PyStr s =>
                match fromisoformat s with
                | Some t => Ok (dict_set p1 "date" (PyDatetime t))
                | None => Raise ValueError
                end
            | _ => Ok p1
            end = Ok p2 /\
            dict_get p2 "amount" = Some (PyDec (Dec.Finite r)) /\
            dict_get p2 "tags" = dict_get expense_data "tags").
  { assert (T1 : dict_get p1 "tags" = dict_get expense_data "tags")
      by (unfold p1; apply dict_get_set_other; discriminate).
    destruct dv; try (exists p1; split; [reflexivity | split; assumption]).
    unfold validate_date in Hdate. rewrite Hdv in Hdate. cbn [bind] in Hdate.
    destruct (fromisoformat s) as [t|]; [|discriminate].
    eexists. split; [reflexivity|].
    rewrite !dict_get_set_other by discriminate. auto. }
  destruct Hp2 as (p2 & -> & G2 & T2). cbn [bind].
  rewrite T2. unfold validate_tags in Htags.
  destruct (dict_get expense_data "tags") as [tg|].
  - destruct tg; try discriminate.
    destruct (MAX_TAGS <? _); [discriminate|].
    destruct (validated_tags_normalize _ Htags) as (l' & Hl').
    cbn [iterate bind]. rewrite Hl'. cbn [bind].
    eexists. exists r. split; [reflexivity|]. split; [|exact Hrd].
    unfold getitem. rewrite dict_get_set_other by discriminate.
    rewrite G2. reflexivity.
  - exists p2, r. split; [reflexivity|]. split; [|exact Hrd].
    unfold getitem. rewrite G2. reflexivity.
Qed.

End ValidationProperties.

Lemma normalized_amount_half_even_witness :
  let raw := record (PyStr "2.675") "Food" (PyStr "2024-01-20") in
  validate_expense_data fromisoformat_date raw = Ok tt /\
  magnitude_below (Dec.mkDec 2675 (-3)) 25 /\
  exists processed r,
    _process_expense_data fromisoformat_date raw = Ok processed /\
    getitem processed "amount" = Ok (PyDec (Dec.Finite r)) /\
    rounded_half_even (Dec.mkDec 2675 (-3)) r 2.
Proof.
  intros raw.
  assert (V : validate_expense_data fromisoformat_date raw = Ok tt)
    by (vm_compute; reflexivity).
  assert (M : magnitude_below (Dec.mkDec 2675 (-3)) 25)
    by (vm_compute; reflexivity).
  split; [exact V|]. split; [exact M|].
  apply (normalized_amount_half_even fromisoformat_date raw (PyStr "2.675")
           (Dec.mkDec 2675 (-3)) V); [| |exact M]; vm_compute; reflexivity.
Defined.

(** C2, as stated, fails: 2.005 is normalised to 2.00, where rounding
    half-up gives 2.01. *)
Lemma normalized_amount_not_half_up :
  let raw := record (PyStr "2.005") "Food" (PyStr "2024-01-20") in
  validate_expense_data fromisoformat_date raw = Ok tt /\
  (exists processed,
     _process_expense_data fromisoformat_date raw = Ok processed /\
     getitem processed "amount" = Ok (PyDec (Dec.Finite (cents 200)))) /\
  Dec.rescale_half_up (Dec.mkDec 2005 (-3)) (-2) = cents 201.
Proof.
  split; [vm_compute; reflexivity|]. split; [|vm_compute; reflexivity].
  eexists. split; vm_compute; reflexivity.
Qed.

(** An amount that [Decimal] cannot read makes the validation raise what
    [Decimal] raised: [except (ValueError, TypeError)] does not catch
    decimal.InvalidOperation. *)
Lemma unreadable_amount_not_caught (fromisoformat : string -> option datetime)
    (expense_data : RawDict) (v : PyVal) :
  check_required REQUIRED_FIELDS expense_data = Ok tt ->
  getitem expense_data "amount" = Ok v ->
  Decimal_of_str v = Raise InvalidOperation ->
  validate_expense_data fromisoformat expense_data = Raise InvalidOperation.
Proof.
  intros Hreq Hv Hd. unfold validate_expense_data, validate_amount.
  rewrite Hreq, Hv. cbn [bind]. rewrite Hd. reflexivity.
Qed.

(** C5 on the code.  The validation fails with the messages of an invalid
    amount for the amounts 0 and -5 and passes for 0.01; for the amount
    "abc" it raises decimal.InvalidOperation, which is no
    InvalidExpenseError. *)
Theorem validate_amount_cases :
  let validate amount :=
    validate_expense_data fromisoformat_date
      (record amount "Food" (PyStr "2024-01-20")) in
  validate (PyInt 0) = Raise (InvalidExpenseError AmountNotPositive) /\
  validate (PyInt (-5)) = Raise (InvalidExpenseError AmountNotPositive) /\
  validate (PyStr "0.01") = Ok tt /\
  validate (PyStr "abc") = Raise InvalidOperation /\
  is_InvalidAmount InvalidOperation = false.
Proof. repeat split; vm_compute; reflexivity. Qed.

(** ** The record as an object *)

Module StoreFacts.
Import Store StoreLogic.

Lemma length_update (h : heap) (l : loc) (o : object) :
  List.length (update h l o) = List.length h.
Proof.
  revert l. induction h as [|x h IH]; intros [|l]; simpl; auto.
Qed.

Lemma load_update_other (h : heap) (l l' : loc) (o : object) :
  l <> l' -> load (update h l o) l' = load h l'.
Proof.
  unfold load. revert l l'.
  induction h as [|x h IH]; intros [|l] [|l'] N; simpl; auto; try contradiction.
Qed.

Lemma load_update_same (h : heap) (l : loc) (o : object) :
  (l < List.length h)%nat -> load (update h l o) l = Some o.
Proof.
  unfold load. revert l.
  induction h as [|x h IH]; intros [|l] L; simpl in *; try lia; auto.
  apply IH. lia.
Qed.

Lemma load_some_lt (h : heap) (l : loc) (o : object) :
  load h l = Some o -> (l < List.length h)%nat.
Proof. unfold load. intros E. apply nth_error_Some. rewrite E. discriminate. Qed.

Lemma triple_bind {A B : Type} (n : nat) (pre : heap -> Prop) (m : H A)
    (mid : A -> heap -> Prop) (k : A -> H B) (post : B -> heap -> Prop) :
  triple n pre m mid ->
  (forall a, triple n (mid a) (k a) post) ->
  triple n pre (hbind m k) post.
Proof.
  intros Hm Hk h Hn Hp. unfold hbind.
  destruct (Hm h Hn Hp) as (L1 & F1 & P1).
  destruct (m h) as [[a|e] h1]; simpl in *.
  - destruct (Hk a h1 L1 (P1 a eq_refl)) as (L2 & F2 & P2).
    split; [exact L2|]. split; [|exact P2].
    intros l Hl. rewrite F2 by exact Hl. apply F1. exact Hl.
  - split; [exact L1|]. split; [exact F1|]. intros b [=].
Qed.

(** A computation that only reads. *)
Lemma triple_read {A : Type} (n : nat) (pre : heap -> Prop) (m : H A) :
  (forall h, snd (m h) = h) ->
  triple n pre m (fun _ h => pre h).
Proof.
  intros Hr h Hn Hp. rewrite Hr. auto.
Qed.

Lemma load_dict_reads (l : loc) (h : heap) : snd (load_dict l h) = h.
Proof. unfold load_dict. destruct (load h l) as [[d|vs]|]; reflexivity. Qed.

Lemma read_bind {A B : Type} (m : H A) (k : A -> H B) :
  (forall h, snd (m h) = h) -> (forall a h, snd (k a h) = h) ->
  forall h, snd (hbind m k h) = h.
Proof.
  intros Hm Hk h. unfold hbind. specialize (Hm h).
  destruct (m h) as [[a|e] h1]; simpl in *; subst; auto.
Qed.

Lemma dict_getitem_reads (l : loc) (k : string) (h : heap) :
  snd (dict_getitem l k h) = h.
Proof.
  apply read_bind; [apply load_dict_reads | reflexivity].
Qed.

Lemma dict_contains_reads (l : loc) (k : string) (h : heap) :
  snd (dict_contains l k h) = h.
Proof.
  apply read_bind; [apply load_dict_reads | reflexivity].
Qed.

Lemma elements_reads (v : value) (h : heap) : snd (elements v h) = h.
Proof.
  destruct v as [[]|l]; try reflexivity.
  simpl. destruct (load h l) as [[d|vs]|]; reflexivity.
Qed.

Lemma triple_alloc (n : nat) (p : loc) (o : object) :
  triple n (is_dict p) (alloc o) (fun _ h => is_dict p h).
Proof.
  intros h Hn (d & Hd). unfold alloc. simpl.
  rewrite length_app. split; [lia|]. split.
  - intros l Hl. unfold load. apply nth_error_app1. lia.
  - intros _ _. exists d. unfold load in *.
    rewrite nth_error_app1; [exact Hd|].
    apply nth_error_Some. rewrite Hd. discriminate.
Qed.

Lemma triple_setitem (n : nat) (p : loc) (k : string) (v : value) :
  (n <= p)%nat ->
  triple n (is_dict p) (dict_setitem p k v) (fun _ h => is_dict p h).
Proof.
  intros Hp h Hn (d & Hd). unfold dict_setitem, hbind, load_dict.
  rewrite Hd. simpl. rewrite length_update. split; [exact Hn|]. split.
  - intros l Hl. apply load_update_other. lia.
  - intros _ _. eexists. apply load_update_same. eapply load_some_lt, Hd.
Qed.

Lemma triple_copy (n : nat) (l : loc) :
  triple n (fun _ => True) (dict_copy l)
    (fun p h => (n <= p)%nat /\ is_dict p h).
Proof.
  intros h Hn _. unfold dict_copy, hbind, load_dict, alloc.
  destruct (load h l) as [[d|vs]|]; simpl.
  - rewrite length_app. split; [lia|]. split.
    + intros l' Hl. unfold load. apply nth_error_app1. lia.
    + intros a [= <-]. split; [exact Hn|]. exists d.
      unfold load. rewrite nth_error_app2, Nat.sub_diag by lia. reflexivity.
  - split; [exact Hn|]. split; [reflexivity|]. intros a [=].
  - split; [exact Hn|]. split; [reflexivity|]. intros a [=].
Qed.

Lemma triple_weaken {A : Type} (n : nat) (pre pre' : heap -> Prop) (m : H A)
    (post post' : A -> heap -> Prop) :
  triple n pre m post ->
  (forall h, pre' h -> pre h) ->
  (forall a h, post a h -> post' a h) ->
  triple n pre' m post'.
Proof.
  intros Hm Hpre Hpost h Hn Hp.
  destruct (Hm h Hn (Hpre h Hp)) as (L & F & P).
  split; [exact L|]. split; [exact F|]. intros a E. apply Hpost, P, E.
Qed.

Section Frame.

Variable fromisoformat : string -> option datetime.

(** The processing writes only to what it allocates, and returns a
    dictionary allocated by the call. *)
Lemma process_triple (n : nat) (expense_data : loc) :
  triple n (fun _ => True) (_process_expense_data fromisoformat expense_data)
    (fun p h => (n <= p)%nat /\ is_dict p h).
Proof.
  unfold _process_expense_data.
  eapply triple_bind; [apply triple_copy|]. intros processed.
  assert (Hread : forall (A : Type) (m : H A),
            (forall h, snd (m h) = h) ->
            triple n (fun h => (n <= processed)%nat /\ is_dict processed h) m
              (fun _ h => (n <= processed)%nat /\ is_dict processed h)).
  { intros A m Hm. apply triple_read. exact Hm. }
  assert (Hset : forall k v,
            triple n (fun h => (n <= processed)%nat /\ is_dict processed h)
              (dict_setitem processed k v)
              (fun _ h => (n <= processed)%nat /\ is_dict processed h)).
  { intros k v h Hn (Hp & Hd).
    destruct (triple_setitem n processed k v Hp h Hn Hd) as (L & F & P).
    split; [exact L|]. split; [exact F|]. intros a E. split; [exact Hp|]. eauto. }
  eapply triple_bind; [apply Hread, dict_getitem_reads|]. intros v.
  eapply triple_bind; [apply Hread; reflexivity|]. intros amount.
  eapply triple_bind; [apply Hread; reflexivity|]. intros rounded.
  eapply triple_bind; [apply Hset|]. intros ?; cbv beta.
  eapply triple_bind; [apply Hread, dict_getitem_reads|]. intros date.
  eapply triple_bind.
  { instantiate (1 := fun _ h => (n <= processed)%nat /\ is_dict processed h).
    destruct date as [[]|]; try (apply Hread; reflexivity).
    destruct (fromisoformat s); [apply Hset | apply Hread; reflexivity]. }
  intros ?; cbv beta.
  eapply triple_bind; [apply Hread, dict_contains_reads|]. intros has_tags.
  eapply triple_bind.
  { instantiate (1 := fun _ h => (n <= processed)%nat /\ is_dict processed h).
    destruct has_tags; [|apply Hread; reflexivity].
    eapply triple_bind; [apply Hread, dict_getitem_reads|]. intros tags.
    eapply triple_bind; [apply Hread, elements_reads|]. intros vs.
    eapply triple_bind; [apply Hread; reflexivity|]. intros vs'.
    eapply triple_bind.
    { instantiate (1 := fun _ h => (n <= processed)%nat /\ is_dict processed h).
      intros h Hn (Hp & Hd).
      destruct (triple_alloc n processed (List vs') h Hn Hd) as (L & F & P).
      split; [exact L|]. split; [exact F|]. intros x E. split; [exact Hp|]. eauto. }
    intros fresh. apply Hset. }
  intros ?; cbv beta.
  intros h Hn Hp. simpl. split; [exact Hn|]. split; [reflexivity|].
  intros x [= <-]. exact Hp.
Qed.

(** C10.  [_process_expense_data] does not change its input: every object
    of the store before the call, the caller's record and the list of its
    tags among them, is the same after the call, whether it returns or
    raises; and the record returned is a dictionary that did not exist
    before the call. *)
Theorem process_expense_data_does_not_mutate (h : heap) (expense_data : loc) :
  let out := _process_expense_data fromisoformat expense_data h in
  (forall l o, load h l = Some o -> load (snd out) l = Some o) /\
  (forall p, fst out = Ok p ->
     load h p = None /\ p <> expense_data /\
     exists d, load (snd out) p = Some (Dict d) /\
               load h expense_data = load (snd out) expense_data).
Proof.
  intros out.
  destruct (process_triple (List.length h) expense_data h (le_n _) I)
    as (L & F & P).
  fold out in L, F, P.
  split.
  - intros l o E. rewrite F; [exact E | eapply load_some_lt, E].
  - intros p E. destruct (P p E) as (Hp & d & Hd).
    assert (Hnone : load h p = None) by (apply nth_error_None; exact Hp).
    assert (Hin : exists d0, load h expense_data = Some (Dict d0)).
    { subst out. unfold _process_expense_data, hbind, dict_copy, hbind, load_dict in E.
      destruct (load h expense_data) as [[d0|vs]|]; simpl in E;
        try discriminate. eauto. }
    destruct Hin as (d0 & Hd0).
    split; [exact Hnone|]. split.
    + intros ->. rewrite Hd0 in Hnone. discriminate.
    + exists d. split; [exact Hd|].
      symmetry. apply F. eapply load_some_lt, Hd0.
Qed.

End Frame.

(** On the record of the example: the result is a new dictionary with a
    new list of tags, and the two objects of the caller are as before. *)
Example process_example :
  let out := _process_expense_data fromisoformat_date 1%nat example_heap in
  fst out = Ok 2%nat /\
  load (snd out) 0%nat = load example_heap 0%nat /\
  load (snd out) 1%nat = load example_heap 1%nat /\
  load (snd out) 3%nat
  = Some (List [Imm (PyStr "lunch"); Imm (PyStr "work")]).
Proof. repeat split; vm_compute; reflexivity. Qed.

Lemma process_expense_data_does_not_mutate_witness :
  let out := _process_expense_data fromisoformat_date 1%nat example_heap in
  load example_heap 0%nat
  = Some (List [Imm (PyStr " Lunch "); Imm (PyStr "WORK")]) /\
  load (snd out) 0%nat
  = Some (List [Imm (PyStr " Lunch "); Imm (PyStr "WORK")]) /\
  load (snd out) 1%nat = load example_heap 1%nat.
Proof.
  intros out.
  destruct (process_expense_data_does_not_mutate fromisoformat_date
              example_heap 1%nat) as (Hkeep & Hnew).
  split; [reflexivity|]. split.
  - apply Hkeep. reflexivity.
  - destruct (Hnew 2%nat) as (_ & _ & d & _ & Hsame).
    + vm_compute. reflexivity.
    + symmetry. exact Hsame.
Defined.

End StoreFacts.

(** ** The categorisation by keywords *)

Example categorize_examples :
  let expense text amount := [("description", PyStr text); ("amount", PyStr amount)] in
  categorize_expense (expense "Grocery store run" "45.00") = Ok "food" /\
  categorize_expense (expense "Random purchase" "1500.00") = Ok "major_expense" /\
  categorize_expense (expense "xyz" "10.00") = Ok "other".
Proof. repeat split; vm_compute; reflexivity. Qed.

(** * Further properties *)

(** ** Permutations *)

Lemma filter_permutation {A : Type} (p : A -> bool) (l l' : list A) :
  Permutation l l' -> Permutation (filter p l) (filter p l').
Proof.
  induction 1; simpl.
  - constructor.
  - destruct (p x); [constructor|]; assumption.
  - destruct (p x), (p y); try apply Permutation_refl.
    + apply perm_swap.
  - eapply Permutation_trans; eassumption.
Qed.

(** ** The dictionaries of the summary *)

Lemma dict_get_accumulate (d : dict Dec.Decimal) (k k' : string) (a : Dec.Decimal) :
  dict_get (accumulate d k a) k'
  = if String.eqb k k'
    then Some (Dec.add (match dict_get d k with Some v => v | None => Dec.zero_00 end) a)
    else dict_get d k'.
Proof.
  unfold accumulate, contains.
  destruct (dict_get d k) as [v|] eqn:G.
  - rewrite G. apply dict_get_set.
  - rewrite dict_get_set_same. rewrite !dict_get_set.
    destruct (String.eqb k k'); reflexivity.
Qed.

Lemma with_key_snoc (k : string) (pairs : list (string * Dec.Decimal))
    (p : string * Dec.Decimal) :
  with_key k (pairs ++ [p])
  = with_key k pairs ++ (if String.eqb (fst p) k then [p] else []).
Proof. unfold with_key. rewrite filter_app. reflexivity. Qed.

Lemma keyed_total_snoc (pairs : list (string * Dec.Decimal)) (k0 : string)
    (a : Dec.Decimal) (k : string) :
  keyed_total (pairs ++ [(k0, a)]) k
  = if String.eqb k0 k
    then Some (Dec.add (match keyed_total pairs k with
                        | Some v => v
                        | None => Dec.zero_00
                        end) a)
    else keyed_total pairs k.
Proof.
  unfold keyed_total. rewrite with_key_snoc. cbn [fst].
  destruct (String.eqb k0 k).
  - destruct (with_key k pairs) as [|q l] eqn:E.
    + reflexivity.
    + change ((q :: l) ++ [(k0, a)]) with (q :: (l ++ [(k0, a)])).
      cbv iota. f_equal. unfold sum_from.
      change (q :: l ++ [(k0, a)]) with ((q :: l) ++ [(k0, a)]).
      rewrite map_app, fold_left_app. reflexivity.
  - rewrite app_nil_r. reflexivity.
Qed.

Lemma accumulate_all_lookup (pairs : list (string * Dec.Decimal)) :
  forall seen d,
  (forall k, dict_get d k = keyed_total seen k) ->
  forall k, dict_get (accumulate_all pairs d) k = keyed_total (seen ++ pairs) k.
Proof.
  induction pairs as [|[k0 a] pairs IH]; intros seen d Hd k.
  - rewrite app_nil_r. apply Hd.
  - change (accumulate_all ((k0, a) :: pairs) d)
      with (accumulate_all pairs (accumulate d k0 a)).
    replace (seen ++ (k0, a) :: pairs) with ((seen ++ [(k0, a)]) ++ pairs)
      by (rewrite <- app_assoc; reflexivity).
    apply IH. intros k'.
    rewrite dict_get_accumulate, keyed_total_snoc, !Hd.
    destruct (String.eqb k0 k') eqn:E; [|reflexivity].
    apply String.eqb_eq in E. subst k'. reflexivity.
Qed.

Lemma summary_dictionaries (expenses : list Expense.t) : forall s,
  let s' := fold_left summary_step expenses s in
  total s' = sum_from (total s) (map Expense.amount expenses) /\
  categories s' = accumulate_all (category_pairs expenses) (categories s) /\
  tags s' = accumulate_all (tag_pairs expenses) (tags s) /\
  daily_totals s' = accumulate_all (day_pairs expenses) (daily_totals s).
Proof.
  induction expenses as [|e rest IH]; intros s; simpl.
  - auto.
  - destruct (IH (summary_step s e)) as (Ht & Hc & Hg & Hd).
    rewrite Ht, Hc, Hg, Hd. unfold summary_step. cbn [total categories tags daily_totals].
    repeat split.
    unfold tag_pairs. cbn [flat_map]. unfold accumulate_all.
    rewrite fold_left_app. f_equal.
    generalize (tags s). induction (Expense.tags e) as [|t ts IHt]; intros d; simpl.
    + reflexivity.
    + apply IHt.
Qed.

(** The total and the entries of the three dictionaries of the summary. *)
Lemma summary_lookups (expenses : list Expense.t) :
  let s := _generate_summary expenses in
  total s = sum_from Dec.zero_00 (map Expense.amount expenses) /\
  count s = Z.of_nat (List.length expenses) /\
  (forall c, dict_get (categories s) c
             = keyed_total (category_pairs expenses) c) /\
  (forall tag, dict_get (tags s) tag = keyed_total (tag_pairs expenses) tag) /\
  (forall day, dict_get (daily_totals s) day
               = keyed_total (day_pairs expenses) day).
Proof.
  unfold _generate_summary.
  destruct (summary_dictionaries expenses
              (mkSummary Dec.zero_00 [] [] [] (Z.of_nat (List.length expenses))))
    as (Ht & Hc & Hg & Hd).
  pose proof (summary_count expenses
                (mkSummary Dec.zero_00 [] [] [] (Z.of_nat (List.length expenses))))
    as Hn.
  cbv zeta in *. cbn [total categories tags daily_totals count] in *.
  rewrite Ht, Hc, Hg, Hd, Hn.
  repeat split; intros k; apply (accumulate_all_lookup _ [] []); reflexivity.
Qed.

(** X1.  Every entry of [categories] is the total of the amounts of the
    expenses of that category, and every entry of [daily_totals] the total
    of the expenses of that calendar day; a key is there only when an
    expense has it; and the total is the amounts added in the order of the
    list to [Decimal('0.00')]. *)
Theorem summary_entries (expenses : list Expense.t) :
  let s := _generate_summary expenses in
  total s = sum_from Dec.zero_00 (map Expense.amount expenses) /\
  (forall c, dict_get (categories s) c
             = keyed_total (category_pairs expenses) c) /\
  (forall day, dict_get (daily_totals s) day
               = keyed_total (day_pairs expenses) day).
Proof.
  destruct (summary_lookups expenses) as (Ht & _ & Hc & _ & Hd). auto.
Qed.

Lemma Qsum_app (l l' : list Q) : (Qsum (l ++ l') == Qsum l + Qsum l')%Q.
Proof. induction l as [|x l IH]; simpl; [ring | rewrite IH; ring]. Qed.

Lemma Qsum_repeat (q : Q) (n : nat) :
  (Qsum (repeat q n) == inject_Z (Z.of_nat n) * q)%Q.
Proof.
  induction n as [|n IH].
  - simpl. ring.
  - cbn [repeat Qsum fold_right]. fold (Qsum (repeat q n)). rewrite IH.
    rewrite Nat2Z.inj_succ. unfold Z.succ. rewrite inject_Z_plus. ring.
Qed.

Lemma Qsum_tag_pairs (expenses : list Expense.t) :
  (Qsum (map (fun p => Dec.value (snd p)) (tag_pairs expenses))
   == Qsum (map (fun e => inject_Z (Z.of_nat (List.length (Expense.tags e)))
                          * Dec.value (Expense.amount e)) expenses))%Q.
Proof.
  induction expenses as [|e rest IH].
  - reflexivity.
  - unfold tag_pairs. cbn [flat_map]. rewrite map_app, Qsum_app.
    fold (tag_pairs rest). rewrite IH. cbn [map Qsum fold_right].
    apply Qplus_comp; [|reflexivity].
    rewrite map_map. cbn [snd].
    rewrite <- Qsum_repeat.
    induction (Expense.tags e) as [|t ts IHt]; [reflexivity|].
    simpl. rewrite IHt. reflexivity.
Qed.

(** ** The order of Decimals *)

Lemma pow10_pos (m : Z) : (0 < (10 # 1) ^ m)%Q.
Proof. apply Qpower_0_lt. reflexivity. Qed.

Lemma value_aligned (d : Dec.Decimal) (m : Z) :
  m <= Dec.expo d ->
  (Dec.value d == inject_Z (Dec.coeff d * 10 ^ (Dec.expo d - m)) * (10 # 1) ^ m)%Q.
Proof.
  intros H. unfold Dec.value. rewrite inject_Z_mult, <- Qmult_assoc.
  rewrite pow10_split by exact H. reflexivity.
Qed.

(** [x > y] on Decimals is the order of the numbers they stand for. *)
Lemma gtb_value (x y : Dec.Decimal) :
  Dec.gtb x y = true <-> (Dec.value y < Dec.value x)%Q.
Proof.
  unfold Dec.gtb, Dec.compare, Dec.align.
  set (m := Z.min (Dec.expo x) (Dec.expo y)).
  rewrite (value_aligned x m), (value_aligned y m) by (subst m; lia).
  set (a := Dec.coeff x * 10 ^ (Dec.expo x - m)).
  set (b := Dec.coeff y * 10 ^ (Dec.expo y - m)).
  rewrite (Qmult_lt_r _ _ _ (pow10_pos m)), <- Zlt_Qlt.
  destruct (Z.compare_spec a b); split; intros; try discriminate; try lia; reflexivity.
Qed.

Lemma gtb_false_value (x y : Dec.Decimal) :
  Dec.gtb x y = false <-> (Dec.value x <= Dec.value y)%Q.
Proof.
  split.
  - intros H. apply Qnot_lt_le. intros L. apply gtb_value in L. congruence.
  - intros H. destruct (Dec.gtb x y) eqn:E; [|reflexivity].
    apply gtb_value in E. exfalso. exact (Qlt_not_le _ _ E H).
Qed.

Lemma value_of_int_0 : (Dec.value (Dec.of_int 0) == 0)%Q.
Proof. reflexivity. Qed.

Lemma value_sign (d : Dec.Decimal) :
  (0 < Dec.value d)%Q <-> 0 < Dec.coeff d.
Proof.
  unfold Dec.value. split.
  - intros H. destruct (Z_lt_le_dec 0 (Dec.coeff d)) as [P|N]; [exact P|].
    exfalso. apply (Qlt_not_le _ _ H).
    rewrite <- (Qmult_0_l ((10 # 1) ^ Dec.expo d)).
    apply Qmult_le_compat_r; [|apply Qlt_le_weak, pow10_pos].
    change 0%Q with (inject_Z 0). rewrite <- Zle_Qle. exact N.
  - intros H. apply Qmult_lt_0_compat; [|apply pow10_pos].
    change 0%Q with (inject_Z 0). rewrite <- Zlt_Qlt. exact H.
Qed.

(** ** More on the analysis *)

Lemma totals_step_accumulates (st st' : Totals) (e : Item) :
  totals_step st e = Ok st' ->
  spent st' = Dec.add (spent st) (amount e) /\
  distribution st' = accumulate (distribution st) (category e) (amount e).
Proof.
  unfold totals_step, accumulate, getitem.
  destruct (contains (distribution st) (category e)) eqn:C.
  - destruct (dict_get (distribution st) (category e)) as [d|]; [|discriminate].
    cbn [bind].
    destruct (dict_get (category_counts st) (category e)); [|discriminate].
    cbn [bind]. intros [= <-]. auto.
  - rewrite !dict_get_set_same. cbn [bind]. intros [= <-]. auto.
Qed.

Lemma totals_loop_accumulates (expenses : list Item) : forall st st',
  totals_loop expenses st = Ok st' ->
  distribution st' = accumulate_all (item_pairs expenses) (distribution st).
Proof.
  induction expenses as [|e rest IH]; intros st st'; simpl.
  - intros [= <-]. reflexivity.
  - destruct (totals_step st e) as [st1|] eqn:E; [|discriminate].
    cbn [bind]. intros H. rewrite (IH _ _ H).
    destruct (totals_step_accumulates _ _ _ E) as (_ & ->). reflexivity.
Qed.

(** What a returned analysis of a non-empty list is made of. *)
Lemma analyze_returns (expenses : list Item) (period_days : Z) (a : Analysis) :
  expenses <> [] ->
  analyze_spending_pattern expenses period_days = Ok a ->
  exists st most,
    totals_loop expenses no_totals = Ok st /\
    totals_inv expenses st /\
    max_by_count (category_counts st) = Ok most /\
    Dec.div (spent st) (Dec.of_int period_days) = Ok (average_daily a) /\
    total_spent a = spent st /\
    highest_expense a = highest st /\
    most_frequent_category a = Some (fst most) /\
    category_distribution a = distribution st.
Proof.
  intros NE H.
  destruct (totals_loop_inv expenses [] _ totals_inv_init) as (st & Hl & I).
  simpl in I.
  destruct expenses as [|e0 rest]; [contradiction|].
  unfold analyze_spending_pattern in H.
  fold no_totals in H. unfold no_totals in *. rewrite Hl in H. cbn [bind] in H.
  destruct (Dec.div (spent st) (Dec.of_int period_days)) as [avg|] eqn:D;
    [|discriminate].
  cbn [bind] in H.
  destruct (max_by_count (category_counts st)) as [most'|] eqn:M; [|discriminate].
  cbn [bind] in H.
  destruct (averages (distribution st) (category_counts st)); [|discriminate].
  cbn [bind] in H.
  destruct (unusual_loop (e0 :: rest) a0); [|discriminate].
  cbn [bind] in H. injection H as <-.
  exists st, most'. cbn.
  repeat match goal with |- _ /\ _ => split end; auto.
Qed.

Lemma totals_step_highest (st st' : Totals) (e : Item) :
  totals_step st e = Ok st' ->
  highest st'
  = match highest st with
    | None => Some (highest_of e)
    | Some h =>
        if Dec.gtb (amount e) (highest_amount h) then Some (highest_of e)
        else Some h
    end.
Proof.
  unfold totals_step.
  destruct (contains (distribution st) (category e));
    destruct (getitem _ (category e)); cbn [bind]; try discriminate;
    destruct (getitem _ (category e)); cbn [bind]; try discriminate;
    intros [= <-]; reflexivity.
Qed.

Lemma first_maximum_step (seen : list Item) (st st' : Totals) (e : Item) :
  totals_step st e = Ok st' ->
  first_maximum seen (highest st) ->
  first_maximum (seen ++ [e]) (highest st').
Proof.
  intros Hs Hm. rewrite (totals_step_highest _ _ _ Hs).
  destruct (highest st) as [h|]; cbn [first_maximum] in *.
  - destruct Hm as (before & m & after & -> & -> & Hb & Ha).
    cbn [highest_of highest_amount].
    destruct (Dec.gtb (amount e) (amount m)) eqn:G.
    + exists (before ++ m :: after), e, []. split; [reflexivity|].
      split; [reflexivity|]. split; [|intros x []].
      intros x Hx. apply gtb_value. apply gtb_value in G.
      apply in_app_or in Hx as [Hx | [<- | Hx]].
      * apply Hb, gtb_value in Hx. eapply Qlt_trans; eassumption.
      * exact G.
      * apply Ha, gtb_false_value in Hx. eapply Qle_lt_trans; eassumption.
    + exists before, m, (after ++ [e]). split; [rewrite <- app_assoc; reflexivity|].
      split; [reflexivity|]. split; [exact Hb|].
      intros x Hx. apply in_app_or in Hx as [Hx | [<- | []]]; auto.
  - subst seen. exists [], e, []. repeat split; intros x [].
Qed.

Lemma first_maximum_loop (expenses : list Item) : forall seen st st',
  totals_loop expenses st = Ok st' ->
  first_maximum seen (highest st) ->
  first_maximum (seen ++ expenses) (highest st').
Proof.
  induction expenses as [|e rest IH]; intros seen st st'; simpl.
  - intros [= <-]. rewrite app_nil_r. auto.
  - destruct (totals_step st e) as [st1|] eqn:E; [|discriminate].
    cbn [bind]. intros Hl Hm.
    replace (seen ++ e :: rest) with ((seen ++ [e]) ++ rest)
      by (rewrite <- app_assoc; reflexivity).
    eapply IH; [exact Hl|]. eapply first_maximum_step; eassumption.
Qed.

(** X5.  The highest expense of a returned analysis is an expense of the
    list with the largest amount: every expense before it has a strictly
    smaller amount and no expense after it a larger one, so that the first
    one wins on equal amounts.  It is absent only for the empty list. *)
Theorem analysis_highest_expense (expenses : list Item) (period_days : Z)
    (a : Analysis) :
  analyze_spending_pattern expenses period_days = Ok a ->
  first_maximum expenses (highest_expense a).
Proof.
  intros H. destruct expenses as [|e0 rest] eqn:E.
  - injection H as <-. reflexivity.
  - rewrite <- E in *.
    destruct (analyze_returns expenses period_days a) as
      (st & most & Hl & _ & _ & _ & _ & Hh & _);
      [rewrite E; discriminate | exact H |].
    rewrite Hh. apply (first_maximum_loop expenses [] no_totals st Hl).
    reflexivity.
Qed.

Lemma analysis_highest_expense_witness :
  let l := [food 4000; food 1000; food 4000] in
  exists a,
    analyze_spending_pattern l 30 = Ok a /\
    first_maximum l (highest_expense a) /\
    highest_expense a = Some (highest_of (food 4000)).
Proof.
  intros l. eexists. split; [vm_compute; reflexivity|].
  split; [|reflexivity].
  apply (analysis_highest_expense l 30). vm_compute. reflexivity.
Defined.

(** ** The most frequent category *)

Lemma contains_keys {V : Type} (d : dict V) (k : string) :
  contains d k = existsb (String.eqb k) (keys d).
Proof.
  unfold contains. induction d as [|[k0 v0] d IH]; simpl; [reflexivity|].
  rewrite (String.eqb_sym k k0). destruct (String.eqb k0 k); simpl; auto.
Qed.

Lemma keys_dict_set {V : Type} (d : dict V) (k : string) (v : V) :
  keys (dict_set d k v) = if contains d k then keys d else keys d ++ [k].
Proof.
  unfold contains. induction d as [|[k0 v0] d IH]; simpl; [reflexivity|].
  destruct (String.eqb k0 k) eqn:E; simpl.
  - apply String.eqb_eq in E. subst. reflexivity.
  - rewrite IH. destruct (dict_get d k); reflexivity.
Qed.

Lemma distinct_snoc (l : list string) (k : string) :
  distinct (l ++ [k])
  = if existsb (String.eqb k) (distinct l) then distinct l else distinct l ++ [k].
Proof. unfold distinct. rewrite fold_left_app. reflexivity. Qed.

Lemma existsb_eqb_in (k : string) (l : list string) :
  existsb (String.eqb k) l = true <-> In k l.
Proof.
  rewrite existsb_exists. split.
  - intros (x & I & E). apply String.eqb_eq in E. subst. exact I.
  - intros I. exists k. split; [exact I | apply String.eqb_refl].
Qed.

Lemma distinct_nodup (l : list string) : NoDup (distinct l).
Proof.
  induction l as [|k l IH] using rev_ind.
  - constructor.
  - rewrite distinct_snoc. destruct (existsb (String.eqb k) (distinct l)) eqn:E.
    + exact IH.
    + apply NoDup_app; [exact IH | repeat constructor; intros [] |].
      intros x Hx [<- | []].
      apply existsb_eqb_in in Hx. congruence.
Qed.

Lemma distinct_in (l : list string) : forall k, In k (distinct l) <-> In k l.
Proof.
  induction l as [|x l IH] using rev_ind; intros k.
  - reflexivity.
  - rewrite distinct_snoc, in_app_iff. simpl.
    destruct (existsb (String.eqb x) (distinct l)) eqn:E.
    + rewrite IH. apply existsb_eqb_in, IH in E. split; [auto|].
      intros [H | [<- | []]]; auto.
    + rewrite in_app_iff, IH. reflexivity.
Qed.

(** The two dictionaries of the first loop have the same keys: the
    categories seen, in the order of their first appearance. *)
Lemma totals_step_keys (st st' : Totals) (e : Item) (seen : list string) :
  totals_step st e = Ok st' ->
  keys (distribution st) = distinct seen ->
  keys (category_counts st) = distinct seen ->
  keys (distribution st') = distinct (seen ++ [category e]) /\
  keys (category_counts st') = distinct (seen ++ [category e]).
Proof.
  intros H Hd Hc. rewrite distinct_snoc, <- Hd, <- contains_keys.
  unfold totals_step in H.
  destruct (contains (distribution st) (category e)) eqn:C.
  - destruct (getitem (distribution st) (category e)) as [d|] eqn:Gd;
      [|discriminate]. cbn [bind] in H.
    destruct (getitem (category_counts st) (category e)) as [n|] eqn:Gn;
      [|discriminate]. cbn [bind] in H. injection H as <-.
    cbn [distribution category_counts]. rewrite !keys_dict_set, C.
    split; [reflexivity|].
    unfold getitem in Gn. unfold contains.
    destruct (dict_get (category_counts st) (category e)); [|discriminate].
    congruence.
  - unfold getitem in H. rewrite !dict_get_set_same in H. cbn [bind] in H.
    injection H as <-. cbn [distribution category_counts].
    assert (Cc : contains (category_counts st) (category e) = false).
    { rewrite contains_keys, Hc, <- Hd, <- contains_keys. exact C. }
    rewrite !keys_dict_set. unfold contains at 1 3.
    rewrite !dict_get_set_same, C, Cc. rewrite Hc, Hd.
    split; [reflexivity|].
    unfold contains. rewrite dict_get_set_same. reflexivity.
Qed.

Lemma totals_loop_keys (expenses : list Item) : forall st st' seen,
  totals_loop expenses st = Ok st' ->
  keys (distribution st) = distinct seen ->
  keys (category_counts st) = distinct seen ->
  keys (category_counts st') = distinct (seen ++ map category expenses).
Proof.
  induction expenses as [|e rest IH]; intros st st' seen; simpl.
  - intros [= <-] _ H. rewrite app_nil_r. exact H.
  - destruct (totals_step st e) as [st1|] eqn:E; [|discriminate].
    cbn [bind]. intros Hl Hd Hc.
    destruct (totals_step_keys _ _ _ seen E Hd Hc) as (Hd1 & Hc1).
    replace (seen ++ category e :: map category rest)
      with ((seen ++ [category e]) ++ map category rest)
      by (rewrite <- app_assoc; reflexivity).
    eapply IH; eassumption.
Qed.

Lemma dict_get_in {V : Type} (d : dict V) (k : string) (v : V) :
  NoDup (keys d) -> In (k, v) d -> dict_get d k = Some v.
Proof.
  induction d as [|[k0 v0] d IH]; simpl; [intros _ []|].
  intros N [E | I].
  - injection E as -> ->. rewrite String.eqb_refl. reflexivity.
  - inversion N as [|? ? Hn N']; subst.
    destruct (String.eqb k0 k) eqn:E.
    + apply String.eqb_eq in E. subst k0. exfalso. apply Hn.
      change k with (fst (k, v)). apply in_map. exact I.
    + auto.
Qed.

(** [max] keeps the first of the items with the largest count. *)
Lemma max_from_first (items : list (string * Z)) : forall before best between,
  (forall x, In x before -> snd x < snd best) ->
  (forall x, In x between -> snd x <= snd best) ->
  exists before' after',
    before ++ best :: between ++ items
    = before' ++ max_from best items :: after' /\
    (forall x, In x before' -> snd x < snd (max_from best items)) /\
    (forall x, In x after' -> snd x <= snd (max_from best items)).
Proof.
  induction items as [|x rest IH]; intros before best between Hb Hm; simpl.
  - exists before, between. rewrite app_nil_r. auto.
  - destruct (snd best <? snd x) eqn:E.
    + apply Z.ltb_lt in E.
      destruct (IH (before ++ best :: between) x []) as (b' & a' & Heq & Hb' & Ha').
      * intros y Hy. apply in_app_or in Hy as [Hy | [<- | Hy]].
        -- specialize (Hb y Hy). lia.
        -- exact E.
        -- specialize (Hm y Hy). lia.
      * intros y [].
      * exists b', a'. split; [|auto].
        rewrite <- Heq. rewrite <- !app_assoc. reflexivity.
    + apply Z.ltb_ge in E.
      destruct (IH before best (between ++ [x])) as (b' & a' & Heq & Hb' & Ha').
      * exact Hb.
      * intros y Hy. apply in_app_or in Hy as [Hy | [<- | []]]; auto.
      * exists b', a'. split; [|auto].
        rewrite <- Heq. rewrite <- !app_assoc. reflexivity.
Qed.

Lemma counts_entry (expenses : list Item) (st : Totals) (x : string * Z) :
  totals_inv expenses st ->
  NoDup (keys (category_counts st)) ->
  In x (category_counts st) ->
  snd x = category_count expenses (fst x).
Proof.
  intros I N Hx. destruct x as [k n].
  pose proof (dict_get_in _ _ _ N Hx) as G.
  rewrite (inv_counts _ _ I) in G.
  destruct (has_category k expenses); [|discriminate].
  injection G as <-. reflexivity.
Qed.

(** X6.  The most frequent category of a returned analysis of a non-empty
    list is a category with the largest number of expenses; among the
    categories taken in the order of their first expense, every one before
    it has strictly fewer expenses and none after it has more, so that the
    category seen first wins when counts are equal. *)
Theorem analysis_most_frequent_category (expenses : list Item)
    (period_days : Z) (a : Analysis) :
  expenses <> [] ->
  analyze_spending_pattern expenses period_days = Ok a ->
  exists c,
    most_frequent_category a = Some c /\
    first_most_frequent (category_count expenses)
      (distinct (map category expenses)) c.
Proof.
  intros NE H.
  destruct (analyze_returns expenses period_days a NE H) as
    (st & most & Hl & I & Hm & _ & _ & _ & Hc & _).
  exists (fst most). split; [exact Hc|].
  assert (Hk : keys (category_counts st) = distinct (map category expenses)).
  { apply (totals_loop_keys expenses no_totals st [] Hl); reflexivity. }
  assert (N : NoDup (keys (category_counts st)))
    by (rewrite Hk; apply distinct_nodup).
  assert (Hx : exists x rest,
            category_counts st = x :: rest /\ most = max_from x rest).
  { destruct (category_counts st) as [|x rest]; [discriminate|].
    simpl in Hm. injection Hm as <-. eauto. }
  destruct Hx as (x & rest & Ec & ->).
  destruct (max_from_first rest [] x []) as (b' & a' & Heq & Hb & Ha);
    try (intros y []).
  simpl in Heq.
  assert (Hin : forall y, In y (b' ++ max_from x rest :: a') ->
                snd y = category_count expenses (fst y)).
  { intros y Hy. apply (counts_entry expenses st y I N).
    rewrite Ec, Heq. exact Hy. }
  exists (map fst b'), (map fst a'). split; [|split].
  - rewrite <- Hk, Ec, Heq. unfold keys. rewrite map_app. reflexivity.
  - intros c' Hc'. apply in_map_iff in Hc' as (y & <- & Hy).
    rewrite <- (Hin y), <- (Hin (max_from x rest)).
    + apply Hb, Hy.
    + apply in_or_app. right. left. reflexivity.
    + apply in_or_app. left. exact Hy.
  - intros c' Hc'. apply in_map_iff in Hc' as (y & <- & Hy).
    rewrite <- (Hin y), <- (Hin (max_from x rest)).
    + apply Ha, Hy.
    + apply in_or_app. right. left. reflexivity.
    + apply in_or_app. right. right. exact Hy.
Qed.

Lemma analysis_most_frequent_category_witness :
  let l := [mkItem (cents 500) "Travel" PyNone "bus";
            mkItem (cents 900) "Food" PyNone "lunch";
            mkItem (cents 100) "Food" PyNone "snack";
            mkItem (cents 700) "Travel" PyNone "train"] in
  l <> [] /\
  exists a,
    analyze_spending_pattern l 30 = Ok a /\
    most_frequent_category a = Some "Travel" /\
    first_most_frequent (category_count l) (distinct (map category l)) "Travel".
Proof.
  intros l. split; [discriminate|].
  destruct (analyze_spending_pattern l 30) as [a|] eqn:H;
    [|vm_compute in H; discriminate].
  exists a. split; [reflexivity|].
  destruct (analysis_most_frequent_category l 30 a ltac:(discriminate) H)
    as (c & Hc & Hf).
  assert (Hm : most_frequent_category a = Some "Travel")
    by (vm_compute in H; injection H as <-; reflexivity).
  split; [exact Hm|]. rewrite Hm in Hc. injection Hc as <-. exact Hf.
Defined.

(** ** The categorisation by keywords *)

Lemma is_prefix_spec (p s : list ascii) :
  is_prefix p s = true <-> exists after, s = p ++ after.
Proof.
  revert s. induction p as [|a p IH]; intros s; simpl.
  - split; [eauto | reflexivity].
  - destruct s as [|b s].
    + split; [discriminate | intros (after & H); discriminate].
    + rewrite andb_true_iff, IH, Ascii.eqb_eq. split.
      * intros (-> & after & ->). eauto.
      * intros (after & H). injection H as -> ->. eauto.
Qed.

Lemma occurs_in_spec (needle haystack : list ascii) :
  occurs_in needle haystack = true
  <-> exists before after, haystack = before ++ needle ++ after.
Proof.
  induction haystack as [|c rest IH].
  - simpl. rewrite orb_false_r, is_prefix_spec. split.
    + intros (after & H). exists [], after. exact H.
    + intros (before & after & H). destruct before; simpl in H.
      * eauto.
      * discriminate.
  - cbn [occurs_in]. rewrite orb_true_iff, is_prefix_spec, IH. split.
    + intros [(after & H) | (before & after & H)].
      * exists [], after. exact H.
      * exists (c :: before), after. rewrite H. reflexivity.
    + intros (before & after & H). destruct before as [|b before]; simpl in H.
      * left. eauto.
      * right. injection H as -> H. eauto.
Qed.

Lemma substring_spec (needle haystack : string) :
  substring needle haystack = true <-> part_of needle haystack.
Proof. apply occurs_in_spec. Qed.

Lemma find_first {A : Type} (f : A -> bool) (before : list A) (x : A)
    (after : list A) :
  (forall y, In y before -> f y = false) -> f x = true ->
  find f (before ++ x :: after) = Some x.
Proof.
  induction before as [|y before IH]; simpl; intros Hb Hx.
  - rewrite Hx. reflexivity.
  - rewrite (Hb y (or_introl eq_refl)). apply IH; auto.
Qed.

Lemma find_nothing {A : Type} (f : A -> bool) (l : list A) :
  (forall y, In y l -> f y = false) -> find f l = None.
Proof.
  induction l as [|y l IH]; simpl; intros H; [reflexivity|].
  rewrite (H y (or_introl eq_refl)). apply IH. auto.
Qed.

(** X7.  [categorize_expense] returns the category of the first rule of
    the table, in the order food, transport, utilities, entertainment, one
    of whose keywords is a part of the description put in lower case,
    whatever the amount is, as long as it can be read. *)
Theorem categorize_by_first_keyword (expense_data : RawDict) (s : string)
    (v : PyVal) (n : Dec.Number) (earlier : list (string * list string))
    (rule : string * list string) (later : list (string * list string))
    (keyword : string) :
  getitem expense_data "description" = Ok (PyStr s) ->
  getitem expense_data "amount" = Ok v ->
  Decimal_of_str v = Ok n ->
  categories_keywords = earlier ++ rule :: later ->
  In keyword (snd rule) ->
  part_of keyword (lower s) ->
  (forall r k, In r earlier -> In k (snd r) -> ~ part_of k (lower s)) ->
  categorize_expense expense_data = Ok (fst rule).
Proof.
  intros Hd Hv Hn Ht Hk Hp He. unfold categorize_expense.
  rewrite Hd. cbn [bind]. rewrite Hv. cbn [bind]. rewrite Hn. cbn [bind].
  rewrite Ht, find_first; [reflexivity | |].
  - intros r Hr. apply not_true_is_false. intros E.
    apply existsb_exists in E as (k & Ik & Ek).
    apply substring_spec in Ek. exact (He r k Hr Ik Ek).
  - apply existsb_exists. exists keyword. split; [exact Hk|].
    apply substring_spec, Hp.
Qed.

Lemma categorize_by_first_keyword_witness :
  categorize_expense
    [("description", PyStr "Taxi to the RESTAURANT"); ("amount", PyInt 5000)]
  = Ok "food".
Proof.
  apply (categorize_by_first_keyword _ "Taxi to the RESTAURANT" (PyInt 5000)
           (Dec.Finite (Dec.of_int 5000)) []
           ("food", ["restaurant"; "grocery"; "food"; "meal"])
           [("transport", ["gas"; "fuel"; "taxi"; "uber"; "train"]);
            ("utilities", ["electricity"; "water"; "internet"; "phone"]);
            ("entertainment", ["movie"; "game"; "concert"; "show"])]
           "restaurant");
    try reflexivity.
  - left. reflexivity.
  - exists (chars "taxi to the "), []. reflexivity.
  - intros r k [].
Defined.

(** X8.  When no keyword of the table is a part of the description put in
    lower case, the category depends on the amount alone: major_expense
    for an amount strictly above 1000, other for an amount of 1000 or
    less. *)
Theorem categorize_by_amount (expense_data : RawDict) (s : string)
    (v : PyVal) (d : Dec.Decimal) :
  getitem expense_data "description" = Ok (PyStr s) ->
  getitem expense_data "amount" = Ok v ->
  Decimal_of_str v = Ok (Dec.Finite d) ->
  (forall r k, In r categories_keywords -> In k (snd r) ->
               ~ part_of k (lower s)) ->
  ((1000 # 1 < Dec.value d)%Q ->
   categorize_expense expense_data = Ok "major_expense") /\
  ((Dec.value d <= 1000 # 1)%Q ->
   categorize_expense expense_data = Ok "other").
Proof.
  intros Hd Hv Hn Hno. unfold categorize_expense.
  rewrite Hd. cbn [bind]. rewrite Hv. cbn [bind]. rewrite Hn. cbn [bind].
  assert (F : find (fun rule => existsb (fun keyword => substring keyword (lower s))
                                        (snd rule)) categories_keywords = None).
  { apply find_nothing. intros r Hr. apply not_true_is_false. intros E.
    apply existsb_exists in E as (k & Ik & Ek).
    apply substring_spec in Ek. exact (Hno r k Hr Ik Ek). }
  rewrite F. cbn [number_gt_1000 bind].
  assert (V : (Dec.value (Dec.of_int 1000) == 1000 # 1)%Q) by reflexivity.
  split; intros H.
  - rewrite <- V in H. apply gtb_value in H. rewrite H. reflexivity.
  - rewrite <- V in H. apply gtb_false_value in H. rewrite H. reflexivity.
Qed.

Lemma categorize_by_amount_witness :
  let expense amount := [("description", PyStr "Xyz"); ("amount", PyStr amount)] in
  categorize_expense (expense "1000.01") = Ok "major_expense" /\
  categorize_expense (expense "1000") = Ok "other".
Proof.
  intros expense.
  assert (No : forall r k, In r categories_keywords -> In k (snd r) ->
                           ~ part_of k (lower "Xyz")).
  { intros r k Hr Hk Hp. apply substring_spec in Hp.
    simpl in Hr.
    repeat (destruct Hr as [<- | Hr];
            [simpl in Hk;
             repeat (destruct Hk as [<- | Hk]; [vm_compute in Hp; discriminate|]);
             contradiction|]).
    contradiction. }
  split.
  - apply (categorize_by_amount (expense "1000.01") "Xyz" (PyStr "1000.01")
             (Dec.mkDec 100001 (-2)) eq_refl eq_refl eq_refl No).
    vm_compute. reflexivity.
  - apply (categorize_by_amount (expense "1000") "Xyz" (PyStr "1000")
             (Dec.mkDec 1000 0) eq_refl eq_refl eq_refl No).
    vm_compute. discriminate.
Defined.

(** ** What the validator accepts *)

Section ValidatorFacts.

Variable fromisoformat : string -> option datetime.

Lemma leb_zero_false (d : Dec.Decimal) :
  Dec.leb d (Dec.of_int 0) = false <-> 0 < Dec.coeff d.
Proof.
  unfold Dec.leb. rewrite negb_false_iff, gtb_value, value_of_int_0.
  apply value_sign.
Qed.

Lemma validate_amount_ok (expense_data : RawDict) (a : PyVal) :
  getitem expense_data "amount" = Ok a ->
  (validate_amount expense_data = Ok tt <-> acceptable_amount a).
Proof.
  intros Ha. unfold validate_amount, acceptable_amount. rewrite Ha. cbn [bind].
  destruct (Decimal_of_str a) as [[d|neg|sig]|e]; cbn [bind number_le_zero].
  - destruct (Dec.leb d (Dec.of_int 0)) eqn:L; cbn [try_except].
    + split; [discriminate|]. intros [(d' & [= <-] & P) | [=]].
      apply leb_zero_false in P. congruence.
    + split; [|reflexivity]. intros _. left. exists d. split; [reflexivity|].
      apply leb_zero_false, L.
  - destruct neg; cbn [try_except].
    + split; [discriminate|]. intros [(d' & [=] & _) | [=]].
    + split; [|reflexivity]. auto.
  - cbn [try_except ValueError_or_TypeError].
    split; [discriminate|]. intros [(d' & [=] & _) | [=]].
  - unfold try_except. destruct (ValueError_or_TypeError e);
      (split; [discriminate|]); intros [(d' & [=] & _) | [=]].
Qed.

Lemma validate_date_ok (expense_data : RawDict) (v : PyVal) :
  getitem expense_data "date" = Ok v ->
  (validate_date fromisoformat expense_data = Ok tt
   <-> acceptable_date fromisoformat v).
Proof.
  intros Hv. unfold validate_date, acceptable_date. rewrite Hv. cbn [bind].
  destruct v as [|z|s|d|t|l].
  3: { destruct (fromisoformat s) as [t|] eqn:F; cbn [try_except only_ValueError].
       - split; [|reflexivity]. intros _ s0 [= <-]. eauto.
       - split; [discriminate|]. intros H. destruct (H s eq_refl) as (t & E).
         congruence. }
  all: split; [intros _ s0 H0; discriminate H0 | reflexivity].
Qed.

Lemma validate_each_tag_ok (l : list PyVal) :
  validate_each_tag l = Ok tt <-> Forall acceptable_tag l.
Proof.
  induction l as [|x l IH]; simpl.
  - split; [constructor | reflexivity].
  - destruct x as [|z|s|d|t|l'].
    3: { destruct (String.eqb (strip s) EmptyString) eqn:E.
         - apply String.eqb_eq in E. split; [discriminate|].
           intros H. inversion H as [|? ? (s0 & Hs & N)].
           injection Hs as <-. contradiction.
         - apply String.eqb_neq in E. rewrite IH. split.
           + intros H. constructor; [exists s; auto | exact H].
           + intros H. inversion H. assumption. }
    all: split; [discriminate|];
      intros H; inversion H as [|? ? (s0 & Hs & _)]; discriminate Hs.
Qed.

Lemma validate_tags_ok (expense_data : RawDict) :
  validate_tags expense_data = Ok tt
  <-> acceptable_tags (dict_get expense_data "tags").
Proof.
  unfold validate_tags, acceptable_tags.
  destruct (dict_get expense_data "tags") as [[| | | | |l]|];
    try (split; [discriminate | contradiction]); [|tauto].
  destruct (MAX_TAGS <? Z.of_nat (List.length l)) eqn:E.
  - apply Z.ltb_lt in E. split; [discriminate | lia].
  - apply Z.ltb_ge in E. rewrite validate_each_tag_ok. tauto.
Qed.

Lemma check_required_all (fields : list string) (expense_data : RawDict) :
  (forall f, In f fields -> contains expense_data f = true) ->
  check_required fields expense_data = Ok tt.
Proof.
  induction fields as [|f rest IH]; simpl; intros H; [reflexivity|].
  rewrite (H f (or_introl eq_refl)). apply IH. auto.
Qed.

Lemma validate_accepts_iff (expense_data : RawDict) :
  validate_expense_data fromisoformat expense_data = Ok tt <->
  exists a c dt ds,
    dict_get expense_data "amount" = Some a /\
    dict_get expense_data "category" = Some c /\
    dict_get expense_data "date" = Some dt /\
    dict_get expense_data "description" = Some ds /\
    acceptable_amount a /\
    acceptable_date fromisoformat dt /\
    acceptable_description ds /\
    acceptable_tags (dict_get expense_data "tags").
Proof.
  assert (G : forall f v, dict_get expense_data f = Some v ->
                          getitem expense_data f = Ok v)
    by (intros f v H; unfold getitem; rewrite H; reflexivity).
  split.
  - intros V. unfold validate_expense_data in V.
    apply bind_ok in V as ([] & H1 & V).
    apply bind_ok in V as ([] & H2 & V).
    apply bind_ok in V as ([] & H3 & V).
    apply bind_ok in V as ([] & H4 & H5).
    pose proof (check_required_contains _ _ H1) as C.
    assert (F : forall f, In f REQUIRED_FIELDS ->
                  exists v, dict_get expense_data f = Some v).
    { intros f I. specialize (C f I). unfold contains in C.
      destruct (dict_get expense_data f); [eauto | discriminate]. }
    destruct (F "amount") as (a & Ha); [simpl; auto|].
    destruct (F "category") as (c & Hc); [simpl; auto|].
    destruct (F "date") as (dt & Hdt); [simpl; auto 6|].
    destruct (F "description") as (ds & Hds); [simpl; auto 6|].
    exists a, c, dt, ds. repeat split; try assumption.
    + apply (validate_amount_ok _ _ (G _ _ Ha)), H2.
    + apply (validate_date_ok _ _ (G _ _ Hdt)), H3.
    + rewrite (G _ _ Hds) in H4. cbn [bind] in H4.
      destruct (py_len ds) as [n|] eqn:L; [|discriminate]. cbn [bind] in H4.
      exists n. split; [exact L|].
      destruct (MAX_DESCRIPTION_LENGTH <? n) eqn:E; [discriminate|].
      apply Z.ltb_ge, E.
    + apply validate_tags_ok, H5.
  - intros (a & c & dt & ds & Ha & Hc & Hdt & Hds & Pa & Pd & (n & Hn & Ln) & Pt).
    unfold validate_expense_data.
    rewrite check_required_all.
    + cbn [bind].
      rewrite (proj2 (validate_amount_ok _ _ (G _ _ Ha)) Pa). cbn [bind].
      rewrite (proj2 (validate_date_ok _ _ (G _ _ Hdt)) Pd). cbn [bind].
      rewrite (G _ _ Hds). cbn [bind]. rewrite Hn. cbn [bind].
      destruct (MAX_DESCRIPTION_LENGTH <? n) eqn:E; [apply Z.ltb_lt in E; lia|].
      cbn [bind]. apply validate_tags_ok, Pt.
    + intros f [<- | [<- | [<- | [<- | []]]]]; unfold contains;
        rewrite ?Ha, ?Hc, ?Hdt, ?Hds; reflexivity.
Qed.

(** X9.  The validator accepts a record exactly when the four required
    fields are there, the amount read by [Decimal(str(amount))] is a finite
    number above zero or the positive infinity, the date, when it is a
    string, is read by [fromisoformat], the description is a string or list
    of at most 500 elements, and the tags, when there are any, are a list of
    at most 10 strings none of which is blank. *)
Theorem validate_accepts (expense_data : RawDict) :
  validate_expense_data fromisoformat expense_data = Ok tt <->
  exists a c dt ds,
    dict_get expense_data "amount" = Some a /\
    dict_get expense_data "category" = Some c /\
    dict_get expense_data "date" = Some dt /\
    dict_get expense_data "description" = Some ds /\
    acceptable_amount a /\
    acceptable_date fromisoformat dt /\
    acceptable_description ds /\
    acceptable_tags (dict_get expense_data "tags").
Proof. exact (validate_accepts_iff expense_data). Qed.

(** X10.  When a required field is missing, the validator fails with the
    message of the first missing one, in the order amount, category, date,
    description, whatever else is wrong with the record. *)
Theorem validate_first_missing_field (expense_data : RawDict)
    (present : list string) (field : string) (others : list string) :
  REQUIRED_FIELDS = present ++ field :: others ->
  (forall f, In f present -> contains expense_data f = true) ->
  contains expense_data field = false ->
  validate_expense_data fromisoformat expense_data
  = Raise (InvalidExpenseError (MissingField field)).
Proof.
  intros Hr Hp Hf. unfold validate_expense_data. rewrite Hr.
  assert (E : check_required (present ++ field :: others) expense_data
              = Raise (InvalidExpenseError (MissingField field))).
  { clear Hr. induction present as [|f rest IH]; simpl.
    - rewrite Hf. reflexivity.
    - rewrite (Hp f (or_introl eq_refl)). apply IH.
      intros g Hg. apply Hp. right. exact Hg. }
  rewrite E. reflexivity.
Qed.

End ValidatorFacts.

Lemma validate_first_missing_field_witness :
  validate_expense_data fromisoformat_date
    [("amount", PyStr "abc"); ("description", PyStr "lunch")]
  = Raise (InvalidExpenseError (MissingField "category")).
Proof.
  apply (validate_first_missing_field fromisoformat_date _ ["amount"] "category"
           ["date"; "description"]).
  - reflexivity.
  - intros f [<- | []]. reflexivity.
  - reflexivity.
Defined.

(** ** More on the normalisation *)

Section NormalisationFacts.

Variable fromisoformat : string -> option datetime.

Lemma keys_dict_set_present {V : Type} (d : dict V) (k : string) (v v' : V) :
  dict_get d k = Some v -> keys (dict_set d k v') = keys d.
Proof.
  intros H. rewrite keys_dict_set. unfold contains. rewrite H. reflexivity.
Qed.

Lemma normalize_tags_map (l l' : list PyVal) :
  normalize_tags l = Ok l' ->
  exists tags, l = map PyStr tags /\
               l' = map (fun tag => PyStr (lower (strip tag))) tags.
Proof.
  revert l'. induction l as [|x l IH]; simpl; intros l'.
  - intros [= <-]. exists []. auto.
  - destruct x as [|z|s|d|t|l0]; try discriminate.
    destruct (normalize_tags l) as [r|]; [|discriminate].
    cbn [bind]. intros [= <-].
    destruct (IH r eq_refl) as (tags & -> & ->).
    exists (s :: tags). auto.
Qed.

(** What a returned normalisation is made of. *)
Lemma process_returns (expense_data processed : RawDict) :
  _process_expense_data fromisoformat expense_data = Ok processed ->
  exists v amount rounded date date' p2,
    dict_get expense_data "amount" = Some v /\
    Decimal_of_str v = Ok amount /\
    Dec.round_number amount 2 = Ok rounded /\
    dict_get expense_data "date" = Some date /\
    match date with
    | PyStr s => exists t, fromisoformat s = Some t /\ date' = PyDatetime t
    | _ => date' = date
    end /\
    p2 = dict_set (dict_set expense_data "amount" (PyDec rounded)) "date" date' /\
    match dict_get expense_data "tags" with
    | Some tags =>
        exists l l', iterate tags = Ok l /\ normalize_tags l = Ok l' /\
                     processed = dict_set p2 "tags" (PyList l')
    | None => processed = p2
    end.
Proof.
  unfold _process_expense_data, getitem. intros H.
  destruct (dict_get expense_data "amount") as [v|] eqn:Ha; [|discriminate].
  cbn [bind] in H.
  destruct (Decimal_of_str v) as [amount|] eqn:Hd; [|discriminate].
  cbn [bind] in H.
  destruct (Dec.round_number amount 2) as [rounded|] eqn:Hr; [|discriminate].
  cbn [bind] in H.
  rewrite dict_get_set_other in H by discriminate.
  destruct (dict_get expense_data "date") as [date|] eqn:Hdt; [|discriminate].
  cbn [bind] in H.
  set (p1 := dict_set expense_data "amount" (PyDec rounded)) in *.
  assert (E : exists date',
            match date with
            | PyStr s => exists t, fromisoformat s = Some t /\ date' = PyDatetime t
            | _ => date' = date
            end /\
            (p2 <- match date with
                   | PyStr s =>
                       match fromisoformat s with
                       | Some t => Ok (dict_set p1 "date" (PyDatetime t))
                       | None => Raise ValueError
                       end
                   | _ => Ok p1
                   end ;;
             match dict_get p2 "tags" with
             | Some tags =>
                 l <- iterate tags ;; l' <- normalize_tags l ;;
                 Ok (dict_set p2 "tags" (PyList l'))
             | None => Ok p2
             end)
            = (let p2 := dict_set p1 "date" date' in
               match dict_get p2 "tags" with
               | Some tags =>
                   l <- iterate tags ;; l' <- normalize_tags l ;;
                   Ok (dict_set p2 "tags" (PyList l'))
               | None => Ok p2
               end)).
  { assert (Same : forall x, dict_get p1 "date" = Some x -> dict_set p1 "date" x = p1).
    { intros x. generalize p1. induction p0 as [|[k0 v0] d IH]; simpl; [discriminate|].
      destruct (String.eqb k0 "date") eqn:Ek.
      - apply String.eqb_eq in Ek. subst. intros [= ->]. reflexivity.
      - intros G. rewrite (IH G). reflexivity. }
    assert (Gd : dict_get p1 "date" = Some date)
      by (unfold p1; rewrite dict_get_set_other by discriminate; exact Hdt).
    destruct date as [|z|s|d|t|l];
      try (eexists; split; [reflexivity|]; cbn [bind]; cbv zeta;
           rewrite (Same _ Gd); reflexivity).
    destruct (fromisoformat s) as [t|] eqn:F.
    - exists (PyDatetime t). split; [eauto|]. reflexivity.
    - cbn [bind] in H. discriminate. }
  destruct E as (date' & Hdate & E). rewrite E in H. cbv zeta in H.
  exists v, amount, rounded, date, date', (dict_set p1 "date" date').
  repeat (split; [first [reflexivity | assumption]|]).
  unfold p1 in H. rewrite !dict_get_set_other in H by discriminate.
  fold p1 in H.
  destruct (dict_get expense_data "tags") as [tags|].
  - destruct (iterate tags) as [l|]; [|discriminate]. cbn [bind] in H.
    destruct (normalize_tags l) as [l'|] eqn:N; [|discriminate].
    cbn [bind] in H. injection H as <-. eauto.
  - injection H as <-. reflexivity.
Qed.

(** X11.  The normalisation keeps the keys of the record and their order,
    and every entry other than the amount, the date and the tags. *)
Theorem process_keeps_other_entries (expense_data processed : RawDict) :
  _process_expense_data fromisoformat expense_data = Ok processed ->
  keys processed = keys expense_data /\
  forall k, k <> "amount" -> k <> "date" -> k <> "tags" ->
            dict_get processed k = dict_get expense_data k.
Proof.
  intros H.
  destruct (process_returns _ _ H)
    as (v & amount & rounded & date & date' & p2 & Ha & _ & _ & Hd & _ & -> & Ht).
  assert (K2 : keys (dict_set (dict_set expense_data "amount" (PyDec rounded))
                              "date" date') = keys expense_data).
  { rewrite (keys_dict_set_present _ _ date).
    - apply (keys_dict_set_present _ _ v), Ha.
    - rewrite dict_get_set_other by discriminate. exact Hd. }
  destruct (dict_get expense_data "tags") as [tags|] eqn:Et.
  - destruct Ht as (l & l' & _ & _ & ->). split.
    + rewrite (keys_dict_set_present _ _ tags); [exact K2|].
      rewrite !dict_get_set_other by discriminate. exact Et.
    + intros k N1 N2 N3. rewrite !dict_get_set_other by congruence. reflexivity.
  - subst processed. split; [exact K2|].
    intros k N1 N2 N3. rewrite !dict_get_set_other by congruence. reflexivity.
Qed.

(** X12.  The normalised tags of a list of tags are its tags in the same
    order and number, each one stripped and put in lower case; repeated
    tags stay repeated. *)
Theorem process_normalizes_tags (expense_data processed : RawDict)
    (l : list PyVal) :
  _process_expense_data fromisoformat expense_data = Ok processed ->
  dict_get expense_data "tags" = Some (PyList l) ->
  exists tags,
    l = map PyStr tags /\
    dict_get processed "tags"
    = Some (PyList (map (fun tag => PyStr (lower (strip tag))) tags)).
Proof.
  intros H Ht.
  destruct (process_returns _ _ H)
    as (v & amount & rounded & date & date' & p2 & _ & _ & _ & _ & _ & _ & Hp).
  rewrite Ht in Hp. destruct Hp as (l0 & l' & Hi & Hn & ->).
  injection Hi as <-.
  destruct (normalize_tags_map _ _ Hn) as (tags & -> & ->).
  exists tags. split; [reflexivity|]. apply dict_get_set_same.
Qed.

End NormalisationFacts.

Lemma process_keeps_other_entries_witness :
  let raw := record (PyStr "12.5") "Food" (PyStr "2024-01-20") in
  exists processed,
    _process_expense_data fromisoformat_date raw = Ok processed /\
    keys processed = ["amount"; "category"; "date"; "description"] /\
    dict_get processed "description" = Some (PyStr "lunch").
Proof.
  intros raw.
  destruct (_process_expense_data fromisoformat_date raw) as [processed|] eqn:H;
    [|vm_compute in H; discriminate].
  exists processed. split; [reflexivity|].
  destruct (process_keeps_other_entries fromisoformat_date raw processed H)
    as (Hk & Ho).
  split; [rewrite Hk; reflexivity|].
  rewrite Ho by discriminate. reflexivity.
Defined.

Lemma process_normalizes_tags_witness :
  let l := [PyStr " Lunch "; PyStr "WORK"; PyStr "work"] in
  let raw := dict_set (record (PyStr "12.5") "Food" (PyStr "2024-01-20"))
               "tags" (PyList l) in
  exists processed,
    _process_expense_data fromisoformat_date raw = Ok processed /\
    dict_get processed "tags"
    = Some (PyList [PyStr "lunch"; PyStr "work"; PyStr "work"]).
Proof.
  intros l raw.
  destruct (_process_expense_data fromisoformat_date raw) as [processed|] eqn:H;
    [|vm_compute in H; discriminate].
  exists processed. split; [reflexivity|].
  destruct (process_normalizes_tags fromisoformat_date raw processed l H eq_refl)
    as (tags & Hl & Hp).
  rewrite Hp.
  assert (tags = [" Lunch "; "WORK"; "work"]).
  { destruct tags as [|a [|b [|c [|]]]]; try discriminate.
    injection Hl as <- <- <-. reflexivity. }
  subst tags. reflexivity.
Defined.

(** ** Normalising twice *)

Lemma is_space_lower (c : ascii) : is_space (lower_char c) = is_space c.
Proof. destruct c as [[] [] [] [] [] [] [] []]; reflexivity. Qed.

Lemma lower_char_idem (c : ascii) : lower_char (lower_char c) = lower_char c.
Proof. destruct c as [[] [] [] [] [] [] [] []]; reflexivity. Qed.

Lemma lstrip_lower (l : list ascii) :
  lstrip (map lower_char l) = map lower_char (lstrip l).
Proof.
  induction l as [|c l IH]; simpl; [reflexivity|].
  rewrite is_space_lower. destruct (is_space c); [exact IH | reflexivity].
Qed.

Lemma lstrip_suffix (l : list ascii) : exists spaces, l = spaces ++ lstrip l.
Proof.
  induction l as [|c l (sp & IH)]; simpl.
  - exists []. reflexivity.
  - destruct (is_space c).
    + exists (c :: sp). simpl. f_equal. exact IH.
    + exists []. reflexivity.
Qed.

Lemma lstrip_fixed (l : list ascii) :
  match l with [] => True | c :: _ => is_space c = false end -> lstrip l = l.
Proof. destruct l as [|c l]; simpl; [reflexivity|]. intros ->. reflexivity. Qed.

Lemma lstrip_starts (l : list ascii) :
  match lstrip l with [] => True | c :: _ => is_space c = false end.
Proof.
  induction l as [|c l IH]; simpl; [exact I|].
  destruct (is_space c) eqn:E; [exact IH | exact E].
Qed.

Lemma lstrip_idem (l : list ascii) : lstrip (lstrip l) = lstrip l.
Proof. apply lstrip_fixed, lstrip_starts. Qed.

(** A stripped string has no whitespace at either end, so that stripping
    it again changes nothing. *)
Lemma strip_chars_idem (l : list ascii) :
  let stripped := rev (lstrip (rev (lstrip l))) in
  rev (lstrip (rev (lstrip stripped))) = stripped.
Proof.
  cbv zeta. set (l1 := lstrip l). set (r := lstrip (rev l1)).
  assert (H : lstrip (rev r) = rev r).
  { apply lstrip_fixed.
    destruct (lstrip_suffix (rev l1)) as (sp & Hsp). fold r in Hsp.
    assert (Hl1 : l1 = rev r ++ rev sp).
    { rewrite <- rev_app_distr, <- Hsp, rev_involutive. reflexivity. }
    pose proof (lstrip_starts l) as S. fold l1 in S. rewrite Hl1 in S.
    destruct (rev r) as [|c t]; [exact I | exact S]. }
  rewrite H, rev_involutive. unfold r. rewrite lstrip_idem. reflexivity.
Qed.

Lemma chars_of_chars (l : list ascii) : chars (string_of_list_ascii l) = l.
Proof. apply list_ascii_of_string_of_list_ascii. Qed.

(** A normalised tag is its own normal form. *)
Lemma normal_tag_idem (tag : string) :
  lower (strip (lower (strip tag))) = lower (strip tag).
Proof.
  unfold lower, strip. rewrite !chars_of_chars. f_equal.
  set (s := rev (lstrip (rev (lstrip (chars tag))))).
  rewrite lstrip_lower, <- map_rev, lstrip_lower, <- map_rev.
  pose proof (strip_chars_idem (chars tag)) as I. cbv zeta in I. fold s in I.
  rewrite I, map_map.
  apply map_ext. apply lower_char_idem.
Qed.

Lemma dict_set_same {V : Type} (d : dict V) (k : string) (v : V) :
  dict_get d k = Some v -> dict_set d k v = d.
Proof.
  induction d as [|[k0 v0] d IH]; simpl; [discriminate|].
  destruct (String.eqb k0 k) eqn:E.
  - apply String.eqb_eq in E. subst. intros [= ->]. reflexivity.
  - intros G. rewrite (IH G). reflexivity.
Qed.

Lemma quantize_idem (d r : Dec.Decimal) (e : Z) :
  Dec.quantize d e = Ok r -> Dec.quantize r e = Ok r.
Proof.
  unfold Dec.quantize.
  destruct (Dec.coeff d =? 0).
  - intros [= <-]. reflexivity.
  - destruct (Dec.prec <? _); [discriminate|]. cbv zeta.
    destruct (Dec.prec <? Dec.ndigits (Dec.coeff (Dec.rescale d e))) eqn:E2;
      [discriminate|].
    intros [= <-].
    set (c := Dec.coeff (Dec.rescale d e)) in *.
    assert (Hr : Dec.rescale d e = Dec.mkDec c e) by reflexivity.
    rewrite Hr. cbn [Dec.coeff Dec.expo].
    destruct (c =? 0) eqn:Ez.
    + apply Z.eqb_eq in Ez. rewrite Ez. reflexivity.
    + replace (e + Dec.ndigits c - 1 - e + 1) with (Dec.ndigits c) by lia.
      rewrite E2.
      assert (Hs : Dec.rescale (Dec.mkDec c e) e = Dec.mkDec c e).
      { unfold Dec.rescale, Dec.div_pow10_half_even. cbn [Dec.coeff Dec.expo].
        replace (e - e) with 0 by lia.
        change (0 <=? 0) with true. cbv iota. change (- 0) with 0.
        rewrite Z.pow_0_r, Z.mul_1_r, Z.mul_comm, Z.abs_sgn. reflexivity. }
      rewrite Hs. cbn [Dec.coeff]. rewrite E2. reflexivity.
Qed.

Lemma round_number_idem (n r : Dec.Number) :
  Dec.round_number n 2 = Ok r -> Dec.round_number r 2 = Ok r.
Proof.
  destruct n as [d|neg|[|]]; simpl; try discriminate.
  - destruct (Dec.round d 2) as [r'|] eqn:E; [|discriminate].
    cbn [bind]. intros [= <-]. simpl. unfold Dec.round in *.
    rewrite (quantize_idem _ _ _ E). reflexivity.
  - intros [= <-]. reflexivity.
Qed.

Lemma normalize_tags_idem (l l' : list PyVal) :
  normalize_tags l = Ok l' -> normalize_tags l' = Ok l'.
Proof.
  intros H. destruct (normalize_tags_map _ _ H) as (tags & -> & ->).
  clear H. induction tags as [|t tags IH]; simpl; [reflexivity|].
  rewrite IH. cbn [bind]. rewrite normal_tag_idem. reflexivity.
Qed.

(** X13.  A normalised record is its own normal form: normalising the
    record returned by [_process_expense_data] returns the same record. *)
Theorem process_twice (fromisoformat : string -> option datetime)
    (expense_data processed : RawDict) :
  _process_expense_data fromisoformat expense_data = Ok processed ->
  _process_expense_data fromisoformat processed = Ok processed.
Proof.
  intros H.
  destruct (process_returns fromisoformat _ _ H)
    as (v & amount & rounded & date & date' & p2 & Ha & Hd & Hr & Hdt & Hdate
        & Hp2 & Ht).
  assert (Ga : dict_get p2 "amount" = Some (PyDec rounded)).
  { subst p2. rewrite dict_get_set_other by discriminate.
    apply dict_get_set_same. }
  assert (Gd : dict_get p2 "date" = Some date')
    by (subst p2; apply dict_get_set_same).
  assert (Gt : dict_get p2 "tags" = dict_get expense_data "tags").
  { subst p2. rewrite !dict_get_set_other by discriminate. reflexivity. }
  assert (Hnot : match date' with PyStr _ => False | _ => True end).
  { destruct date; try (subst date'; exact I).
    destruct Hdate as (t & _ & ->). exact I. }
  assert (P : forall p tags_after,
            dict_get p "amount" = Some (PyDec rounded) ->
            dict_get p "date" = Some date' ->
            (match dict_get p "tags" with
             | Some tags =>
                 exists l', tags = PyList l' /\ normalize_tags l' = Ok l'
             | None => True
             end) ->
            tags_after = p ->
            _process_expense_data fromisoformat p = Ok tags_after).
  { intros p ? Pa Pd Pt ->. unfold _process_expense_data, getitem.
    rewrite Pa. cbn [bind Decimal_of_str].
    rewrite (round_number_idem _ _ Hr). cbn [bind].
    rewrite (dict_set_same _ _ _ Pa), Pd. cbn [bind].
    assert (E : match date' with
                | PyStr s =>
                    match fromisoformat s with
                    | Some t => Ok (dict_set p "date" (PyDatetime t))
                    | None => Raise ValueError
                    end
                | _ => Ok p
                end = Ok p)
      by (destruct date'; try reflexivity; contradiction).
    rewrite E. cbn [bind].
    destruct (dict_get p "tags") as [tags|] eqn:Et; [|reflexivity].
    destruct Pt as (l' & -> & Hn). cbn [iterate bind]. rewrite Hn. cbn [bind].
    rewrite (dict_set_same _ _ _ Et). reflexivity. }
  destruct (dict_get expense_data "tags") as [tags|] eqn:Et.
  - destruct Ht as (l & l' & Hi & Hn & ->).
    apply P; try reflexivity.
    + rewrite dict_get_set_other by discriminate. exact Ga.
    + rewrite dict_get_set_other by discriminate. exact Gd.
    + rewrite dict_get_set_same. exists l'. split; [reflexivity|].
      apply (normalize_tags_idem _ _ Hn).
  - subst processed. apply P; try assumption; [|reflexivity].
    rewrite Gt. exact I.
Qed.

Lemma process_twice_witness :
  let raw := dict_set (record (PyStr "12.345") "Food" (PyStr "2024-01-20"))
               "tags" (PyList [PyStr " Lunch "; PyStr "WORK"]) in
  exists processed,
    _process_expense_data fromisoformat_date raw = Ok processed /\
    _process_expense_data fromisoformat_date processed = Ok processed.
Proof.
  intros raw.
  destruct (_process_expense_data fromisoformat_date raw) as [processed|] eqn:H;
    [|vm_compute in H; discriminate].
  exists processed. split; [reflexivity|].
  apply (process_twice fromisoformat_date raw processed H).
Defined.

(** ** More on the service *)

Section ServiceFacts.

Context {R : Type} {repo : ExpenseRepository R}.
Variable fromisoformat : string -> option datetime.

Lemma check_budget_limits_frame (user_id : string)
    (expense_data : RawDict) (w : World R) :
  let w' := snd (_check_budget_limits user_id expense_data w) in
  repository w' = repository w /\
  now w' = now w /\
  logged w' = logged w /\
  exists new, calls w' = new ++ calls w /\
              (List.length new <= 2)%nat /\
              existsb is_write new = false.
Proof.
  assert (Two : forall c1 c2,
            is_write c1 = false -> is_write c2 = false ->
            exists new, c1 :: c2 :: calls w = new ++ calls w /\
                        (List.length new <= 2)%nat /\
                        existsb is_write new = false).
  { intros c1 c2 H1 H2. exists [c1; c2]. simpl. rewrite H1, H2. auto. }
  assert (One : forall c1,
            is_write c1 = false ->
            exists new, c1 :: calls w = new ++ calls w /\
                        (List.length new <= 2)%nat /\
                        existsb is_write new = false).
  { intros c1 H1. exists [c1]. simpl. rewrite H1. auto. }
  destruct (getitem expense_data "category") as [key|e] eqn:Hk.
  - rewrite (check_budget_limits_steps _ _ _ _ Hk). cbv zeta.
    destruct (get_category (repository w) user_id key) as [[c|]|e].
    + destruct (has_budget_limit c) as [limit|].
      * destruct (get_category_total _ _ _ _) as [t|e].
        -- destruct (v <- getitem expense_data "amount" ;; _) as [[|]|e];
             cbn; repeat (split; [reflexivity|]);
             (apply Two; reflexivity).
        -- cbn; repeat (split; [reflexivity|]).
           apply Two; reflexivity.
      * cbn. repeat (split; [reflexivity|]). apply One; reflexivity.
    + cbn. repeat (split; [reflexivity|]). apply One; reflexivity.
    + cbn. repeat (split; [reflexivity|]). apply One; reflexivity.
  - unfold _check_budget_limits, mbind, lift. rewrite Hk. cbn.
    repeat (split; [reflexivity|]). exists []. auto.
Qed.

(** X14.  The budget check only reads: it leaves the store, the clock and
    the log as they are, and adds at most two calls on the repository, none
    of them a write. *)
Theorem check_budget_limits_only_reads (user_id : string)
    (expense_data : RawDict) (w : World R) :
  let w' := snd (_check_budget_limits user_id expense_data w) in
  repository w' = repository w /\
  now w' = now w /\
  logged w' = logged w /\
  exists new, calls w' = new ++ calls w /\
              (List.length new <= 2)%nat /\
              existsb is_write new = false.
Proof. exact (check_budget_limits_frame user_id expense_data w). Qed.

(** [create_expense], step by step. *)
Lemma create_expense_steps (user_id : string) (expense_data : RawDict)
    (w : World R) :
  create_expense fromisoformat user_id expense_data w =
  match validate_expense_data fromisoformat expense_data with
  | Raise e => (Raise e, with_log (ErrorCreating e) w)
  | Ok _ =>
      let '(checked, w1) := _check_budget_limits user_id expense_data w in
      match checked with
      | Raise e => (Raise e, with_log (ErrorCreating e) w1)
      | Ok _ =>
          match _process_expense_data fromisoformat expense_data with
          | Raise e => (Raise e, with_log (ErrorCreating e) w1)
          | Ok processed =>
              let '(r, s) := create (repository w1) user_id processed in
              (r, with_log (creation_record user_id r)
                    (with_repository s
                       (with_call (CallCreate user_id processed) w1)))
          end
      end
  end.
Proof.
  unfold create_expense, try_catch.
  unfold mbind at 1. unfold lift at 1.
  destruct (validate_expense_data fromisoformat expense_data) as [[]|e];
    [|reflexivity].
  unfold mbind at 1.
  destruct (_check_budget_limits user_id expense_data w) as [[[]|e] w1];
    [|reflexivity].
  unfold mbind at 1. unfold lift at 1.
  destruct (_process_expense_data fromisoformat expense_data) as [p|e];
    [|reflexivity].
  unfold mbind at 1. unfold repository_create at 1.
  unfold mbind at 1. unfold record_call at 1.
  cbn [repository now calls logged].
  destruct (create (repository w1) user_id p) as [[x|e] s]; reflexivity.
Qed.

(** X15.  Every call of [create_expense] gives the logger exactly one
    record: the identifier of the expense it returns, or the exception it
    raises, which is the one raised by the step that failed. *)
Theorem create_expense_logs_outcome (user_id : string)
    (expense_data : RawDict) (w : World R) :
  let out := create_expense fromisoformat user_id expense_data w in
  logged (snd out) = creation_record user_id (fst out) :: logged w.
Proof.
  cbv zeta. rewrite create_expense_steps.
  destruct (validate_expense_data fromisoformat expense_data) as [[]|e];
    [|reflexivity].
  destruct (check_budget_limits_frame user_id expense_data w)
    as (_ & _ & Hl & _).
  destruct (_check_budget_limits user_id expense_data w) as [[[]|e] w1];
    cbn [snd] in Hl; [|cbn; rewrite Hl; reflexivity].
  destruct (_process_expense_data fromisoformat expense_data) as [p|e];
    [|cbn; rewrite Hl; reflexivity].
  destruct (create (repository w1) user_id p) as [r s].
  cbn. rewrite Hl. reflexivity.
Qed.

(** X16.  [create_expense] writes at most once.  Either it fails before
    any write, and then the store is as before and [create] was not called;
    or the validation, the budget check and the normalisation all passed,
    [create] was called once, with the normalised record, on the store as it
    was, and its result and its store are those of [create_expense]. *)
Theorem create_expense_writes_once (user_id : string)
    (expense_data : RawDict) (w : World R) :
  let out := create_expense fromisoformat user_id expense_data w in
  ((exists e, fst out = Raise e) /\
   repository (snd out) = repository w /\
   filter is_write (calls (snd out)) = filter is_write (calls w))
  \/
  (exists processed,
     validate_expense_data fromisoformat expense_data = Ok tt /\
     fst (_check_budget_limits user_id expense_data w) = Ok tt /\
     _process_expense_data fromisoformat expense_data = Ok processed /\
     filter is_write (calls (snd out))
     = CallCreate user_id processed :: filter is_write (calls w) /\
     create (repository w) user_id processed
     = (fst out, repository (snd out))).
Proof.
  cbv zeta. rewrite create_expense_steps.
  destruct (validate_expense_data fromisoformat expense_data) as [[]|e];
    [|left; cbn; eauto].
  destruct (check_budget_limits_frame user_id expense_data w)
    as (Hr & _ & _ & new & Hc & _ & Hw).
  assert (Hf : filter is_write
                 (calls (snd (_check_budget_limits user_id expense_data w)))
               = filter is_write (calls w)).
  { rewrite Hc, filter_app.
    replace (filter is_write new) with (@nil Call); [reflexivity|].
    clear Hc. induction new as [|c new IH]; [reflexivity|].
    simpl in Hw. apply orb_false_iff in Hw as (H1 & H2).
    simpl. rewrite H1. auto. }
  destruct (_check_budget_limits user_id expense_data w) as [[[]|e] w1];
    cbn [snd fst] in *; [|left; cbn; eauto].
  destruct (_process_expense_data fromisoformat expense_data) as [p|e];
    [|left; cbn; eauto].
  right. exists p. rewrite Hr.
  destruct (create (repository w) user_id p) as [r s].
  cbn. rewrite Hf. auto.
Qed.



(** X19.  Outside the calendar, for a month that is not one of 1 to 12, a
    year that is not one of 1 to 9999, or December of the year 9999, whose
    next month has no date, [calculate_monthly_summary] raises, logs the
    exception, and does not ask the repository.  The exception is
    ValueError when the year and the month are in the range of a C [int],
    and OverflowError when one of them is not. *)
Theorem monthly_summary_outside_calendar (user_id : string) (m y : Z)
    (w : World R) :
  m < 1 \/ 12 < m \/ y < 1 \/ 9999 < y \/ (y = 9999 /\ m = 12) ->
  let e := if c_int y && c_int m then ValueError else OverflowError in
  calculate_monthly_summary user_id m y w
  = (Raise e, with_log (ErrorCalculating e) w).
Proof.
  intros H. unfold calculate_monthly_summary, try_catch.
  unfold mbind at 1. unfold lift at 1. unfold first_of_month at 1.
  destruct (c_int y && c_int m) eqn:C; cbn [negb]; [|reflexivity].
  destruct ((1 <=? y) && (y <=? 9999) && (1 <=? m) && (m <=? 12)) eqn:E.
  - apply andb_true_iff in E as (E & E4). apply andb_true_iff in E as (E & E3).
    apply andb_true_iff in E as (E1 & E2).
    apply Z.leb_le in E1, E2, E3, E4.
    assert (y = 9999 /\ m = 12) as (-> & ->) by lia.
    reflexivity.
  - reflexivity.
Qed.

End ServiceFacts.


Lemma monthly_summary_outside_calendar_witness :
  let w := world_at (at_noon 2025 1 5) (food_store None []) in
  (13 < 1 \/ 12 < 13 \/ 2024 < 1 \/ 9999 < 2024 \/ (2024 = 9999 /\ 13 = 12)) /\
  calculate_monthly_summary "alice" 13 2024 w
  = (Raise ValueError, with_log (ErrorCalculating ValueError) w) /\
  fst (calculate_monthly_summary "alice" 12 9999 w) = Raise ValueError /\
  fst (calculate_monthly_summary "alice" 1 (2 ^ 31) w) = Raise OverflowError.
Proof.
  intros w. split; [lia|]. split; [|split].
  - apply (monthly_summary_outside_calendar "alice" 13 2024 w). lia.
  - rewrite (monthly_summary_outside_calendar "alice" 12 9999 w) by lia.
    reflexivity.
  - rewrite (monthly_summary_outside_calendar "alice" 1 (2 ^ 31) w)
      by (right; right; right; left; reflexivity).
    reflexivity.
Defined.

(** ** The record handed to the repository *)

Lemma div_pow10_half_even_nonneg (n k : Z) :
  0 <= n -> 0 <= Dec.div_pow10_half_even n k.
Proof.
  intros Hn. destruct (Z_le_gt_dec k 0) as [Hk | Hk].
  - unfold Dec.div_pow10_half_even.
    destruct (k <=? 0) eqn:E; [|apply Z.leb_gt in E; lia].
    apply Z.mul_nonneg_nonneg; [exact Hn|]. apply Z.pow_nonneg. lia.
  - apply (div_pow10_half_even_nearest n k); lia.
Qed.

Lemma quantize_result (d r : Dec.Decimal) (e : Z) :
  Dec.quantize d e = Ok r ->
  Dec.expo r = e /\ (0 < Dec.coeff d -> 0 <= Dec.coeff r).
Proof.
  unfold Dec.quantize.
  destruct (Dec.coeff d =? 0).
  - intros [= <-]. simpl. split; [reflexivity | lia].
  - destruct (Dec.prec <? _); [discriminate|]. cbv zeta.
    destruct (Dec.prec <? _); [discriminate|].
    intros [= <-]. unfold Dec.rescale. cbn [Dec.coeff Dec.expo].
    split; [reflexivity|]. intros Hp.
    apply Z.mul_nonneg_nonneg.
    + rewrite Z.sgn_pos by exact Hp. lia.
    + apply div_pow10_half_even_nonneg. lia.
Qed.

(** X20.  The normal form of a record that passed the validation, which is
    what [create_expense] hands to the repository, has an amount that is a
    finite Decimal with exactly two fractional digits and is not negative,
    and a date that is no longer a string.  The amount can be 0.00: an
    amount above zero and below 0.005 passes the validation and is rounded
    to it. *)
Theorem validated_record_normal_form
    (fromisoformat : string -> option datetime)
    (expense_data processed : RawDict) :
  validate_expense_data fromisoformat expense_data = Ok tt ->
  _process_expense_data fromisoformat expense_data = Ok processed ->
  (exists r, dict_get processed "amount" = Some (PyDec (Dec.Finite r)) /\
             Dec.expo r = -2 /\ 0 <= Dec.coeff r) /\
  (forall s, dict_get processed "date" <> Some (PyStr s)).
Proof.
  intros V H.
  apply validate_accepts_iff in V
    as (a & c & dt & ds & Ha & _ & _ & _ & Pa & _ & _ & _).
  destruct (process_returns fromisoformat _ _ H)
    as (v & amount & rounded & date & date' & p2 & Ha' & Hd & Hr & Hdt & Hdate
        & Hp2 & Ht).
  rewrite Ha in Ha'. injection Ha' as <-.
  assert (Ga : dict_get processed "amount" = Some (PyDec rounded)
               /\ dict_get processed "date" = Some date').
  { assert (G2 : dict_get p2 "amount" = Some (PyDec rounded)
                 /\ dict_get p2 "date" = Some date').
    { subst p2. rewrite dict_get_set_other by discriminate.
      rewrite !dict_get_set_same. auto. }
    destruct (dict_get expense_data "tags").
    - destruct Ht as (l & l' & _ & _ & ->).
      rewrite !dict_get_set_other by discriminate. exact G2.
    - subst processed. exact G2. }
  destruct Ga as (Ga & Gd). split.
  - destruct Pa as [(d & Hd' & Hpos) | Hinf].
    + rewrite Hd in Hd'. injection Hd' as ->.
      simpl in Hr. destruct (Dec.round d 2) as [r|] eqn:E; [|discriminate].
      cbn [bind] in Hr. injection Hr as <-.
      destruct (quantize_result _ _ _ E) as (He & Hn).
      exists r. auto.
    + rewrite Hd in Hinf. injection Hinf as ->. discriminate.
  - intros s. rewrite Gd. intros [= E].
    destruct date; try (subst date'; discriminate).
    destruct Hdate as (t & _ & ->). discriminate.
Qed.

Lemma validated_record_normal_form_witness :
  let raw := record (PyStr "0.001") "Food" (PyStr "2024-01-20") in
  validate_expense_data fromisoformat_date raw = Ok tt /\
  exists processed,
    _process_expense_data fromisoformat_date raw = Ok processed /\
    dict_get processed "amount" = Some (PyDec (Dec.Finite (cents 0))) /\
    (forall s, dict_get processed "date" <> Some (PyStr s)).
Proof.
  intros raw.
  assert (V : validate_expense_data fromisoformat_date raw = Ok tt)
    by (vm_compute; reflexivity).
  split; [exact V|].
  destruct (_process_expense_data fromisoformat_date raw) as [processed|] eqn:H;
    [|vm_compute in H; discriminate].
  exists processed. split; [reflexivity|].
  destruct (validated_record_normal_form fromisoformat_date raw processed V H)
    as (_ & Hdate).
  split; [|exact Hdate].
  vm_compute in H. injection H as <-. reflexivity.
Defined.

(** ** The keys of the summary *)

Lemma keys_accumulate (d : dict Dec.Decimal) (k : string) (a : Dec.Decimal) :
  keys (accumulate d k a)
  = if existsb (String.eqb k) (keys d) then keys d else keys d ++ [k].
Proof.
  unfold accumulate. rewrite <- contains_keys. unfold contains.
  destruct (dict_get d k) as [v|] eqn:G.
  - rewrite G. apply (keys_dict_set_present _ _ v), G.
  - rewrite dict_get_set_same.
    rewrite (keys_dict_set_present _ _ Dec.zero_00) by apply dict_get_set_same.
    rewrite keys_dict_set. unfold contains. rewrite G. reflexivity.
Qed.

Lemma keys_accumulate_all (pairs : list (string * Dec.Decimal)) : forall seen d,
  keys d = distinct seen ->
  keys (accumulate_all pairs d) = distinct (seen ++ map fst pairs).
Proof.
  induction pairs as [|[k a] pairs IH]; intros seen d Hd.
  - simpl. rewrite app_nil_r. exact Hd.
  - change (accumulate_all ((k, a) :: pairs) d)
      with (accumulate_all pairs (accumulate d k a)).
    replace (seen ++ map fst ((k, a) :: pairs))
      with ((seen ++ [k]) ++ map fst pairs)
      by (rewrite <- app_assoc; reflexivity).
    apply IH. rewrite keys_accumulate, distinct_snoc, Hd. reflexivity.
Qed.

Lemma tag_pairs_keys (expenses : list Expense.t) :
  map fst (tag_pairs expenses) = flat_map Expense.tags expenses.
Proof.
  unfold tag_pairs. induction expenses as [|e rest IH]; [reflexivity|].
  cbn [flat_map]. rewrite map_app, IH, map_map. cbn [fst].
  rewrite map_id. reflexivity.
Qed.

(** X21.  Each dictionary of the summary has one entry for each distinct
    key, in the order in which the keys first come up in the list: the
    categories of the expenses, their tags, and their days. *)
Theorem summary_keys (expenses : list Expense.t) :
  let s := _generate_summary expenses in
  keys (categories s) = distinct (map Expense.category expenses) /\
  keys (tags s) = distinct (flat_map Expense.tags expenses) /\
  keys (daily_totals s)
  = distinct (map (fun e => strftime_Ymd (Expense.date e)) expenses) /\
  NoDup (keys (categories s)) /\
  NoDup (keys (tags s)) /\
  NoDup (keys (daily_totals s)).
Proof.
  unfold _generate_summary.
  destruct (summary_dictionaries expenses
              (mkSummary Dec.zero_00 [] [] [] (Z.of_nat (List.length expenses))))
    as (_ & Hc & Hg & Hd).
  cbv zeta in *. cbn [categories tags daily_totals] in *.
  rewrite Hc, Hg, Hd.
  rewrite !(keys_accumulate_all _ [] []) by reflexivity.
  cbn [app]. unfold category_pairs, day_pairs. rewrite !map_map. cbn [fst].
  rewrite tag_pairs_keys.
  repeat split; try reflexivity; apply distinct_nodup.
Qed.

(** ** Sums within the precision *)

Lemma hundredths_cents (z : Z) : hundredths (cents z) = z.
Proof. unfold hundredths, cents. simpl. lia. Qed.

(** A sum of hundredths that fits 28 digits is exact. *)
Lemma add_hundredths (x y : Dec.Decimal) :
  Dec.expo x = -2 -> -2 <= Dec.expo y ->
  Z.abs (Dec.coeff x + hundredths y) < 10 ^ 28 ->
  Dec.add x y = cents (Dec.coeff x + hundredths y).
Proof.
  intros Hx Hy Hb.
  assert (E : Dec.add_exact x y = cents (Dec.coeff x + hundredths y)).
  { unfold Dec.add_exact, Dec.align, cents, hundredths. rewrite Hx.
    rewrite Z.min_l by lia.
    replace (-2 - -2) with 0 by lia. rewrite Z.pow_0_r, Z.mul_1_r.
    replace (Dec.expo y - -2) with (Dec.expo y + 2) by lia. reflexivity. }
  rewrite add_fits; rewrite E; [reflexivity | exact Hb].
Qed.

Lemma magnitudes_nonneg (l : list Dec.Decimal) : 0 <= magnitudes l.
Proof. induction l as [|d l IH]; simpl; lia. Qed.

(** The amounts in hundredths, added. *)
Lemma sum_from_hundredths (l : list Dec.Decimal) : forall start,
  Dec.expo start = -2 ->
  Forall (fun d => -2 <= Dec.expo d) l ->
  Z.abs (Dec.coeff start) + magnitudes l < 10 ^ 28 ->
  sum_from start l
  = cents (Dec.coeff start + hundredths_sum l).
Proof.
  unfold sum_from, hundredths_sum.
  induction l as [|d l IH]; intros start Hs Hl Hb; simpl in *.
  - destruct start as [c e]. simpl in *. subst e. unfold cents. f_equal. lia.
  - inversion Hl as [|? ? Hd Hl']; subst.
    pose proof (magnitudes_nonneg l) as Hm.
    rewrite (add_hundredths start d Hs Hd) by lia.
    rewrite IH; [f_equal; simpl; lia | reflexivity | exact Hl' | simpl; lia].
Qed.

Lemma hundredths_at (v : Dec.Decimal) : Dec.expo v = -2 -> hundredths v = Dec.coeff v.
Proof. intros E. unfold hundredths. rewrite E. simpl. lia. Qed.

(** One more amount in a dictionary of totals. *)
Lemma accumulate_exact (d : dict Dec.Decimal) (k : string) (a : Dec.Decimal) :
  in_hundredths d -> -2 <= Dec.expo a ->
  magnitudes (values d) + Z.abs (hundredths a) < 10 ^ 28 ->
  in_hundredths (accumulate d k a) /\
  hundredths_sum (values (accumulate d k a))
  = hundredths_sum (values d) + hundredths a /\
  magnitudes (values (accumulate d k a))
  <= magnitudes (values d) + Z.abs (hundredths a).
Proof.
  unfold in_hundredths.
  induction d as [|[k0 v0] d IH]; intros Hd Ha Hb.
  - unfold accumulate, contains. cbn [dict_get dict_set].
    repeat (rewrite String.eqb_refl; cbn [dict_get dict_set]).
    simpl in Hb.
    rewrite (add_hundredths Dec.zero_00 a) by (simpl; try lia; reflexivity).
    cbn [values map snd hundredths_sum magnitudes fold_right Dec.coeff Dec.zero_00].
    rewrite hundredths_cents. repeat split; try lia.
    repeat constructor.
  - cbn [values map snd] in Hd. inversion Hd as [|? ? Hv0 Hd']; subst.
    cbn [values map snd magnitudes fold_right] in Hb.
    fold (values d) in Hb, Hd'. fold (magnitudes (values d)) in Hb.
    pose proof (magnitudes_nonneg (values d)) as Hm.
    rewrite (hundredths_at v0 Hv0) in Hb.
    destruct (String.eqb k0 k) eqn:E.
    + apply String.eqb_eq in E. subst k0. rewrite accumulate_head.
      rewrite (add_hundredths v0 a Hv0 Ha) by lia.
      cbn [values map snd hundredths_sum magnitudes fold_right].
      fold (values d). fold (hundredths_sum (values d)). fold (magnitudes (values d)).
      rewrite hundredths_cents, (hundredths_at v0 Hv0).
      repeat split; try lia.
      constructor; [reflexivity | exact Hd'].
    + rewrite accumulate_cons by exact E.
      destruct (IH Hd' Ha ltac:(lia)) as (I1 & I2 & I3).
      cbn [values map snd hundredths_sum magnitudes fold_right].
      fold (values (accumulate d k a)). fold (values d).
      fold (hundredths_sum (values (accumulate d k a))).
      fold (hundredths_sum (values d)).
      fold (magnitudes (values (accumulate d k a))).
      fold (magnitudes (values d)).
      repeat split; try lia.
      constructor; [exact Hv0 | exact I1].
Qed.

Lemma accumulate_all_exact (pairs : list (string * Dec.Decimal)) : forall d,
  in_hundredths d ->
  Forall (fun a => -2 <= Dec.expo a) (map snd pairs) ->
  magnitudes (values d) + magnitudes (map snd pairs) < 10 ^ 28 ->
  in_hundredths (accumulate_all pairs d) /\
  hundredths_sum (values (accumulate_all pairs d))
  = hundredths_sum (values d) + hundredths_sum (map snd pairs).
Proof.
  induction pairs as [|[k a] pairs IH]; intros d Hd Hl Hb.
  - simpl. split; [exact Hd | lia].
  - change (accumulate_all ((k, a) :: pairs) d)
      with (accumulate_all pairs (accumulate d k a)).
    cbn [map snd magnitudes hundredths_sum fold_right] in *.
    fold (magnitudes (map snd pairs)) in Hb.
    fold (hundredths_sum (map snd pairs)).
    inversion Hl as [|? ? Ha Hl']; subst.
    pose proof (magnitudes_nonneg (map snd pairs)) as Hm.
    destruct (accumulate_exact d k a Hd Ha ltac:(lia)) as (I1 & I2 & I3).
    destruct (IH (accumulate d k a) I1 Hl' ltac:(lia)) as (J1 & J2).
    split; [exact J1 | lia].
Qed.

Lemma value_hundredths (d : Dec.Decimal) :
  -2 <= Dec.expo d ->
  (Dec.value d == inject_Z (hundredths d) * (10 # 1) ^ (-2))%Q.
Proof.
  intros H. rewrite (value_aligned d (-2) H). unfold hundredths.
  replace (Dec.expo d - -2) with (Dec.expo d + 2) by lia. reflexivity.
Qed.

Lemma Qsum_values (l : list Dec.Decimal) :
  Forall (fun d => -2 <= Dec.expo d) l ->
  (Qsum (map Dec.value l) == inject_Z (hundredths_sum l) * (10 # 1) ^ (-2))%Q.
Proof.
  induction 1 as [|d l Hd Hl IH].
  - simpl. ring.
  - cbn [map Qsum fold_right hundredths_sum].
    fold (Qsum (map Dec.value l)). fold (hundredths_sum l).
    rewrite IH, (value_hundredths d Hd), inject_Z_plus. ring.
Qed.

Lemma Qvalues_in_hundredths (d : dict Dec.Decimal) :
  in_hundredths d ->
  (Qsum (Qvalues d) == inject_Z (hundredths_sum (values d)) * (10 # 1) ^ (-2))%Q.
Proof.
  intros H. unfold Qvalues. apply Qsum_values.
  unfold in_hundredths in H. eapply Forall_impl; [|exact H].
  simpl. intros v E. lia.
Qed.

Lemma hundredths_sum_bound (l : list Dec.Decimal) :
  Z.abs (hundredths_sum l) <= magnitudes l.
Proof. induction l as [|d l IH]; simpl; lia. Qed.

(** Within the precision a total is the sum of the amounts. *)
Lemma sum_from_exact (l : list Dec.Decimal) :
  adds_exactly l -> sum_from Dec.zero_00 l = cents (hundredths_sum l).
Proof.
  intros (Hl & Hb).
  rewrite (sum_from_hundredths l Dec.zero_00); [reflexivity | reflexivity | exact Hl |].
  simpl. exact Hb.
Qed.

Lemma value_sum_from (l : list Dec.Decimal) :
  adds_exactly l ->
  (Dec.value (sum_from Dec.zero_00 l) == Qsum (map Dec.value l))%Q.
Proof.
  intros H. rewrite (sum_from_exact l H), (Qsum_values l (proj1 H)).
  reflexivity.
Qed.

Lemma Qsum_accumulate_all (pairs : list (string * Dec.Decimal)) :
  adds_exactly (map snd pairs) ->
  (Qsum (Qvalues (accumulate_all pairs []))
   == Qsum (map Dec.value (map snd pairs)))%Q.
Proof.
  intros (Hl & Hb).
  destruct (accumulate_all_exact pairs [] ltac:(constructor) Hl ltac:(simpl; lia))
    as (I & E).
  rewrite (Qvalues_in_hundredths _ I), E, (Qsum_values _ Hl). simpl.
  reflexivity.
Qed.

(** ** The order of the terms *)

Lemma hundredths_sum_permutation (l l' : list Dec.Decimal) :
  Permutation l l' -> hundredths_sum l = hundredths_sum l'.
Proof. induction 1; simpl in *; lia. Qed.

Lemma magnitudes_permutation (l l' : list Dec.Decimal) :
  Permutation l l' -> magnitudes l = magnitudes l'.
Proof. induction 1; simpl in *; lia. Qed.

Lemma adds_exactly_permutation (l l' : list Dec.Decimal) :
  Permutation l l' -> adds_exactly l -> adds_exactly l'.
Proof.
  intros P (Hl & Hb). split.
  - eapply Permutation_Forall; eassumption.
  - rewrite <- (magnitudes_permutation _ _ P). exact Hb.
Qed.

Lemma adds_exactly_filter (p : string * Dec.Decimal -> bool)
    (pairs : list (string * Dec.Decimal)) :
  adds_exactly (map snd pairs) -> adds_exactly (map snd (filter p pairs)).
Proof.
  unfold adds_exactly. induction pairs as [|q pairs IH]; intros (Hl & Hb).
  - simpl. auto.
  - cbn [map magnitudes fold_right] in Hl, Hb.
    fold (magnitudes (map snd pairs)) in Hb.
    inversion Hl as [|? ? Hq Hl']; subst.
    pose proof (magnitudes_nonneg (map snd pairs)) as Hm.
    assert (Hb' : magnitudes (map snd pairs) < 10 ^ 28).
    { lia. }
    destruct (IH (conj Hl' Hb')) as (I1 & I2).
    cbn [filter]. destruct (p q).
    + cbn [map magnitudes fold_right]. fold (magnitudes (map snd (filter p pairs))).
      split; [constructor; assumption|].
      assert (magnitudes (map snd (filter p pairs)) <= magnitudes (map snd pairs)).
      { clear. induction pairs as [|r pairs IH]; simpl; [lia|].
        destruct (p r); simpl; lia. }
      lia.
    + split; [exact I1 | exact I2].
Qed.

(** Within the precision a total does not depend on the order of its terms. *)
Lemma sum_from_permutation (l l' : list Dec.Decimal) :
  adds_exactly l -> Permutation l l' ->
  sum_from Dec.zero_00 l = sum_from Dec.zero_00 l'.
Proof.
  intros H P.
  rewrite (sum_from_exact l H), (sum_from_exact l' (adds_exactly_permutation _ _ P H)).
  rewrite (hundredths_sum_permutation _ _ P). reflexivity.
Qed.

Lemma keyed_total_permutation (pairs pairs' : list (string * Dec.Decimal)) (k : string) :
  adds_exactly (map snd pairs) -> Permutation pairs pairs' ->
  keyed_total pairs k = keyed_total pairs' k.
Proof.
  intros H P. unfold keyed_total.
  pose proof (filter_permutation (fun p => String.eqb (fst p) k) _ _ P) as F.
  pose proof (adds_exactly_filter (fun p => String.eqb (fst p) k) pairs H) as HF.
  fold (with_key k pairs) in F, HF. fold (with_key k pairs') in F.
  destruct (with_key k pairs) as [|q l] eqn:E, (with_key k pairs') as [|q' l'] eqn:E'.
  - reflexivity.
  - apply Permutation_nil in F. discriminate.
  - apply Permutation_sym, Permutation_nil in F. discriminate.
  - f_equal. apply sum_from_permutation; [exact HF|].
    apply Permutation_map. exact F.
Qed.

(** ** The totals of the summary *)

(** C6, within the precision of the context.  For a list of expenses whose
    amounts have at most two fractional digits and add up, in magnitude, to
    less than 10^26, the total of the summary is the sum of the amounts,
    the sum of the values of [categories] and the sum of the values of
    [daily_totals].  For every list the count is the length of the list,
    and the summary of the empty list has a total of zero, a count of zero
    and empty mappings. *)
Theorem summary_totals_agree (expenses : list Expense.t) :
  let s := _generate_summary expenses in
  (adds_exactly (map Expense.amount expenses) ->
   (Dec.value (total s) == amounts_sum expenses)%Q /\
   (Dec.value (total s) == Qsum (Qvalues (categories s)))%Q /\
   (Dec.value (total s) == Qsum (Qvalues (daily_totals s)))%Q) /\
  count s = Z.of_nat (List.length expenses) /\
  _generate_summary [] = mkSummary Dec.zero_00 [] [] [] 0.
Proof.
  unfold _generate_summary.
  destruct (summary_dictionaries expenses
              (mkSummary Dec.zero_00 [] [] [] (Z.of_nat (List.length expenses))))
    as (Ht & Hc & _ & Hd).
  pose proof (summary_count expenses
                (mkSummary Dec.zero_00 [] [] [] (Z.of_nat (List.length expenses))))
    as Hn.
  cbv zeta in *. cbn [total categories daily_totals count] in *.
  split; [|split; [exact Hn | reflexivity]].
  intros H. rewrite Ht, Hc, Hd.
  assert (Ec : map snd (category_pairs expenses) = map Expense.amount expenses)
    by (unfold category_pairs; rewrite map_map; reflexivity).
  assert (Ed : map snd (day_pairs expenses) = map Expense.amount expenses)
    by (unfold day_pairs; rewrite map_map; reflexivity).
  rewrite !Qsum_accumulate_all by (rewrite ?Ec, ?Ed; exact H).
  rewrite Ec, Ed, (value_sum_from _ H).
  unfold amounts_sum. rewrite map_map. repeat split; reflexivity.
Qed.

Lemma summary_totals_agree_witness :
  let a := Expense.mk 1 "alice" (cents 1050) "Food" (at_noon 2024 1 10) "lunch" ["work"] in
  let b := Expense.mk 2 "alice" (cents 2000) "Travel" (at_noon 2024 1 10) "bus" [] in
  let c := Expense.mk 3 "alice" (cents 575) "Food" (at_noon 2024 1 11) "snack" [] in
  let s := _generate_summary [a; b; c] in
  adds_exactly (map Expense.amount [a; b; c]) /\
  (Dec.value (total s) == 3625 # 100)%Q /\
  (Qsum (Qvalues (categories s)) == 3625 # 100)%Q /\
  (Qsum (Qvalues (daily_totals s)) == 3625 # 100)%Q /\
  count s = 3.
Proof.
  intros a b c s.
  assert (H : adds_exactly (map Expense.amount [a; b; c])).
  { split; [repeat constructor; simpl; lia | vm_compute; reflexivity]. }
  split; [exact H|].
  destruct (summary_totals_agree [a; b; c]) as (Hs & Hn & _).
  destruct (Hs H) as (Ht & Hc & Hd). fold s in Ht, Hc, Hd, Hn.
  split; [rewrite Ht; vm_compute; reflexivity|].
  split; [rewrite <- Hc, Ht; vm_compute; reflexivity|].
  split; [rewrite <- Hd, Ht; vm_compute; reflexivity|].
  exact Hn.
Defined.

(** C6, as stated, fails beyond the precision of the context.  With an
    expense of 99999999999999999999999999.99 in one category and three of
    0.04 in another, the running total is rounded to 28 digits at each of
    the last three steps and stays at 100000000000000000000000000.0, while
    the two category totals, 99999999999999999999999999.99 and 0.12, are
    exact and add up to 100000000000000000000000000.11. *)
Lemma summary_totals_beyond_precision :
  let a := Expense.mk 1 "alice" (cents 9999999999999999999999999999) "A"
             (at_noon 2024 1 10) "a" [] in
  let b := Expense.mk 2 "alice" (cents 4) "B" (at_noon 2024 1 11) "b" [] in
  let s := _generate_summary [a; b; b; b] in
  total s = Dec.mkDec 1000000000000000000000000000 (-1) /\
  categories s = [("A", cents 9999999999999999999999999999); ("B", cents 12)] /\
  ~ (Dec.value (total s) == amounts_sum [a; b; b; b])%Q /\
  ~ (Dec.value (total s) == Qsum (Qvalues (categories s)))%Q.
Proof.
  repeat split; try (vm_compute; reflexivity);
    intros H; vm_compute in H; discriminate.
Qed.

(** X2.  An entry of [tags] is the total of the amounts of the expenses
    carrying the tag, an expense counting once for each time the tag is in
    its list.  When the amounts so counted have at most two fractional
    digits and add up, in magnitude, to less than 10^26, the entries of
    [tags] add up to the amounts each multiplied by the number of tags of
    its expense, not to the total. *)
Theorem summary_tags (expenses : list Expense.t) :
  let s := _generate_summary expenses in
  (forall tag, dict_get (tags s) tag = keyed_total (tag_pairs expenses) tag) /\
  (adds_exactly (map snd (tag_pairs expenses)) ->
   (Qsum (Qvalues (tags s))
    == Qsum (map (fun e => inject_Z (Z.of_nat (List.length (Expense.tags e)))
                           * Dec.value (Expense.amount e)) expenses))%Q).
Proof.
  split.
  - apply (summary_lookups expenses).
  - intros H. unfold _generate_summary.
    destruct (summary_dictionaries expenses
                (mkSummary Dec.zero_00 [] [] [] (Z.of_nat (List.length expenses))))
      as (_ & _ & Hg & _).
    cbv zeta in *. cbn [tags] in *. rewrite Hg.
    rewrite (Qsum_accumulate_all _ H), map_map. apply Qsum_tag_pairs.
Qed.

Lemma summary_tags_witness :
  let a := Expense.mk 1 "alice" (cents 1000) "Food" (at_noon 2024 1 10) "lunch"
             ["work"; "team"] in
  let b := Expense.mk 2 "alice" (cents 250) "Food" (at_noon 2024 1 11) "snack" [] in
  let s := _generate_summary [a; b] in
  adds_exactly (map snd (tag_pairs [a; b])) /\
  (Qsum (Qvalues (tags s)) == 2000 # 100)%Q /\
  (Dec.value (total s) == 1250 # 100)%Q.
Proof.
  intros a b s.
  assert (H : adds_exactly (map snd (tag_pairs [a; b]))).
  { split; [repeat constructor; simpl; lia | vm_compute; reflexivity]. }
  split; [exact H|].
  destruct (summary_tags [a; b]) as (_ & Hs).
  specialize (Hs H). fold s in Hs.
  split; [rewrite Hs|]; vm_compute; reflexivity.
Defined.

(** X3.  Within the precision of the context the summary does not depend on
    the order of the expenses: when the amounts have at most two fractional
    digits and add up, in magnitude, to less than 10^26, a permutation of
    the list gives the same total, the same count and the same entry under
    every category and day; and the same entry under every tag when the
    amounts counted once for each of their tags are within these bounds
    too. *)
Theorem summary_permutation (expenses expenses' : list Expense.t) :
  Permutation expenses expenses' ->
  adds_exactly (map Expense.amount expenses) ->
  let s := _generate_summary expenses in
  let s' := _generate_summary expenses' in
  total s = total s' /\
  count s = count s' /\
  (forall c, dict_get (categories s) c = dict_get (categories s') c) /\
  (forall day, dict_get (daily_totals s) day = dict_get (daily_totals s') day) /\
  (adds_exactly (map snd (tag_pairs expenses)) ->
   forall tag, dict_get (tags s) tag = dict_get (tags s') tag).
Proof.
  intros P H s s'.
  destruct (summary_lookups expenses) as (Ht & Hn & Hc & Hg & Hd).
  destruct (summary_lookups expenses') as (Ht' & Hn' & Hc' & Hg' & Hd').
  fold s in Ht, Hn, Hc, Hd, Hg. fold s' in Ht', Hn', Hc', Hd', Hg'.
  repeat split.
  - rewrite Ht, Ht'. apply sum_from_permutation; [exact H|].
    apply Permutation_map, P.
  - rewrite Hn, Hn'. f_equal. apply Permutation_length, P.
  - intros c. rewrite Hc, Hc'. apply keyed_total_permutation.
    + unfold category_pairs. rewrite map_map. exact H.
    + apply Permutation_map, P.
  - intros day. rewrite Hd, Hd'. apply keyed_total_permutation.
    + unfold day_pairs. rewrite map_map. exact H.
    + apply Permutation_map, P.
  - intros Hg2 tag. rewrite Hg, Hg'. apply keyed_total_permutation.
    + exact Hg2.
    + apply Permutation_flat_map, P.
Qed.

Lemma summary_permutation_witness :
  let a := food_expense 1 (cents 1000) (at_noon 2024 1 10) in
  let b := food_expense 2 (cents 250) (at_noon 2024 1 11) in
  Permutation [a; b] [b; a] /\
  adds_exactly (map Expense.amount [a; b]) /\
  total (_generate_summary [a; b]) = total (_generate_summary [b; a]) /\
  dict_get (categories (_generate_summary [a; b])) "Food" = Some (cents 1250).
Proof.
  intros a b.
  assert (P : Permutation [a; b] [b; a]) by apply perm_swap.
  assert (H : adds_exactly (map Expense.amount [a; b])).
  { split; [repeat constructor; simpl; lia | vm_compute; reflexivity]. }
  split; [exact P|]. split; [exact H|].
  destruct (summary_permutation [a; b] [b; a] P H) as (Ht & _ & Hc & _).
  split; [exact Ht|]. rewrite Hc. vm_compute. reflexivity.
Defined.

(** Beyond the precision the order matters: 99999999999999999999999999.99
    and three times 0.04 add up to 100000000000000000000000000.0 in this
    order and to 100000000000000000000000000.1 in the reverse order. *)
Example summary_order_beyond_precision :
  let a := food_expense 1 (cents 9999999999999999999999999999) (at_noon 2024 1 10) in
  let b := food_expense 2 (cents 4) (at_noon 2024 1 11) in
  total (_generate_summary [a; b; b; b])
  = Dec.mkDec 1000000000000000000000000000 (-1) /\
  total (_generate_summary [b; b; b; a])
  = Dec.mkDec 1000000000000000000000000001 (-1).
Proof. split; vm_compute; reflexivity. Qed.

(** X4.  In a returned analysis the total spent is the amounts added in the
    order of the list, every entry of the category distribution is the
    total of the expenses of that category, and a category is there only
    when an expense has it.  When the amounts have at most two fractional
    digits and add up, in magnitude, to less than 10^26, the entries add up
    to the total spent. *)
Theorem analysis_distribution (expenses : list Item) (period_days : Z)
    (a : Analysis) :
  analyze_spending_pattern expenses period_days = Ok a ->
  total_spent a = sum_from Dec.zero_00 (map amount expenses) /\
  (forall c, dict_get (category_distribution a) c
             = if has_category c expenses
               then Some (category_total expenses c) else None) /\
  (adds_exactly (map amount expenses) ->
   (Qsum (Qvalues (category_distribution a)) == Dec.value (total_spent a))%Q).
Proof.
  intros H. destruct expenses as [|e0 rest] eqn:E.
  - injection H as <-. simpl. repeat split.
  - rewrite <- E in *.
    destruct (analyze_returns expenses period_days a) as
      (st & most & Hl & I & _ & _ & Ht & _ & _ & Hd);
      [rewrite E; discriminate | exact H |].
    rewrite Ht, Hd. split; [apply (inv_spent _ _ I)|].
    split; [apply (inv_dist _ _ I)|].
    intros Hx.
    assert (Ep : map snd (item_pairs expenses) = map amount expenses)
      by (unfold item_pairs; rewrite map_map; reflexivity).
    rewrite (totals_loop_accumulates _ _ _ Hl), (inv_spent _ _ I).
    cbn [distribution no_totals].
    rewrite Qsum_accumulate_all by (rewrite Ep; exact Hx).
    rewrite Ep, (value_sum_from _ Hx). reflexivity.
Qed.

Lemma analysis_distribution_witness :
  exists a,
    analyze_spending_pattern (three_foods 4000) 30 = Ok a /\
    adds_exactly (map amount (three_foods 4000)) /\
    total_spent a = cents 6000 /\
    dict_get (category_distribution a) "Food" = Some (cents 6000) /\
    (Qsum (Qvalues (category_distribution a)) == 6000 # 100)%Q.
Proof.
  destruct (analyze_spending_pattern (three_foods 4000) 30) as [a|] eqn:H;
    [|vm_compute in H; discriminate].
  exists a. split; [reflexivity|].
  assert (Hx : adds_exactly (map amount (three_foods 4000))).
  { split; [repeat constructor; simpl; lia | vm_compute; reflexivity]. }
  split; [exact Hx|].
  destruct (analysis_distribution (three_foods 4000) 30 a H) as (Ht & Hc & Hs).
  split; [rewrite Ht; vm_compute; reflexivity|].
  split; [rewrite Hc; vm_compute; reflexivity|].
  rewrite (Hs Hx), Ht. vm_compute. reflexivity.
Defined.

(** ** The budget check within the precision *)

(** The sum of two amounts within the precision is the sum of the
    numbers. *)
Lemma value_add (x y : Dec.Decimal) :
  adds_exactly [x; y] ->
  (Dec.value (Dec.add x y) == Dec.value x + Dec.value y)%Q.
Proof.
  intros (Hl & Hb).
  inversion Hl as [|? ? Hx Hl']; subst. inversion Hl' as [|? ? Hy _]; subst.
  cbn [magnitudes fold_right] in Hb.
  rewrite add_fits; [apply value_add_exact|].
  unfold Dec.add_exact, Dec.align, hundredths in *. cbn [Dec.coeff].
  set (m := Z.min (Dec.expo x) (Dec.expo y)) in *.
  assert (Hm : -2 <= m) by (subst m; lia).
  assert (Hp : 1 <= 10 ^ (m + 2)) by (apply (Z.pow_le_mono_r 10 0); lia).
  assert (Ex : Dec.coeff x * 10 ^ (Dec.expo x + 2)
               = Dec.coeff x * 10 ^ (Dec.expo x - m) * 10 ^ (m + 2)).
  { rewrite <- Z.mul_assoc, <- Z.pow_add_r by (subst m; lia).
    do 2 f_equal. lia. }
  assert (Ey : Dec.coeff y * 10 ^ (Dec.expo y + 2)
               = Dec.coeff y * 10 ^ (Dec.expo y - m) * 10 ^ (m + 2)).
  { rewrite <- Z.mul_assoc, <- Z.pow_add_r by (subst m; lia).
    do 2 f_equal. lia. }
  rewrite Ex, Ey, !Z.abs_mul in Hb.
  rewrite (Z.abs_eq (10 ^ (m + 2))) in Hb by lia.
  set (X := Z.abs (Dec.coeff x * 10 ^ (Dec.expo x - m))) in *.
  set (Y := Z.abs (Dec.coeff y * 10 ^ (Dec.expo y - m))) in *.
  assert (0 <= X) by (subst X; lia). assert (0 <= Y) by (subst Y; lia).
  assert (Z.abs (Dec.coeff x * 10 ^ (Dec.expo x - m)
                 + Dec.coeff y * 10 ^ (Dec.expo y - m)) <= X + Y)
    by (subst X Y; lia).
  nia.
Qed.

Section BudgetWithinPrecision.

Context {R : Type} {repo : ExpenseRepository R}.

(** X17.  For a category whose budget limit is set and not zero, and a
    total and an amount of at most two fractional digits whose magnitudes
    add up to less than 10^26, the check passes when the total the
    repository gives for the month, plus the amount of the expense, is at
    most the limit, and fails with BudgetLimitExceededError when it is
    above; the sum and the comparison are then those of the numbers. *)
Theorem budget_check_decides (user_id : string) (expense_data : RawDict)
    (w : World R) (key v : PyVal) (c : Category.t)
    (limit current_total a : Dec.Decimal) :
  getitem expense_data "category" = Ok key ->
  get_category (repository w) user_id key = Ok (Some c) ->
  Category.budget_limit c = Some limit ->
  Dec.coeff limit <> 0 ->
  get_category_total (repository w) user_id key (replace_day (now w) 1)
  = Ok current_total ->
  getitem expense_data "amount" = Ok v ->
  Decimal_of v = Ok (Dec.Finite a) ->
  adds_exactly [current_total; a] ->
  ((Dec.value current_total + Dec.value a <= Dec.value limit)%Q ->
   fst (_check_budget_limits user_id expense_data w) = Ok tt) /\
  ((Dec.value limit < Dec.value current_total + Dec.value a)%Q ->
   fst (_check_budget_limits user_id expense_data w)
   = Raise BudgetLimitExceededError).
Proof.
  intros Hk Hc Hl Hz Ht Hv Ha Hx.
  rewrite (nonzero_limit_enforced user_id expense_data w key v c limit
             current_total a Hk Hc Hl Hz Ht Hv Ha).
  unfold Dec.leb. split; intros H.
  - rewrite <- (value_add _ _ Hx) in H. apply gtb_false_value in H.
    rewrite H. reflexivity.
  - rewrite <- (value_add _ _ Hx) in H. apply gtb_value in H.
    rewrite H. reflexivity.
Qed.

End BudgetWithinPrecision.

Lemma budget_check_decides_witness :
  let w := world_at (at_noon 2024 1 25)
             (food_store (Some (cents 20000))
                [food_expense 1 (cents 15000) (at_noon 2024 1 10)]) in
  adds_exactly [cents 15000; cents 4000] /\
  adds_exactly [cents 15000; cents 6000] /\
  fst (_check_budget_limits "alice"
         (record (PyStr "40.00") "Food" (PyStr "2024-01-20")) w) = Ok tt /\
  fst (_check_budget_limits "alice"
         (record (PyStr "60.00") "Food" (PyStr "2024-01-20")) w)
  = Raise BudgetLimitExceededError.
Proof.
  intros w.
  assert (H4 : adds_exactly [cents 15000; cents 4000])
    by (split; [repeat constructor; simpl; lia | vm_compute; reflexivity]).
  assert (H6 : adds_exactly [cents 15000; cents 6000])
    by (split; [repeat constructor; simpl; lia | vm_compute; reflexivity]).
  split; [exact H4|]. split; [exact H6|]. split.
  - apply (budget_check_decides "alice" _ w (PyStr "Food") (PyStr "40.00")
             (Category.mk "Food" (Some (cents 20000))) (cents 20000)
             (cents 15000) (cents 4000));
      try exact H4; try (vm_compute; reflexivity); try (vm_compute; discriminate).
  - apply (budget_check_decides "alice" _ w (PyStr "Food") (PyStr "60.00")
             (Category.mk "Food" (Some (cents 20000))) (cents 20000)
             (cents 15000) (cents 6000));
      try exact H6; try (vm_compute; reflexivity); try (vm_compute; discriminate).
Defined.

(** Beyond the precision the check follows the rounded sum: with a limit
    of 1E+28 and a total of the month of 1E+28, an expense of 0.01 passes,
    since [current_total + Decimal('0.01')] is rounded to 28 digits and is
    not above the limit. *)
Example budget_check_beyond_precision :
  let big := Dec.mkDec 1 28 in
  let w := world_at (at_noon 2024 1 25)
             (food_store (Some big) [food_expense 1 big (at_noon 2024 1 10)]) in
  let raw := record (PyStr "0.01") "Food" (PyStr "2024-01-20") in
  get_category_total (repository w) "alice" (PyStr "Food")
    (replace_day (now w) 1)
  = Ok (Dec.mkDec 1000000000000000000000000000 1) /\
  (Dec.value big
   < Dec.value (Dec.mkDec 1000000000000000000000000000 1) + Dec.value (cents 1))%Q /\
  fst (_check_budget_limits "alice" raw w) = Ok tt.
Proof. repeat split; vm_compute; reflexivity. Qed.
